(** * pabotscope: timeline reconstruction, concurrency sampling, ranking
      and chart downsampling

    A shallow embedding of [src/pabotscope.py].

    Conventions of the embedding.
    - A [datetime] is the number of microseconds it denotes, a [timedelta]
      a number of microseconds; both are integers.  [build_timeline td]
      and the sampling loop are values on these counts, without the
      calendar limits of the interpreter's [datetime] type;
      [build_timeline_result] and [main] raise where the interpreter does,
      with [timedelta_of_float] and [datetime_add].
    - A Python [float] is an IEEE 754 binary64 value, represented by
      [spec_float] with precision 53 and maximal exponent 1024; every
      operation is the correctly rounded one of the standard library's
      specification of binary64.
    - A Python [int] is an integer of [Z].
    - A [dict] is the list of its items in insertion order.
    - Code that can raise returns a [result].
    - A line of the log is a [string], its characters the code points below
      256; a printed text is the list of its code points, and what a
      function prints is the list of the texts of its calls of [print]. *)

From Stdlib Require Import ZArith List String Ascii Bool Lia.
From Stdlib Require Import Permutation Sorted.
From Stdlib Require Import Reals Lra.
From Stdlib Require Import Floats.SpecFloat.
From Equations Require Import Equations.
Import ListNotations.

Local Open Scope string_scope.
Local Open Scope Z_scope.

(** ** Python values *)

Definition datetime := Z.
Definition timedelta := Z.
Definition pyfloat := spec_float.

(** [timedelta(seconds=1)], in microseconds. *)
Definition one_second : timedelta := 1000000.

(** A dictionary with string keys: its items, oldest insertion first. *)
Definition dict (V : Type) := list (string * V).

Fixpoint dict_get {V : Type} (d : dict V) (k : string) : option V :=
  match d with
  | [] => None
  | (k', v) :: d' => if String.eqb k' k then Some v else dict_get d' k
  end.

Definition dict_keys {V : Type} (d : dict V) : list string := map fst d.

(** The invariant of a dictionary: no key occurs twice. *)
Definition dict_wf {V : Type} (d : dict V) : Prop := NoDup (dict_keys d).

(** ** Sorting

    [list.sort] and [sorted] are stable and compare with [<] only.  They are
    modelled by the stable insertion sort: an element is placed after every
    element that is smaller and before the first that is not. *)

Section Sorting.
Context {A : Type}.
Variable lt : A -> A -> bool.

Fixpoint insert_sorted (x : A) (l : list A) : list A :=
  match l with
  | [] => [x]
  | y :: l' => if lt y x then y :: insert_sorted x l' else x :: y :: l'
  end.

Definition py_sort (l : list A) : list A := fold_right insert_sorted [] l.

End Sorting.

(** ** Timeline records

    A record is the tuple [(time, event_type, test_name)] with
    [event_type] one of the strings ["start"] and ["end"]. *)

Definition record := (datetime * string * string)%type.

Definition rec_time (r : record) : datetime := fst (fst r).
Definition rec_kind (r : record) : string := snd (fst r).
Definition rec_test (r : record) : string := snd r.

(** Python's [<] on tuples: the first position that differs decides. *)
Definition record_lt (a b : record) : bool :=
  let '(ta, ka, na) := a in
  let '(tb, kb, nb) := b in
  if ta <? tb then true
  else if negb (ta =? tb) then false
  else if String.ltb ka kb then true
  else if negb (String.eqb ka kb) then false
  else String.ltb na nb.

(** Sorting by time alone, stably: the order the specification describes. *)
Definition time_lt (a b : record) : bool := rec_time a <? rec_time b.

Section Timeline.

(** [timedelta(seconds=d)] for a float [d]: the library's conversion of a
    number of seconds into microseconds, taken as given. *)
Variable timedelta_seconds : pyfloat -> timedelta.

(** [timedelta(seconds=durations.get(test, 0))] *)
Definition fallback_delta (durations : dict pyfloat) (test : string) : timedelta :=
  match dict_get durations test with
  | Some d => timedelta_seconds d
  | None => 0
  end.

(** [ends.get(test, start_time + timedelta(seconds=durations.get(test, 0)))] *)
Definition end_time_of (ends : dict datetime) (durations : dict pyfloat)
    (test : string) (start_time : datetime) : datetime :=
  match dict_get ends test with
  | Some e => e
  | None => start_time + fallback_delta durations test
  end.

(** The list [timeline] before [timeline.sort()]. *)
Fixpoint timeline_appended (starts ends : dict datetime) (durations : dict pyfloat)
    : list record :=
  match starts with
  | [] => []
  | (test, start_time) :: rest =>
      let end_time := end_time_of ends durations test start_time in
      (start_time, "start", test) :: (end_time, "end", test)
        :: timeline_appended rest ends durations
  end.

Definition build_timeline (starts ends : dict datetime) (durations : dict pyfloat)
    : list record :=
  py_sort record_lt (timeline_appended starts ends durations).

(** The timeline as the specification words it: sorted by timestamp with a
    stable sort, ties left in insertion order. *)
Definition spec_timeline (starts ends : dict datetime) (durations : dict pyfloat)
    : list record :=
  py_sort time_lt (timeline_appended starts ends durations).

(** *** The sampling loop of [main] *)

(** The test [s_time <= time_cursor < e_time]. *)
Definition is_active (ends : dict datetime) (durations : dict pyfloat)
    (time_cursor : datetime) (item : string * datetime) : bool :=
  let '(test, s_time) := item in
  let e_time := end_time_of ends durations test s_time in
  (s_time <=? time_cursor) && (time_cursor <? e_time).

(** The inner [for] loop: [active] after all items of [starts]. *)
Definition count_active (starts ends : dict datetime) (durations : dict pyfloat)
    (time_cursor : datetime) : Z :=
  fold_left
    (fun active item =>
       if is_active ends durations time_cursor item then active + 1 else active)
    starts 0.

(** The [while time_cursor <= end_time] loop. *)
Equations? sample_loop (starts ends : dict datetime) (durations : dict pyfloat)
    (end_time time_cursor : datetime) (parallel_counts : list (datetime * Z))
    : list (datetime * Z)
    by wf (Z.to_nat (end_time - time_cursor + 1)) lt :=
  sample_loop starts ends durations end_time time_cursor parallel_counts
    with Z_le_gt_dec time_cursor end_time => {
    | left _ :=
        sample_loop starts ends durations end_time (time_cursor + one_second)
          (parallel_counts
             ++ [(time_cursor, count_active starts ends durations time_cursor)]);
    | right _ := parallel_counts }.
Proof. unfold one_second. lia. Qed.

(** [parallel_counts] as [main] builds it; empty when the timeline is. *)
Definition parallel_counts (starts ends : dict datetime) (durations : dict pyfloat)
    : list (datetime * Z) :=
  let timeline := build_timeline starts ends durations in
  match timeline with
  | [] => []
  | first :: _ =>
      sample_loop starts ends durations
        (rec_time (last timeline first)) (rec_time first) []
  end.

End Timeline.

(** ** Exceptions *)

Inductive exn : Type :=
| ValueError (origin : string)
| OverflowError
| ZeroDivisionError
| IndexError.

Inductive result (A : Type) : Type :=
| Ok (a : A)
| Raise (e : exn).

Arguments Ok {A} a.
Arguments Raise {A} e.

Definition bind {A B : Type} (c : result A) (k : A -> result B) : result B :=
  match c with
  | Ok a => k a
  | Raise e => Raise e
  end.

Notation "x <- c ;; k" := (bind c (fun x => k))
  (at level 61, c at next level, right associativity).

(** A list comprehension whose element expression can raise: the first
    exception, in list order, ends it. *)
Fixpoint map_result {A B : Type} (f : A -> result B) (l : list A) : result (list B) :=
  match l with
  | [] => Ok []
  | x :: l' =>
      y <- f x ;;
      ys <- map_result f l' ;;
      Ok (y :: ys)
  end.

(** ** Binary64 arithmetic *)

Definition f64_prec : Z := 53.
Definition f64_emax : Z := 1024.

Definition f64_mul : pyfloat -> pyfloat -> pyfloat := SFmul f64_prec f64_emax.
Definition f64_div : pyfloat -> pyfloat -> pyfloat := SFdiv f64_prec f64_emax.
Definition f64_add : pyfloat -> pyfloat -> pyfloat := SFadd f64_prec f64_emax.

(** The nearest double of an integer, ties to even; an infinity beyond the
    range. *)
Definition f64_of_Z (n : Z) : pyfloat := binary_normalize f64_prec f64_emax n 0 false.

Definition f64_zero : pyfloat := S754_zero false.

(** The integer part of a finite double, towards zero. *)
Definition f64_trunc (x : pyfloat) : Z :=
  match x with
  | S754_finite s m e =>
      cond_Zopp s (match e with
                   | Zneg p => Z.pos m / 2 ^ Z.pos p
                   | _ => Z.pos m * 2 ^ e
                   end)
  | _ => 0
  end.

(** The largest integer not above a finite double. *)
Definition f64_floor (x : pyfloat) : Z :=
  match x with
  | S754_finite s m e =>
      match e with
      | Zneg p => cond_Zopp s (Z.pos m) / 2 ^ Z.pos p
      | _ => cond_Zopp s (Z.pos m) * 2 ^ e
      end
  | _ => 0
  end.

(** *** Python's operators on [int] and [float] *)

(** [float(n)] as the arithmetic operators apply it to an [int] operand. *)
Definition int_to_float (n : Z) : result pyfloat :=
  match f64_of_Z n with
  | S754_infinity _ => Raise OverflowError
  | x => Ok x
  end.

(** [a / b] on two [int]: the correctly rounded quotient. *)
Definition int_true_div (a b : Z) : result pyfloat :=
  if b =? 0 then Raise ZeroDivisionError
  else
    let negate := xorb (a <? 0) (b <? 0) in
    if a =? 0 then Ok (S754_zero negate)
    else
      let '(q, e, l) := SFdiv_core_binary f64_prec f64_emax (Z.abs a) 0 (Z.abs b) 0 in
      match binary_round_aux f64_prec f64_emax negate q e l with
      | S754_infinity _ => Raise OverflowError
      | x => Ok x
      end.

(** [x * n] for a [float] [x] and an [int] [n]. *)
Definition float_mul_int (x : pyfloat) (n : Z) : result pyfloat :=
  y <- int_to_float n ;;
  Ok (f64_mul x y).

(** [int(x)] for a [float] [x]. *)
Definition float_to_int (x : pyfloat) : result Z :=
  match x with
  | S754_nan => Raise (ValueError "int")
  | S754_infinity _ => Raise OverflowError
  | _ => Ok (f64_trunc x)
  end.

(** [max(data)] on a list of [int]. *)
Definition py_max (data : list Z) : result Z :=
  match data with
  | [] => Raise (ValueError "max")
  | x :: rest => Ok (fold_left Z.max rest x)
  end.

(** [x or 1] on an [int]. *)
Definition or_one (x : Z) : Z := if x =? 0 then 1 else x.

(** [l[i]] on a list, with Python's negative indices. *)
Definition py_index {A : Type} (l : list A) (i : Z) : result A :=
  let n := Z.of_nat (List.length l) in
  let j := if i <? 0 then i + n else i in
  if (j <? 0) || (n <=? j) then Raise IndexError
  else match nth_error l (Z.to_nat j) with
       | Some x => Ok x
       | None => Raise IndexError
       end.

(** [range(n)] *)
Definition py_range (n : Z) : list Z := map Z.of_nat (seq 0 (Z.to_nat n)).

(** ** [numpy.linspace(0, stop, num, dtype=int)]

    The library computes the samples in binary64: [step = delta / div] with
    [delta = stop - start] and [div = num - 1], then [y = arange(0, num) * step
    + start]; the last sample is overwritten by [stop]; the samples are
    floored and cast to 64-bit integers. *)

Definition f64_sub : pyfloat -> pyfloat -> pyfloat := SFsub f64_prec f64_emax.

(** [floor] followed by the cast to a 64-bit integer; what is no 64-bit
    integer becomes the least one, as the cast instruction does. *)
Definition np_floor_astype_int (x : pyfloat) : Z :=
  match x with
  | S754_zero _ => 0
  | S754_finite _ _ _ =>
      let z := f64_floor x in
      if (- 2 ^ 63 <=? z) && (z <? 2 ^ 63) then z else - 2 ^ 63
  | _ => - 2 ^ 63
  end.

(** [y[-1] = v] on a non-empty array. *)
Definition set_last {A : Type} (y : list A) (v : A) : list A :=
  match y with
  | [] => []
  | _ => removelast y ++ [v]
  end.

Definition np_linspace_int (stop num : Z) : result (list Z) :=
  if num <? 0 then Raise (ValueError "linspace")
  else
    let div := num - 1 in
    let start := f64_of_Z 0 in
    let delta := f64_sub (f64_of_Z stop) start in
    let y := map f64_of_Z (py_range num) in
    let y :=
      if 0 <? div then
        let step := f64_div delta (f64_of_Z div) in
        if SFeqb step f64_zero
        then map (fun v => f64_mul (f64_div v (f64_of_Z div)) delta) y
        else map (fun v => f64_mul v step) y
      else map (fun v => f64_mul v delta) y in
    let y := map (fun v => f64_add v start) y in
    let y := if 1 <? num then set_last y (f64_of_Z stop) else y in
    Ok (map np_floor_astype_int y).

(** ** The downsampler *)

(** [int((count / max_value) * max_height)] *)
Definition scale_count (max_value max_height count : Z) : result Z :=
  q <- int_true_div count max_value ;;
  p <- float_mul_int q max_height ;;
  float_to_int p.

(** The value of [data]: the selected counts. *)
Definition select_data (parallel_counts : list Z) (max_width : Z) : result (list Z) :=
  if max_width <? Z.of_nat (List.length parallel_counts) then
    indices <- np_linspace_int (Z.of_nat (List.length parallel_counts) - 1) max_width ;;
    map_result (py_index parallel_counts) indices
  else Ok parallel_counts.

(** The last two statements: [max_value] and [scaled]. *)
Definition rescale (data : list Z) (max_height : Z) : result (list Z) :=
  m <- py_max data ;;
  let max_value := or_one m in
  map_result (scale_count max_value max_height) data.

Definition downsample_to_width (parallel_counts : list Z) (max_height max_width : Z)
    : result (list Z) :=
  data <- select_data parallel_counts max_width ;;
  rescale data max_height.

(** [draw_ascii_chart_horizontal] up to the value of [scaled]: [None] when
    it prints ["No data."] and returns. *)
Definition chart_heights (parallel_counts : list Z) (max_height max_width : Z)
    : result (option (list Z)) :=
  match parallel_counts with
  | [] => Ok None
  | _ =>
      scaled <- downsample_to_width parallel_counts max_height max_width ;;
      Ok (Some scaled)
  end.

(** ** The ranking of [main] *)

(** The sort key [lambda x: -x[1]]. *)
Definition duration_key (item : string * pyfloat) : pyfloat := SFopp (snd item).

Definition key_lt (a b : string * pyfloat) : bool :=
  SFltb (duration_key a) (duration_key b).

(** [sorted(durations.items(), key=lambda x: -x[1])] *)
Definition ranked_durations (durations : dict pyfloat) : list (string * pyfloat) :=
  py_sort key_lt durations.

(** [l[:count]] *)
Definition py_slice_to {A : Type} (l : list A) (count : Z) : list A :=
  if count <? 0 then firstn (List.length l - Z.to_nat (- count)) l
  else firstn (Z.to_nat count) l.

(** [longest_tests] of [main]. *)
Definition longest_tests (durations : dict pyfloat) : list (string * pyfloat) :=
  py_slice_to (ranked_durations durations) 10.

(** The rows [print_longest_tests] prints: [longest_tests[:count]]. *)
Definition printed_rows (longest : list (string * pyfloat)) (count : Z)
    : list (string * pyfloat) :=
  py_slice_to longest count.

(** The double a decimal literal [n / 10^k] denotes, the nearest one, for
    [n] below [2^53] and [k] at most 22: both are doubles then, and the
    division rounds once. *)
Definition decimal (n : Z) (k : Z) : pyfloat := f64_div (f64_of_Z n) (f64_of_Z (10 ^ k)).

(** ** Orders used in the statements *)

(** [a] does not come after [b]: what a sort by [lt] establishes between an
    element and a later one. *)
Definition not_after {A : Type} (lt : A -> A -> bool) (a b : A) : Prop :=
  lt b a = false.

(** [a] and [b] tie: neither is smaller. *)
Definition tie {A : Type} (lt : A -> A -> bool) (a b : A) : bool :=
  negb (lt a b) && negb (lt b a).

Definition string_lt (s t : string) : Prop := String.compare s t = Lt.
Definition string_le (s t : string) : Prop := String.compare s t <> Gt.

(** The order of Python's tuples on records, written out. *)
Definition tuple_le (a b : record) : Prop :=
  rec_time a < rec_time b \/
  (rec_time a = rec_time b /\
   (string_lt (rec_kind a) (rec_kind b) \/
    (rec_kind a = rec_kind b /\ string_le (rec_test a) (rec_test b)))).

Definition time_le (a b : record) : Prop := rec_time a <= rec_time b.

(** A [float] that is a number. *)
Definition is_number (x : pyfloat) : Prop := x <> S754_nan.

(** [a >= b] on floats that are numbers. *)
Definition float_ge (a b : pyfloat) : Prop := SFltb a b = false.

(** A conversion to instantiate [timedelta_seconds] with: the nearest whole
    number of microseconds, ties to even. *)
Definition round_half_even (n d : Z) : Z :=
  let q := n / d in
  let r := n mod d in
  if 2 * r <? d then q
  else if d <? 2 * r then q + 1
  else if Z.even q then q else q + 1.

Definition whole_microseconds (x : pyfloat) : timedelta :=
  match x with
  | S754_finite s m e =>
      cond_Zopp s (match e with
                   | Zneg p => round_half_even (Z.pos m * 1000000) (2 ^ Z.pos p)
                   | _ => Z.pos m * 2 ^ e * 1000000
                   end)
  | _ => 0
  end.

(** The sampling grid: [first], [first + 1s], ... while not beyond [last]. *)
Definition grid (first last : datetime) : list datetime :=
  map (fun k => first + Z.of_nat k * one_second)
    (seq 0 (Z.to_nat ((last - first) / one_second + 1))).


(** The index selection as the specification words it: [num] indices over
    [0 .. stop] by linear interpolation, each rounded to the nearest
    integer. *)
Definition spec_nearest_indices (stop num : Z) : list Z :=
  map (fun i => round_half_even (i * stop) (num - 1)) (py_range num).

(** The exact quotient [floor (count * max_height / max_value)]. *)
Definition exact_scale (max_value max_height count : Z) : Z :=
  count * max_height / max_value.

(** ** The real value of a double *)

Definition bpow (e : Z) : R := powerRZ 2 e.

Definition SF2R (x : pyfloat) : R :=
  match x with
  | S754_finite s m e => (IZR (cond_Zopp s (Z.pos m)) * bpow e)%R
  | _ => 0%R
  end.

(** The exponent binary64 gives a number of magnitude [e]. *)
Definition fexp64 (e : Z) : Z := fexp f64_prec f64_emax e.

(** [l] is the position of the real [y] in the interval from [m] to [m + 1]. *)
Definition located (m : Z) (l : location) (y : R) : Prop :=
  match l with
  | loc_Exact => y = IZR m
  | loc_Inexact Lt => (IZR m < y < IZR m + 1 / 2)%R
  | loc_Inexact Eq => y = (IZR m + 1 / 2)%R
  | loc_Inexact Gt => (IZR m + 1 / 2 < y < IZR m + 1)%R
  end.

(** The reals that are finite doubles. *)
Definition in_format (x : R) : Prop :=
  exists m e : Z,
    x = (IZR m * bpow e)%R /\ Z.abs m < 2 ^ 53 /\ -1074 <= e <= 971.

(** The double of mantissa [m] at exponent [e] after rounding: a mantissa of
    54 bits is renormalised, an exponent beyond the range overflows. *)
Definition round_result (sx : bool) (m e : Z) : pyfloat :=
  match m with
  | Z0 => S754_zero sx
  | Zpos p =>
      if m =? 2 ^ 53
      then (if e + 1 <=? 971 then S754_finite sx (2 ^ 52) (e + 1) else S754_infinity sx)
      else (if e <=? 971 then S754_finite sx p e else S754_infinity sx)
  | Zneg _ => S754_nan
  end.

(** What a shifted mantissa with its round and sticky bits says of the
    real [x] it comes from: [x / 2^e] lies at the recorded position. *)
Definition shr_inv (mrs : shr_record) (e : Z) (x : R) : Prop :=
  0 <= shr_m mrs /\ located (shr_m mrs) (loc_of_shr_record mrs) (x * bpow (- e))%R.

(** A finite double in normal form with sign bit clear. *)
Definition nonneg_valid (x : pyfloat) : Prop :=
  match x with
  | S754_zero false => True
  | S754_finite false m e => bounded f64_prec f64_emax m e = true
  | _ => False
  end.

(** [v] is a double nearest to the real [x >= 0]: a multiple [m * 2^e] of the
    unit [2^e] that the format gives the magnitude of [x], at most half a
    unit away from [x]. *)
Definition nearest_to (v x : R) : Prop :=
  exists m e : Z,
    v = (IZR m * bpow e)%R /\
    -1074 <= e /\
    (e = -1074 \/ (bpow (52 + e) <= x)%R) /\
    (0 <= x < bpow (53 + e))%R /\
    (IZR m - 1 / 2 <= x * bpow (- e) <= IZR m + 1 / 2)%R.

(** The doubles of the index selection: [step], and the sample [y[i]] =
    [i * step + start] as long as it is not overwritten by [stop]. *)
Definition linspace_step (stop num : Z) : pyfloat :=
  f64_div (f64_sub (f64_of_Z stop) (f64_of_Z 0)) (f64_of_Z (num - 1)).

Definition linspace_sample (stop num i : Z) : pyfloat :=
  f64_add (f64_mul (f64_of_Z i) (linspace_step stop num)) (f64_of_Z 0).

(** The interpolated index in exact arithmetic, rounded down:
    [floor (i * stop / (num - 1))]. *)
Definition exact_index (stop num i : Z) : Z := i * stop / (num - 1).

(** ** Assignment to a dictionary *)

(** [d[k] = v]: the value of a key that is present is replaced where it
    stands, a new key goes to the end. *)
Fixpoint dict_set {V : Type} (d : dict V) (k : string) (v : V) : dict V :=
  match d with
  | [] => [(k, v)]
  | (k', v') :: d' =>
      if String.eqb k' k then (k', v) :: d' else (k', v') :: dict_set d' k v
  end.

(** ** Regular expressions

    The two patterns of [parse_log_lines] are sequences of atoms: a literal
    character, one character of a class, a greedy or lazy repetition of a
    class, a group boundary.  [re.search] is the backtracking matcher: the
    leftmost start, a greedy repetition longest first, a lazy one shortest
    first.  A character is a code point below 256; of these the class [\d]
    holds the ten ASCII digits and [.] every character but the line feed. *)

Inductive atom : Type :=
| Chr (c : ascii)
| Cls (f : ascii -> bool)
| Plus (f : ascii -> bool)
| LazyStar (f : ascii -> bool)
| LazyPlus (f : ascii -> bool)
| Mark.

Definition is_digit (c : ascii) : bool :=
  let n := N_of_ascii c in ((48 <=? n) && (n <=? 57))%N.

Definition line_feed : ascii := ascii_of_N 10.

(** The class [.] *)
Definition dot (c : ascii) : bool := negb (Ascii.eqb c line_feed).

(** The class [[\d.]] *)
Definition digit_or_point (c : ascii) : bool := is_digit c || Ascii.eqb c ".".

(** A repetition after its obligatory part, followed by [k]. *)
Fixpoint greedy (f : ascii -> bool) (k : string -> option (list string)) (s : string)
    : option (list string) :=
  match s with
  | String c s' =>
      if f c then
        match greedy f k s' with
        | Some r => Some r
        | None => k s
        end
      else k s
  | EmptyString => k s
  end.

Fixpoint lazy (f : ascii -> bool) (k : string -> option (list string)) (s : string)
    : option (list string) :=
  match k s with
  | Some r => Some r
  | None =>
      match s with
      | String c s' => if f c then lazy f k s' else None
      | EmptyString => None
      end
  end.

(** A match of the pattern at the start of [s]: the rest of the text at
    every group boundary, in the order of the pattern. *)
Fixpoint match_here (p : list atom) (s : string) : option (list string) :=
  match p with
  | [] => Some []
  | a :: p' =>
      let k := match_here p' in
      match a with
      | Chr c =>
          match s with
          | String c' s' => if Ascii.eqb c c' then k s' else None
          | EmptyString => None
          end
      | Cls f =>
          match s with
          | String c' s' => if f c' then k s' else None
          | EmptyString => None
          end
      | Plus f =>
          match s with
          | String c' s' => if f c' then greedy f k s' else None
          | EmptyString => None
          end
      | LazyStar f => lazy f k s
      | LazyPlus f =>
          match s with
          | String c' s' => if f c' then lazy f k s' else None
          | EmptyString => None
          end
      | Mark =>
          match k s with
          | Some r => Some (s :: r)
          | None => None
          end
      end
  end.

(** [pattern.search(s)] *)
Fixpoint re_search (p : list atom) (s : string) : option (list string) :=
  match match_here p s with
  | Some r => Some r
  | None =>
      match s with
      | String _ s' => re_search p s'
      | EmptyString => None
      end
  end.

(** The text between two positions, each given by the rest of the text. *)
Definition between (from to : string) : string :=
  substring 0 (String.length from - String.length to) from.

(** The text of group [n], counted from 0. *)
Definition group (n : nat) (marks : list string) : string :=
  between (nth (2 * n) marks "") (nth (2 * n + 1) marks "").

Definition lit (s : string) : list atom := map Chr (list_ascii_of_string s).

Definition digits (n : nat) : list atom := repeat (Cls is_digit) n.

(** [(?P<timestamp>\d{4}-\d{2}-\d{2} \d{2}:\d{2}:\d{2}\.\d+)] *)
Definition timestamp_re : list atom :=
  [Mark] ++ digits 4 ++ [Chr "-"] ++ digits 2 ++ [Chr "-"] ++ digits 2
    ++ [Chr " "] ++ digits 2 ++ [Chr ":"] ++ digits 2 ++ [Chr ":"] ++ digits 2
    ++ [Chr "."; Plus is_digit; Mark].

(** [<timestamp>.*?EXECUTING (?P<test>.+)] *)
Definition executing_re : list atom :=
  timestamp_re ++ [LazyStar dot] ++ lit "EXECUTING " ++ [Mark; Plus dot; Mark].

(** [<timestamp>.*?PASSED (?P<test>.+?) in (?P<duration>[\d.]+) seconds] *)
Definition passed_re : list atom :=
  timestamp_re ++ [LazyStar dot] ++ lit "PASSED " ++ [Mark; LazyPlus dot; Mark]
    ++ lit " in " ++ [Mark; Plus digit_or_point; Mark] ++ lit " seconds".

(** ** [datetime.strptime(ts, "%Y-%m-%d %H:%M:%S.%f")]

    On a text that one of the searches captured as [timestamp]: four, two,
    two, two, two and two digits with their separators and one digit or more
    after the point.  The library refuses a month outside 1..12, a day that
    the month does not have, the year 0, an hour above 23, a minute or second
    above 59 and more than six digits after the point; fewer than six digits
    are completed by zeros. *)

(** [int(s)] on a text of digits. *)
Definition int_of_digits (s : string) : Z :=
  fold_left (fun acc c => 10 * acc + (Z.of_N (N_of_ascii c) - 48))
    (list_ascii_of_string s) 0.

Definition is_leap (year : Z) : bool :=
  (year mod 4 =? 0) && (negb (year mod 100 =? 0) || (year mod 400 =? 0)).

Definition days_in_month (year month : Z) : Z :=
  if (month =? 2) && is_leap year then 29
  else nth (Z.to_nat month) [-1; 31; 28; 31; 30; 31; 30; 31; 31; 30; 31; 30; 31] (-1).

Definition days_before_year (year : Z) : Z :=
  let y := year - 1 in y * 365 + y / 4 - y / 100 + y / 400.

Definition days_before_month (year month : Z) : Z :=
  nth (Z.to_nat month) [-1; 0; 31; 59; 90; 120; 151; 181; 212; 243; 273; 304; 334] (-1)
  + (if (2 <? month) && is_leap year then 1 else 0).

(** The ordinal of a day, 1 for 1 January of the year 1. *)
Definition ymd2ord (year month day : Z) : Z :=
  days_before_year year + days_before_month year month + day.

(** The microseconds a [datetime] of these fields denotes. *)
Definition datetime_of (year month day hour minute second microsecond : Z) : datetime :=
  (((ymd2ord year month day * 24 + hour) * 60 + minute) * 60 + second) * 1000000
  + microsecond.

Definition strptime (ts : string) : result datetime :=
  let year := int_of_digits (substring 0 4 ts) in
  let month := int_of_digits (substring 5 2 ts) in
  let day := int_of_digits (substring 8 2 ts) in
  let hour := int_of_digits (substring 11 2 ts) in
  let minute := int_of_digits (substring 14 2 ts) in
  let second := int_of_digits (substring 17 2 ts) in
  let f := substring 20 (String.length ts - 20) ts in
  if (1 <=? year) && (1 <=? month) && (month <=? 12)
     && (1 <=? day) && (day <=? days_in_month year month)
     && (hour <=? 23) && (minute <=? 59) && (second <=? 59)
     && (Nat.leb (String.length f) 6)
  then
    let fraction := int_of_digits f * 10 ^ (6 - Z.of_nat (String.length f)) in
    Ok (datetime_of year month day hour minute second fraction)
  else Raise (ValueError "strptime").

(** ** [float(s)] on a text of digits and points

    The text is a number when it has one point at most and one digit at
    least; its value is the double nearest to the decimal, an infinity
    beyond the range. *)

(** The digits of [s] without its points, and the number of points. *)
Definition without_points (s : string) : list ascii :=
  filter is_digit (list_ascii_of_string s).

Definition count_points (s : string) : nat :=
  List.length (filter (fun c => Ascii.eqb c ".") (list_ascii_of_string s)).

(** The number of digits after the first point. *)
Fixpoint decimals (s : string) : nat :=
  match s with
  | EmptyString => 0
  | String c s' => if Ascii.eqb c "." then List.length (without_points s') else decimals s'
  end.

(** The double nearest to [n / d] for [0 <= n] and [0 < d]. *)
Definition nearest_double (n d : Z) : pyfloat :=
  if n =? 0 then S754_zero false
  else
    let '(q, e, l) := SFdiv_core_binary f64_prec f64_emax n 0 d 0 in
    binary_round_aux f64_prec f64_emax false q e l.

Definition py_float (s : string) : result pyfloat :=
  if Nat.leb (count_points s) 1 && negb (Nat.eqb (List.length (without_points s)) 0)
  then
    Ok (nearest_double (int_of_digits (string_of_list_ascii (without_points s)))
          (10 ^ Z.of_nat (decimals s)))
  else Raise (ValueError "float").

(** ** [parse_log_lines] *)

Definition parsed : Type := (dict datetime * dict datetime * dict pyfloat)%type.

(** The body of the loop on one line. *)
Definition parse_line (st : parsed) (line : string) : result parsed :=
  let '(starts, ends, durations) := st in
  match re_search executing_re line with
  | Some exec_match =>
      ts <- strptime (group 0 exec_match) ;;
      let test := group 1 exec_match in
      Ok (dict_set starts test ts, ends, durations)
  | None =>
      match re_search passed_re line with
      | Some pass_match =>
          ts <- strptime (group 0 pass_match) ;;
          let test := group 1 pass_match in
          dur <- py_float (group 2 pass_match) ;;
          Ok (starts, dict_set ends test ts, dict_set durations test dur)
      | None => Ok st
      end
  end.

Fixpoint parse_loop (log_lines : list string) (st : parsed) : result parsed :=
  match log_lines with
  | [] => Ok st
  | line :: rest =>
      st' <- parse_line st line ;;
      parse_loop rest st'
  end.

Definition parse_log_lines (log_lines : list string) : result parsed :=
  parse_loop log_lines ([], [], []).


(** ** Printed text

    A printed text is the list of its code points: the default block of
    the chart is no character below 256. *)

Definition text : Type := list N.

Definition text_of (s : string) : text := map N_of_ascii (list_ascii_of_string s).

Definition space : N := 32%N.

(** [str.isspace] on one character. *)
Definition py_isspace (c : N) : bool :=
  (((9 <=? c) && (c <=? 13)) || ((28 <=? c) && (c <=? 32))
   || (c =? 133) || (c =? 160) || (c =? 5760)
   || ((8192 <=? c) && (c <=? 8202))
   || (c =? 8232) || (c =? 8233) || (c =? 8239) || (c =? 8287) || (c =? 12288))%N.

(** [t.rstrip()] *)
Definition py_rstrip (t : text) : text :=
  fold_right
    (fun c kept =>
       match kept with
       | [] => if py_isspace c then [] else [c]
       | _ => c :: kept
       end)
    [] t.

(** [t.ljust(width)] and [t.rjust(width)], the alignments [<] and [>] of a
    format. *)
Definition ljust (width : nat) (t : text) : text :=
  (t ++ repeat space (width - List.length t))%list.

Definition rjust (width : nat) (t : text) : text :=
  (repeat space (width - List.length t) ++ t)%list.

(** ** [draw_ascii_chart_horizontal] *)

(** [range(max_height, 0, -1)] *)
Definition levels (max_height : Z) : list Z :=
  map (fun i => max_height - i) (py_range max_height).

(** ["".join(block if height >= level else " " for height in scaled).rstrip()] *)
Definition chart_line (block : text) (scaled : list Z) (level : Z) : text :=
  py_rstrip
    (List.concat (map (fun height => if level <=? height then block else [space]) scaled)).

(** The texts the function prints, one per call of [print]. *)
Definition draw_ascii_chart_horizontal (parallel_counts : list Z)
    (max_height max_width : Z) (block : text) : result (list text) :=
  match parallel_counts with
  | [] => Ok [text_of "No data."]
  | _ =>
      scaled <- downsample_to_width parallel_counts max_height max_width ;;
      Ok (map (chart_line block scaled) (levels max_height))
  end.

(** The default of [block]. *)
Definition default_block : text := [9619%N].

(** ** [print_longest_tests] *)

(** [str(n)] for [0 <= n]. *)
Fixpoint decimal_digits_from (fuel : nat) (n : Z) (acc : text) : text :=
  match fuel with
  | O => acc
  | S fuel' =>
      let acc' := Z.to_N (48 + n mod 10) :: acc in
      if n <? 10 then acc' else decimal_digits_from fuel' (n / 10) acc'
  end.

Definition decimal_digits (n : Z) : text :=
  decimal_digits_from (S (Z.to_nat (Z.log2 n))) n [].

(** The number of hundredths nearest to the magnitude of a finite double,
    ties to even. *)
Definition hundredths (x : pyfloat) : Z :=
  match x with
  | S754_finite _ m e =>
      match e with
      | Zneg p => round_half_even (Z.pos m * 100) (2 ^ Z.pos p)
      | _ => Z.pos m * 2 ^ e * 100
      end
  | _ => 0
  end.

Definition sign_text (negative : bool) : text := if negative then [45%N] else [].

(** [format(x, ".2f")] *)
Definition format_2f (x : pyfloat) : text :=
  match x with
  | S754_nan => text_of "nan"
  | S754_infinity s => (sign_text s ++ text_of "inf")%list
  | S754_zero s => (sign_text s ++ text_of "0.00")%list
  | S754_finite s _ _ =>
      let n := hundredths x in
      (sign_text s ++ decimal_digits (n / 100)
         ++ [46%N; Z.to_N (48 + n / 10 mod 10); Z.to_N (48 + n mod 10)])%list
  end.

(** [f"{name:<35} {duration:>12.2f}"] *)
Definition table_row (item : string * pyfloat) : text :=
  (ljust 35 (text_of (fst item)) ++ [space] ++ rjust 12 (format_2f (snd item)))%list.

Definition table_rule : text := repeat 45%N 50.

Definition table_head : text :=
  (ljust 35 (text_of "Test Name") ++ [space] ++ rjust 12 (text_of "Duration (s)"))%list.

(** The texts the function prints, one per call of [print]. *)
Definition print_longest_tests (longest : list (string * pyfloat)) (count : Z)
    : list text :=
  ([10%N :: text_of "Top Longest Running Tests:"; table_rule; table_head; table_rule]
     ++ map table_row (printed_rows longest count) ++ [table_rule])%list.

(** ** [timedelta(seconds=d)] and [datetime + timedelta] *)

(** [round(x)] of a finite double, ties to even. *)
Definition f64_round (x : pyfloat) : Z :=
  match x with
  | S754_finite s m e =>
      cond_Zopp s (match e with
                   | Zneg p => round_half_even (Z.pos m) (2 ^ Z.pos p)
                   | _ => Z.pos m * 2 ^ e
                   end)
  | _ => 0
  end.

(** The fractional part of a finite double, a double itself. *)
Definition f64_frac (x : pyfloat) : pyfloat :=
  match x with
  | S754_finite s m (Zneg p) =>
      binary_normalize f64_prec f64_emax
        (cond_Zopp s (Z.pos m mod 2 ^ Z.pos p)) (Zneg p) s
  | S754_finite s _ _ => S754_zero s
  | _ => x
  end.

(** [timedelta(seconds=d)] for a float [d], in microseconds: the whole
    seconds, and the fraction multiplied by [1e6] and rounded, ties to even;
    no more than 999999999 days. *)
Definition timedelta_of_float (d : pyfloat) : result timedelta :=
  match d with
  | S754_nan => Raise (ValueError "timedelta")
  | S754_infinity _ => Raise OverflowError
  | _ =>
      let us := f64_trunc d * 1000000
                + f64_round (f64_mul (f64_of_Z 1000000) (f64_frac d)) in
      let days := us / 86400000000 in
      if (-999999999 <=? days) && (days <=? 999999999) then Ok us
      else Raise OverflowError
  end.

(** The microseconds [timedelta(seconds=d)] denotes when it is one. *)
Definition timedelta_value (d : pyfloat) : timedelta :=
  match timedelta_of_float d with
  | Ok us => us
  | Raise _ => 0
  end.

(** [t + delta]: a [datetime] from the first instant of the year 1 to the
    last of 9999, an [OverflowError] beyond. *)
Definition datetime_add (t : datetime) (delta : timedelta) : result datetime :=
  let r := t + delta in
  if (datetime_of 1 1 1 0 0 0 0 <=? r) && (r <=? datetime_of 9999 12 31 23 59 59 999999)
  then Ok r
  else Raise OverflowError.

(** The default of [ends.get] is evaluated for every test, in
    [build_timeline] and in the loop of [main], whether or not the test has
    an end: [start_time + timedelta(seconds=durations.get(test, 0))] raises
    what the conversion or the sum raises. *)
Fixpoint check_fallbacks (starts : dict datetime) (durations : dict pyfloat)
    : result unit :=
  match starts with
  | [] => Ok tt
  | (test, start_time) :: rest =>
      delta <- match dict_get durations test with
               | Some d => timedelta_of_float d
               | None => Ok 0
               end ;;
      _ <- datetime_add start_time delta ;;
      check_fallbacks rest durations
  end.

(** ** [build_timeline], with what it raises

    [build_timeline td] above is the timeline as a value, for any
    conversion [td] of a duration.  The function of the source is
    [build_timeline_result]: each turn of its loop evaluates
    [start_time + timedelta(seconds=durations.get(test, 0))] before
    [ends.get] looks the test up, and raises what the conversion or the
    sum raises; the records are appended and sorted after that. *)



(** ** [main], from the lines [load_log_file] returns *)

(** [parallel_df["ParallelTests"].tolist()]: the counts, in order. *)
Definition parallel_tests (samples : list (datetime * Z)) : list Z := map snd samples.

(** The texts [main] prints.  The timeline and the samples are those of
    [build_timeline] and of the sampling loop with the conversion of a
    duration that [check_fallbacks] has found to be one; every
    [time_cursor += interval] of the loop is a sum that can overflow. *)
Definition main (log_lines : list string) : result (list text) :=
  st <- parse_log_lines log_lines ;;
  let '(starts, ends, durations) := st in
  _ <- check_fallbacks starts durations ;;
  match build_timeline timedelta_value starts ends durations with
  | [] => Ok []
  | _ :: _ =>
      let samples := parallel_counts timedelta_value starts ends durations in
      _ <- map_result (fun sample => datetime_add (fst sample) one_second) samples ;;
      let longest := longest_tests durations in
      chart <- draw_ascii_chart_horizontal (parallel_tests samples) 10 80 default_block ;;
      Ok (chart ++ print_longest_tests longest 10)%list
  end.

(** ** Texts used in the statements *)

(** Every character of [s] is of the class [f]. *)
Fixpoint all_chars (f : ascii -> bool) (s : string) : bool :=
  match s with
  | EmptyString => true
  | String c s' => f c && all_chars f s'
  end.

(** [s] begins with a character of the class [f]. *)
Definition head_is (f : ascii -> bool) (s : string) : bool :=
  match s with
  | EmptyString => false
  | String c _ => f c
  end.

(** [w in s] *)
Fixpoint contains (w s : string) : bool :=
  String.prefix w s ||
  match s with
  | EmptyString => false
  | String _ s' => contains w s'
  end.

(** The decimal digit of [n mod 10], and [n] written with [width] digits. *)
Definition digit_ascii (n : Z) : ascii := ascii_of_N (Z.to_N (48 + n mod 10)).

Fixpoint pad_digits (width : nat) (n : Z) : string :=
  match width with
  | O => ""
  | S w => pad_digits w (n / 10) ++ String (digit_ascii n) ""
  end.

(** A timestamp of the log: the fields with their separators, [k] digits
    after the point. *)
Definition timestamp_text (year month day hour minute second : Z)
    (k : nat) (fraction : Z) : string :=
  pad_digits 4 year ++ "-" ++ pad_digits 2 month ++ "-" ++ pad_digits 2 day ++ " "
    ++ pad_digits 2 hour ++ ":" ++ pad_digits 2 minute ++ ":" ++ pad_digits 2 second
    ++ "." ++ pad_digits k fraction.

(** The fields the library accepts. *)
Definition valid_fields (year month day hour minute second : Z) : bool :=
  (1 <=? year) && (1 <=? month) && (month <=? 12)
  && (1 <=? day) && (day <=? days_in_month year month)
  && (hour <=? 23) && (minute <=? 59) && (second <=? 59).

(** A line that neither search can match: it has no point, or it has no
    [EXECUTING ] and lacks one of the words of a [PASSED] line. *)
Definition no_event (line : string) : bool :=
  negb (contains "." line)
  || (negb (contains "EXECUTING " line)
      && negb (contains "PASSED " line && contains " in " line
               && contains " seconds" line)).

(** What a line of the log says. *)
Inductive event : Type :=
| Started (test : string) (ts : datetime)
| Passed (test : string) (ts : datetime) (dur : pyfloat).

(** The reading of one line: the body of the loop without its
    assignments. *)
Definition read_line (line : string) : result (option event) :=
  match re_search executing_re line with
  | Some exec_match =>
      ts <- strptime (group 0 exec_match) ;;
      Ok (Some (Started (group 1 exec_match) ts))
  | None =>
      match re_search passed_re line with
      | Some pass_match =>
          ts <- strptime (group 0 pass_match) ;;
          dur <- py_float (group 2 pass_match) ;;
          Ok (Some (Passed (group 1 pass_match) ts dur))
      | None => Ok None
      end
  end.

Definition is_started (test : string) (e : result (option event)) : bool :=
  match e with
  | Ok (Some (Started test' _)) => String.eqb test' test
  | _ => false
  end.

Definition is_passed (test : string) (e : result (option event)) : bool :=
  match e with
  | Ok (Some (Passed test' _ _)) => String.eqb test' test
  | _ => false
  end.

(** A double that is a number and is not below zero: a zero, a finite
    double or the infinity, with the sign bit clear. *)
Definition nonneg_number (x : pyfloat) : bool :=
  match x with
  | S754_zero false | S754_finite false _ _ | S754_infinity false => true
  | _ => false
  end.

(** The first and the last instant of [datetime]. *)
Definition datetime_min : datetime := datetime_of 1 1 1 0 0 0 0.
Definition datetime_max : datetime := datetime_of 9999 12 31 23 59 59 999999.

Definition in_datetime_range (t : datetime) : Prop :=
  datetime_min <= t <= datetime_max.

(** A log of five lines, and what [parse_log_lines] makes of it. *)
Definition sample_log : list string :=
  ["2024-05-01 12:00:00.123456 [PID:1] EXECUTING Suite.Test One"
     ++ String line_feed "";
   "Starting 2 processes";
   "2024-05-01 12:00:01.5 [PID:2] EXECUTING Suite.Test Two";
   "2024-05-01 12:00:02.5 [PID:2] PASSED Suite.Test Two in 1.00 seconds";
   "2024-05-01 12:00:03.5 [PID:1] PASSED Suite.Test One in 3.4 seconds"].

Definition sample_parsed : parsed :=
  ([("Suite.Test One", datetime_of 2024 5 1 12 0 0 123456);
    ("Suite.Test Two", datetime_of 2024 5 1 12 0 1 500000)],
   [("Suite.Test Two", datetime_of 2024 5 1 12 0 2 500000);
    ("Suite.Test One", datetime_of 2024 5 1 12 0 3 500000)],
   [("Suite.Test Two", decimal 100 2); ("Suite.Test One", decimal 34 1)]).

(** A log of a test of which the duration is no [timedelta]. *)
Definition overflow_log : list string :=
  ["2024-05-01 12:00:00.1 EXECUTING A";
   "2024-05-01 12:00:01.1 PASSED A in 1000000000000000 seconds"].

Definition overflow_parsed : parsed :=
  ([("A", datetime_of 2024 5 1 12 0 0 100000)],
   [("A", datetime_of 2024 5 1 12 0 1 100000)],
   [("A", f64_of_Z (10 ^ 15))]).

(** ** The state of the parsing, in the statements *)

Definition parsed_inv (st : parsed) : Prop :=
  let '(starts, ends, durations) := st in
  dict_wf starts /\ dict_wf ends /\ dict_wf durations /\
  dict_keys ends = dict_keys durations.

Definition starts_of (st : parsed) : dict datetime := fst (fst st).
Definition ends_of (st : parsed) : dict datetime := snd (fst st).
Definition durations_of (st : parsed) : dict pyfloat := snd st.

Definition times_in_range (d : dict datetime) : Prop :=
  Forall (fun item => in_datetime_range (snd item)) d.

(** * Facts *)

(** ** Strings *)

Lemma ascii_compare_refl (a : ascii) : Ascii.compare a a = Eq.
Proof. unfold Ascii.compare. apply N.compare_refl. Qed.

Lemma string_compare_refl (s : string) : String.compare s s = Eq.
Proof.
  induction s as [|a s IH]; simpl; [reflexivity|].
  rewrite ascii_compare_refl. exact IH.
Qed.

Lemma ascii_compare_lt_trans (a b c : ascii) :
  Ascii.compare a b = Lt -> Ascii.compare b c = Lt -> Ascii.compare a c = Lt.
Proof.
  unfold Ascii.compare. rewrite !N.compare_lt_iff. lia.
Qed.

Lemma string_compare_lt_trans (s t u : string) :
  String.compare s t = Lt -> String.compare t u = Lt -> String.compare s u = Lt.
Proof.
  revert t u. induction s as [|a s IH]; intros [|b t] [|c u]; simpl;
    try congruence.
  destruct (Ascii.compare a b) eqn:Hab; try discriminate;
    destruct (Ascii.compare b c) eqn:Hbc; try discriminate; intros H1 H2.
  - apply Ascii.compare_eq_iff in Hab, Hbc. subst.
    rewrite ascii_compare_refl. eauto.
  - apply Ascii.compare_eq_iff in Hab. subst. rewrite Hbc. reflexivity.
  - apply Ascii.compare_eq_iff in Hbc. subst. rewrite Hab. reflexivity.
  - rewrite (ascii_compare_lt_trans a b c Hab Hbc). reflexivity.
Qed.

Lemma string_ltb_asym (s t : string) :
  String.ltb s t = true -> String.ltb t s = false.
Proof.
  unfold String.ltb. rewrite (String.compare_antisym t s).
  destruct (String.compare s t); simpl; congruence.
Qed.

Lemma string_ltb_irrefl (s : string) : String.ltb s s = false.
Proof. unfold String.ltb. rewrite string_compare_refl. reflexivity. Qed.

Lemma string_ltb_negtrans (s t u : string) :
  String.ltb s t = false -> String.ltb t u = false -> String.ltb s u = false.
Proof.
  unfold String.ltb.
  destruct (String.compare s t) eqn:Hst; try discriminate;
    destruct (String.compare t u) eqn:Htu; try discriminate; intros _ _.
  - apply String.compare_eq_iff in Hst, Htu. subst.
    rewrite string_compare_refl. reflexivity.
  - apply String.compare_eq_iff in Hst. subst. rewrite Htu. reflexivity.
  - apply String.compare_eq_iff in Htu. subst. rewrite Hst. reflexivity.
  - assert (Hus : String.compare u s = Lt).
    { apply (string_compare_lt_trans u t s).
      - rewrite String.compare_antisym, Htu. reflexivity.
      - rewrite String.compare_antisym, Hst. reflexivity. }
    rewrite String.compare_antisym, Hus. reflexivity.
Qed.

(** ** The sort *)

Section SortingFacts.
Context {A : Type}.
Variable lt : A -> A -> bool.

Lemma insert_sorted_perm (x : A) (l : list A) :
  Permutation (insert_sorted lt x l) (x :: l).
Proof.
  induction l as [|y l IH]; simpl; [reflexivity|].
  destruct (lt y x); [|reflexivity].
  rewrite IH. apply perm_swap.
Qed.

Lemma py_sort_perm (l : list A) : Permutation (py_sort lt l) l.
Proof.
  induction l as [|x l IH]; simpl; [reflexivity|].
  rewrite insert_sorted_perm. now apply perm_skip.
Qed.

Lemma py_sort_length (l : list A) : List.length (py_sort lt l) = List.length l.
Proof. apply Permutation_length, py_sort_perm. Qed.

Lemma py_sort_In (x : A) (l : list A) : In x (py_sort lt l) <-> In x l.
Proof.
  split; apply Permutation_in; [|symmetry]; apply py_sort_perm.
Qed.

(** [lt] need only behave as an order on the elements that satisfy [P]. *)
Variable P : A -> Prop.
Hypothesis lt_asym : forall a b, P a -> P b -> lt a b = true -> lt b a = false.
Hypothesis lt_negtrans :
  forall a b c, P a -> P b -> P c ->
    lt a b = false -> lt b c = false -> lt a c = false.

Lemma insert_sorted_strongly (x : A) (l : list A) :
  P x -> Forall P l ->
  StronglySorted (not_after lt) l ->
  StronglySorted (not_after lt) (insert_sorted lt x l).
Proof.
  intros Px. induction l as [|y l IH]; intros HP Hs; simpl.
  - constructor; constructor.
  - inversion HP as [|? ? Py HPl]; subst.
    inversion Hs as [|? ? Hsl Hall]; subst.
    destruct (lt y x) eqn:Hyx.
    + constructor; [now apply IH|].
      apply (Permutation_Forall (x := x :: l)).
      * symmetry. apply insert_sorted_perm.
      * constructor; [|exact Hall].
        unfold not_after. now apply lt_asym.
    + constructor; [exact Hs|].
      constructor; [exact Hyx|].
      rewrite Forall_forall in *. intros z Hz.
      unfold not_after in *.
      apply (lt_negtrans z y x); auto.
Qed.

Lemma py_sort_strongly (l : list A) :
  Forall P l -> StronglySorted (not_after lt) (py_sort lt l).
Proof.
  induction l as [|x l IH]; intros HP; simpl; [constructor|].
  inversion HP; subst.
  apply insert_sorted_strongly; auto.
  apply (Permutation_Forall (x := l)); [symmetry; apply py_sort_perm|assumption].
Qed.

Lemma insert_sorted_stable (a x : A) (l : list A) :
  P a -> P x -> Forall P l ->
  filter (tie lt a) (insert_sorted lt x l) = filter (tie lt a) (x :: l).
Proof.
  intros Pa Px. induction l as [|y l IH]; intros HP; [reflexivity|].
  inversion HP as [|? ? Py HPl]; subst.
  cbn [insert_sorted]. destruct (lt y x) eqn:Hyx; [|reflexivity].
  cbn [filter]. rewrite (IH HPl). cbn [filter].
  destruct (tie lt a x) eqn:Hax; [|reflexivity].
  assert (Hay : tie lt a y = false).
  { unfold tie in *. apply andb_true_iff in Hax as [H1 H2].
    apply negb_true_iff in H1, H2.
    destruct (lt a y) eqn:E1; [reflexivity|].
    destruct (lt y a) eqn:E2; [reflexivity|].
    rewrite (lt_negtrans y a x Py Pa Px E2 H1) in Hyx. discriminate. }
  rewrite Hay. reflexivity.
Qed.

(** Stability: among the elements that tie with [a], the sort keeps the
    order of the input. *)
Lemma py_sort_stable (a : A) (l : list A) :
  P a -> Forall P l ->
  filter (tie lt a) (py_sort lt l) = filter (tie lt a) l.
Proof.
  intros Pa. induction l as [|x l IH]; intros HP; [reflexivity|].
  inversion HP as [|? ? Px HPl]; subst.
  cbn [py_sort fold_right]. fold (py_sort lt l).
  rewrite insert_sorted_stable; auto.
  - cbn [filter]. now rewrite IH.
  - apply (Permutation_Forall (x := l)); [symmetry; apply py_sort_perm|assumption].
Qed.

(** Where ties are equalities, a sorted list is determined by its elements. *)
Lemma sorted_perm_unique (l1 l2 : list A) :
  (forall a b, lt a b = false -> lt b a = false -> a = b) ->
  StronglySorted (not_after lt) l1 ->
  StronglySorted (not_after lt) l2 ->
  Permutation l1 l2 -> l1 = l2.
Proof.
  intros Hanti. revert l2.
  induction l1 as [|a l1 IH]; intros l2 Hs1 Hs2 Hperm.
  - apply Permutation_nil in Hperm. now subst.
  - destruct l2 as [|b l2];
      [apply Permutation_sym, Permutation_nil in Hperm; discriminate|].
    inversion Hs1 as [|? ? Hs1' Hall1]; subst.
    inversion Hs2 as [|? ? Hs2' Hall2]; subst.
    rewrite Forall_forall in Hall1, Hall2.
    assert (Hab : a = b).
    { assert (Hina : In a (b :: l2))
        by (apply (Permutation_in _ Hperm); now left).
      assert (Hinb : In b (a :: l1))
        by (apply (Permutation_in _ (Permutation_sym Hperm)); now left).
      destruct Hina as [->|Hina]; [reflexivity|].
      destruct Hinb as [->|Hinb]; [reflexivity|].
      apply Hanti; [apply (Hall2 a Hina)|apply (Hall1 b Hinb)]. }
    subst b. f_equal. apply IH; auto.
    now apply Permutation_cons_inv with a.
Qed.

End SortingFacts.

(** ** The order of records *)

Lemma record_lt_asym (a b : record) : record_lt a b = true -> record_lt b a = false.
Proof.
  destruct a as [[ta ka] na], b as [[tb kb] nb]. unfold record_lt.
  destruct (ta <? tb) eqn:E1.
  - intros _. apply Z.ltb_lt in E1.
    destruct (tb <? ta) eqn:E2; [apply Z.ltb_lt in E2; lia|].
    destruct (tb =? ta) eqn:E3; [apply Z.eqb_eq in E3; lia|reflexivity].
  - destruct (ta =? tb) eqn:E2; [|discriminate]. apply Z.eqb_eq in E2. subst tb.
    rewrite Z.ltb_irrefl, Z.eqb_refl. cbn [negb].
    destruct (String.ltb ka kb) eqn:E3.
    + intros _. rewrite (string_ltb_asym _ _ E3).
      destruct (String.eqb kb ka) eqn:E4; [|reflexivity].
      apply String.eqb_eq in E4. subst. rewrite string_ltb_irrefl in E3. discriminate.
    + destruct (String.eqb ka kb) eqn:E4; [|discriminate].
      apply String.eqb_eq in E4. subst kb.
      rewrite string_ltb_irrefl, String.eqb_refl. cbn [negb].
      apply string_ltb_asym.
Qed.

Lemma string_ltb_total (s t : string) :
  String.ltb s t = false -> s <> t -> String.ltb t s = true.
Proof.
  unfold String.ltb. rewrite (String.compare_antisym t s).
  destruct (String.compare s t) eqn:E; simpl; try congruence.
  apply String.compare_eq_iff in E. congruence.
Qed.

Lemma record_lt_negtrans (a b c : record) :
  record_lt a b = false -> record_lt b c = false -> record_lt a c = false.
Proof.
  destruct a as [[ta ka] na], b as [[tb kb] nb], c as [[tc kc] nc].
  unfold record_lt.
  destruct (Z.ltb_spec ta tb), (Z.eqb_spec ta tb); try discriminate; try lia;
    destruct (Z.ltb_spec tb tc), (Z.eqb_spec tb tc); try discriminate; try lia;
    destruct (Z.ltb_spec ta tc), (Z.eqb_spec ta tc); try lia; cbn [negb];
    try reflexivity.
  subst.
  destruct (String.ltb ka kb) eqn:Hab; [discriminate|].
  destruct (String.ltb kb kc) eqn:Hbc;
    [destruct (String.eqb_spec ka kb); discriminate|].
  rewrite (string_ltb_negtrans ka kb kc Hab Hbc).
  destruct (String.eqb_spec ka kb) as [->|Nab]; cbn [negb].
  - destruct (String.eqb_spec kb kc) as [->|Nbc]; cbn [negb]; [|reflexivity].
    apply string_ltb_negtrans.
  - intros _. destruct (String.eqb_spec kb kc) as [->|Nbc]; cbn [negb].
    + intros _. destruct (String.eqb_spec ka kc); [contradiction|reflexivity].
    + intros _. destruct (String.eqb_spec ka kc) as [->|Nac]; [|reflexivity].
      cbn [negb]. rewrite (string_ltb_total _ _ Hab Nab) in Hbc. discriminate.
Qed.

Lemma not_after_tuple_le (a b : record) :
  not_after record_lt a b <-> tuple_le a b.
Proof.
  destruct a as [[ta ka] na], b as [[tb kb] nb].
  unfold not_after, tuple_le, record_lt, rec_time, rec_kind, rec_test,
    string_lt, string_le. cbn [fst snd].
  destruct (Z.ltb_spec tb ta) as [Hlt|Hge].
  { split; [discriminate|intros [Hx|[Hx _]]; lia]. }
  destruct (Z.eqb_spec tb ta) as [->|Hne]; cbn [negb].
  2: { split; [intros _; left; lia|reflexivity]. }
  unfold String.ltb.
  rewrite (String.compare_antisym ka kb), (String.compare_antisym na nb).
  destruct (String.eqb_spec kb ka) as [->|N]; cbn [negb].
  - rewrite string_compare_refl. cbn.
    destruct (String.compare nb na) eqn:E; cbn; split; intros Hx;
      try discriminate; try reflexivity;
      try (right; split; [reflexivity|]; right;
           split; [reflexivity|]; congruence).
    destruct Hx as [Hx|[_ [Hx|[_ Hx]]]]; [lia|discriminate|congruence].
  - destruct (String.compare kb ka) eqn:E; cbn; split; intros Hx;
      try discriminate; try reflexivity.
    + apply String.compare_eq_iff in E. contradiction.
    + destruct Hx as [Hx|[_ [Hx|[Hx _]]]]; [lia|discriminate|congruence].
    + right. split; [reflexivity|]. left. reflexivity.
Qed.

Lemma record_lt_tie_eq (a b : record) :
  record_lt a b = false -> record_lt b a = false -> a = b.
Proof.
  intros Hab Hba.
  apply (proj1 (not_after_tuple_le b a)) in Hab.
  apply (proj1 (not_after_tuple_le a b)) in Hba.
  destruct a as [[ta ka] na], b as [[tb kb] nb].
  unfold tuple_le, string_lt, string_le, rec_time, rec_kind, rec_test in *.
  cbn [fst snd] in *.
  destruct Hab as [Hlt|[Ht [Hk|[Hk Hn]]]]; [lia| |];
    destruct Hba as [Hlt'|[Ht' [Hk'|[Hk' Hn']]]]; try lia; subst.
  - rewrite String.compare_antisym, Hk' in Hk. discriminate.
  - rewrite string_compare_refl in Hk. discriminate.
  - rewrite string_compare_refl in Hk'. discriminate.
  - rewrite String.compare_antisym in Hn.
    destruct (String.compare na nb) eqn:E; try (cbn in Hn; congruence).
    apply String.compare_eq_iff in E. now subst.
Qed.

Lemma not_after_time_le (a b : record) :
  not_after record_lt a b -> time_le a b.
Proof.
  rewrite not_after_tuple_le. unfold tuple_le, time_le. lia.
Qed.

(** ** The timeline *)


Lemma dict_get_In {V : Type} (d : dict V) (k : string) (v : V) :
  dict_get d k = Some v -> In (k, v) d.
Proof.
  induction d as [|[k' v'] d IH]; cbn [dict_get]; [discriminate|].
  destruct (String.eqb_spec k' k) as [->|N].
  - intros [= ->]. now left.
  - intros H. right. now apply IH.
Qed.

Lemma dict_get_None {V : Type} (d : dict V) (k : string) :
  dict_get d k = None <-> ~ In k (dict_keys d).
Proof.
  induction d as [|[k' v'] d IH]; cbn [dict_get dict_keys map fst In].
  - tauto.
  - destruct (String.eqb_spec k' k) as [->|N].
    + split; [discriminate|tauto].
    + unfold dict_keys in IH. rewrite IH. tauto.
Qed.

Section TimelineFacts.
Variable td : pyfloat -> timedelta.

Lemma timeline_appended_length (starts ends : dict datetime) (durations : dict pyfloat) :
  List.length (timeline_appended td starts ends durations) = (2 * List.length starts)%nat.
Proof.
  induction starts as [|[test s] rest IH]; cbn [timeline_appended List.length];
    [reflexivity|].
  rewrite IH. lia.
Qed.

Lemma timeline_appended_In (starts ends : dict datetime) (durations : dict pyfloat)
    (r : record) :
  In r (timeline_appended td starts ends durations) <->
  exists test s, In (test, s) starts /\
    (r = (s, "start", test) \/ r = (end_time_of td ends durations test s, "end", test)).
Proof.
  induction starts as [|[test s] rest IH]; cbn [timeline_appended In].
  - split; [tauto|]. intros (? & ? & [] & _).
  - rewrite IH. split.
    + intros [<-|[<-|(t' & s' & Hin & Hr)]].
      * exists test, s. auto.
      * exists test, s. auto.
      * exists t', s'. auto.
    + intros (t' & s' & [[= -> ->]|Hin] & Hr).
      * destruct Hr as [->| ->]; auto.
      * right. right. exists t', s'. auto.
Qed.


Lemma timeline_appended_perm (starts starts' ends : dict datetime)
    (durations : dict pyfloat) :
  Permutation starts starts' ->
  Permutation (timeline_appended td starts ends durations)
    (timeline_appended td starts' ends durations).
Proof.
  induction 1 as [|[t s] l l' _ IH|[t s] [t' s'] l|l l' l'' _ IH1 _ IH2];
    cbn [timeline_appended].
  - constructor.
  - now do 2 apply perm_skip.
  - set (tl := timeline_appended td l ends durations).
    set (r1 := (s', "start", t')). set (r2 := (end_time_of td ends durations t' s', "end", t')).
    set (r3 := (s, "start", t)). set (r4 := (end_time_of td ends durations t s, "end", t)).
    change (Permutation ([r1; r2] ++ [r3; r4] ++ tl) ([r3; r4] ++ [r1; r2] ++ tl))%list.
    rewrite !app_assoc. apply Permutation_app_tail, Permutation_app_comm.
  - now transitivity (timeline_appended td l' ends durations).
Qed.

(** C7: the timeline holds records only of tests that have an entry in
    [starts]; a test without one, whatever [ends] and [durations] hold for
    it, has no record. *)
Theorem build_timeline_only_started (starts ends : dict datetime)
    (durations : dict pyfloat) :
  (forall r, In r (build_timeline td starts ends durations) ->
     In (rec_test r) (dict_keys starts)) /\
  (forall test, dict_get starts test = None ->
     forall r, In r (build_timeline td starts ends durations) -> rec_test r <> test).
Proof.
  assert (H : forall r, In r (build_timeline td starts ends durations) ->
                In (rec_test r) (dict_keys starts)).
  { intros r Hr. unfold build_timeline in Hr. apply py_sort_In in Hr.
    apply timeline_appended_In in Hr as (test & s & Hin & Hr).
    assert (rec_test r = test) as -> by (destruct Hr as [-> | ->]; reflexivity).
    unfold dict_keys. change test with (fst (test, s)). now apply in_map. }
  split; [exact H|].
  intros test Hnone r Hr Heq. apply dict_get_None in Hnone. apply Hnone.
  rewrite <- Heq. now apply H.
Qed.


(** C3, as the code has it: the timeline is sorted by Python's order on the
    tuples: ascending by timestamp, records of equal timestamp by event
    type (["end"] before ["start"]), then by test name.  It is a
    rearrangement of the appended records, no ["start"] record comes
    before an ["end"] record of the same timestamp, and the order of the
    items of [starts] makes no difference. *)
Theorem build_timeline_sorted (starts ends : dict datetime) (durations : dict pyfloat) :
  StronglySorted time_le (build_timeline td starts ends durations) /\
  StronglySorted tuple_le (build_timeline td starts ends durations) /\
  Permutation (build_timeline td starts ends durations)
    (timeline_appended td starts ends durations) /\
  (forall (l1 : list record) (a : record) (l2 : list record) (b : record)
          (l3 : list record),
     build_timeline td starts ends durations = (l1 ++ a :: l2 ++ b :: l3)%list ->
     rec_time a = rec_time b ->
     ~ (rec_kind a = "start" /\ rec_kind b = "end")) /\
  (forall starts',
     Permutation starts starts' ->
     build_timeline td starts' ends durations
       = build_timeline td starts ends durations).
Proof.
  assert (Hsorted : forall l, StronglySorted (not_after record_lt)
                                (build_timeline td l ends durations)).
  { intros l. unfold build_timeline.
    apply (py_sort_strongly record_lt (fun _ => True)).
    - intros a b _ _. apply record_lt_asym.
    - intros a b c _ _ _. apply record_lt_negtrans.
    - apply Forall_forall. auto. }
  pose proof (Hsorted starts) as Hs.
  assert (Ht : StronglySorted tuple_le (build_timeline td starts ends durations)).
  { clear -Hs. induction Hs as [|a l Hl IH Hall]; constructor; [exact IH|].
    eapply Forall_impl; [|exact Hall]. intros b. apply not_after_tuple_le. }
  split; [|split; [exact Ht|split; [|split]]].
  - clear -Hs. induction Hs as [|a l Hl IH Hall]; constructor; [exact IH|].
    eapply Forall_impl; [|exact Hall]. intros b. apply not_after_time_le.
  - apply py_sort_perm.
  - intros l1 a l2 b l3 Heq Htime [Ha Hb]. rewrite Heq in Ht.
    assert (Hab : tuple_le a b).
    { clear -Ht. induction l1 as [|x l1 IH]; cbn [app] in Ht.
      - inversion Ht as [|? ? _ Hall]; subst.
        rewrite Forall_forall in Hall. apply Hall.
        apply in_or_app. right. now left.
      - inversion Ht; subst. auto. }
    unfold tuple_le, string_lt, string_le in Hab. rewrite Ha, Hb in Hab.
    destruct Hab as [Hlt|[_ [Hlt|[Hk _]]]]; [lia|discriminate|discriminate].
  - intros starts' Hperm.
    apply (sorted_perm_unique record_lt); auto using record_lt_tie_eq.
    unfold build_timeline. rewrite !py_sort_perm.
    apply timeline_appended_perm. now symmetry.
Qed.

End TimelineFacts.

Lemma build_timeline_only_started_witness :
  In (0, "end", "TestA") (build_timeline whole_microseconds [("TestA", 0)] [] []) /\
  In (rec_test (0, "end", "TestA")) (dict_keys [("TestA", 0)]).
Proof.
  split.
  - vm_compute. auto.
  - apply (proj1 (build_timeline_only_started whole_microseconds
                    [("TestA", 0)] [] [])).
    vm_compute. auto.
Defined.

Lemma build_timeline_sorted_witness :
  build_timeline whole_microseconds [("T", 0)] [] []
    = ([] ++ (0, "end", "T") :: [] ++ (0, "start", "T") :: [])%list /\
  ~ (rec_kind (0, "end", "T") = "start" /\ rec_kind (0, "start", "T") = "end").
Proof.
  split; [reflexivity|].
  apply (proj1 (proj2 (proj2 (proj2 (build_timeline_sorted whole_microseconds
                                       [("T", 0)] [] []))))
           [] (0, "end", "T") [] (0, "start", "T") []); reflexivity.
Defined.

(** C3, as stated, fails: for one test without end or duration the records
    are appended ["start"] first, both at the same timestamp, and the
    timeline has the ["end"] record first; a stable sort by timestamp would
    leave them as appended.  With two tests of equal timestamps the test
    names decide, not the order of [starts]. *)
Lemma timeline_ties_not_in_insertion_order :
  timeline_appended whole_microseconds [("T", 0)] [] []
    = [(0, "start", "T"); (0, "end", "T")] /\
  spec_timeline whole_microseconds [("T", 0)] [] []
    = [(0, "start", "T"); (0, "end", "T")] /\
  build_timeline whole_microseconds [("T", 0)] [] []
    = [(0, "end", "T"); (0, "start", "T")] /\
  build_timeline whole_microseconds [("B", 0); ("A", 0)]
      [("B", 2000000); ("A", 2000000)] []
    = [(0, "start", "A"); (0, "start", "B");
       (2000000, "end", "A"); (2000000, "end", "B")] /\
  build_timeline whole_microseconds [("T", 0)] [] []
    <> spec_timeline whole_microseconds [("T", 0)] [] [].
Proof.
  repeat split; try reflexivity. vm_compute. discriminate.
Qed.

(** ** The sampling loop *)

Section SamplerFacts.
Variable td : pyfloat -> timedelta.

Lemma is_active_iff (ends : dict datetime) (durations : dict pyfloat)
    (t : datetime) (test : string) (s : datetime) :
  is_active td ends durations t (test, s) = true <->
  s <= t < end_time_of td ends durations test s.
Proof.
  unfold is_active. rewrite andb_true_iff, Z.leb_le, Z.ltb_lt. tauto.
Qed.

Lemma count_active_filter (starts ends : dict datetime) (durations : dict pyfloat)
    (t : datetime) :
  count_active td starts ends durations t =
  Z.of_nat (List.length (filter (is_active td ends durations t) starts)).
Proof.
  unfold count_active.
  assert (H : forall l acc,
             fold_left (fun active item =>
                          if is_active td ends durations t item
                          then active + 1 else active) l acc =
             acc + Z.of_nat (List.length (filter (is_active td ends durations t) l))).
  { induction l as [|item l IH]; intros acc; cbn [fold_left filter].
    - cbn. lia.
    - rewrite IH. destruct (is_active td ends durations t item);
        cbn [List.length]; lia. }
  rewrite H. lia.
Qed.

Lemma grid_cons (first last : datetime) :
  first <= last ->
  grid first last = first :: grid (first + one_second) last.
Proof.
  intros Hle. unfold grid, one_second.
  assert (Hq : (last - first) / 1000000 = (last - (first + 1000000)) / 1000000 + 1).
  { replace (last - first) with ((last - (first + 1000000)) + 1 * 1000000) by lia.
    rewrite Z.div_add by lia. reflexivity. }
  assert (Hnn : 0 <= (last - first) / 1000000) by (apply Z.div_pos; lia).
  rewrite Hq in *.
  set (q := (last - (first + 1000000)) / 1000000) in *.
  replace (Z.to_nat (q + 1 + 1)) with (S (Z.to_nat (q + 1))) by lia.
  cbn [seq map]. f_equal; [lia|].
  rewrite <- seq_shift, map_map. apply map_ext. intros k. lia.
Qed.

Lemma grid_nil (first last : datetime) : last < first -> grid first last = [].
Proof.
  intros Hlt. unfold grid, one_second.
  assert ((last - first) / 1000000 < 0) by (apply Z.div_lt_upper_bound; lia).
  replace (Z.to_nat ((last - first) / 1000000 + 1)) with 0%nat by lia.
  reflexivity.
Qed.

(** The loop ends, and appends one sample per grid point. *)
Lemma sample_loop_grid (starts ends : dict datetime) (durations : dict pyfloat)
    (end_time time_cursor : datetime) (acc : list (datetime * Z)) :
  sample_loop td starts ends durations end_time time_cursor acc =
  (acc ++ map (fun t => (t, count_active td starts ends durations t))
            (grid time_cursor end_time))%list.
Proof.
  funelim (sample_loop td starts ends durations end_time time_cursor acc).
  - rewrite H. rewrite (grid_cons time_cursor end_time) by assumption.
    cbn [map]. rewrite <- app_assoc. reflexivity.
  - rewrite grid_nil by lia. cbn [map]. now rewrite app_nil_r.
Qed.

Lemma parallel_counts_grid (starts ends : dict datetime) (durations : dict pyfloat) :
  parallel_counts td starts ends durations =
  match build_timeline td starts ends durations with
  | [] => []
  | first :: rest =>
      map (fun t => (t, count_active td starts ends durations t))
        (grid (rec_time first) (rec_time (last (first :: rest) first)))
  end.
Proof.
  unfold parallel_counts.
  destruct (build_timeline td starts ends durations) as [|first rest];
    [reflexivity|].
  now rewrite sample_loop_grid.
Qed.

(** C2, as the code has it: at every grid point [t] the active count is the
    number of items of [starts] with [start <= t < end].  A test whose end
    is [t] is not counted at [t]; a test whose start is [t] is counted at
    [t] when its end is later than [t], and is not counted when its end is
    [t] as well. *)
Theorem active_count_half_open (starts ends : dict datetime)
    (durations : dict pyfloat) (t : datetime) (active : Z) :
  In (t, active) (parallel_counts td starts ends durations) ->
  active = Z.of_nat (List.length (filter (is_active td ends durations t) starts)) /\
  (forall test s,
     is_active td ends durations t (test, s) = true <->
     s <= t < end_time_of td ends durations test s) /\
  (forall test s,
     end_time_of td ends durations test s = t ->
     is_active td ends durations t (test, s) = false) /\
  (forall test s,
     s = t -> t < end_time_of td ends durations test s ->
     is_active td ends durations t (test, s) = true).
Proof.
  intros Hin. split; [|split; [|split]].
  - rewrite parallel_counts_grid in Hin.
    destruct (build_timeline td starts ends durations) as [|first rest];
      [contradiction|].
    apply in_map_iff in Hin as (t' & [= -> <-] & _).
    apply count_active_filter.
  - intros test s. apply is_active_iff.
  - intros test s He. apply not_true_iff_false. rewrite is_active_iff. lia.
  - intros test s Hs He. apply is_active_iff. lia.
Qed.

(** C1, as the code has it: a test with a start and neither an end nor a
    duration gets its start as end, the timeline has its ["end"] record at
    that instant, and the test is active at no instant: every active count
    is the count without it. *)
Theorem zero_width_never_counted (starts ends : dict datetime)
    (durations : dict pyfloat) (test : string) (s : datetime) :
  In (test, s) starts ->
  dict_get ends test = None ->
  dict_get durations test = None ->
  end_time_of td ends durations test s = s /\
  In (s, "end", test) (build_timeline td starts ends durations) /\
  forall t,
    is_active td ends durations t (test, s) = false /\
    count_active td starts ends durations t =
    count_active td
      (filter (fun item => negb (String.eqb (fst item) test)) starts)
      ends durations t.
Proof.
  intros Hin He Hd.
  assert (Hend : forall s', end_time_of td ends durations test s' = s').
  { intros s'. unfold end_time_of, fallback_delta. rewrite He, Hd. lia. }
  assert (Hoff : forall t s', is_active td ends durations t (test, s') = false).
  { intros t s'. apply not_true_iff_false. rewrite is_active_iff, Hend. lia. }
  split; [apply Hend|split].
  - unfold build_timeline. apply py_sort_In. apply timeline_appended_In.
    exists test, s. rewrite Hend. auto.
  - intros t. split; [apply Hoff|].
    rewrite !count_active_filter. f_equal. f_equal. clear Hin.
    induction starts as [|[test' s'] rest IH]; [reflexivity|].
    cbn [filter fst]. destruct (String.eqb_spec test' test) as [->|N]; cbn [negb].
    + rewrite Hoff. exact IH.
    + cbn [filter]. destruct (is_active td ends durations t (test', s'));
        [cbn [List.length]; f_equal|]; exact IH.
Qed.

End SamplerFacts.

Lemma active_count_half_open_witness :
  In (1000000, 2)
    (parallel_counts whole_microseconds
       [("TestA", 0); ("TestB", 1000000)]
       [("TestA", 2000000); ("TestB", 3000000)] []) /\
  2 = Z.of_nat
        (List.length
           (filter (is_active whole_microseconds
                      [("TestA", 2000000); ("TestB", 3000000)] [] 1000000)
              [("TestA", 0); ("TestB", 1000000)])).
Proof.
  assert (Hin : In (1000000, 2)
                  (parallel_counts whole_microseconds
                     [("TestA", 0); ("TestB", 1000000)]
                     [("TestA", 2000000); ("TestB", 3000000)] [])).
  { vm_compute. auto. }
  split; [exact Hin|].
  exact (proj1 (active_count_half_open whole_microseconds _ _ _ _ _ Hin)).
Defined.

(** C2, as stated, fails on a test whose start and end are the same
    instant: [TestZ] starts at the grid point 0 and is not counted there;
    the count 1 is [TestA] alone. *)
Lemma start_instant_not_counted :
  parallel_counts whole_microseconds
    [("TestA", 0); ("TestZ", 0)] [("TestA", 2000000); ("TestZ", 0)]
    [("TestA", decimal 200 2); ("TestZ", decimal 0 2)]
    = [(0, 1); (1000000, 1); (2000000, 0)] /\
  is_active whole_microseconds [("TestA", 2000000); ("TestZ", 0)]
    [("TestA", decimal 200 2); ("TestZ", decimal 0 2)] 0 ("TestZ", 0) = false.
Proof.
  split; vm_compute; reflexivity.
Qed.

Lemma zero_width_never_counted_witness :
  In ("T", 5000000) [("A", 0); ("T", 5000000)] /\
  dict_get [("A", 9000000)] "T" = None /\
  dict_get [("A", decimal 90 1)] "T" = None /\
  end_time_of whole_microseconds [("A", 9000000)] [("A", decimal 90 1)] "T" 5000000
    = 5000000.
Proof.
  assert (Hin : In ("T", 5000000) [("A", 0); ("T", 5000000)]) by (cbn; auto).
  split; [exact Hin|split; [reflexivity|split; [reflexivity|]]].
  exact (proj1 (zero_width_never_counted whole_microseconds
                  [("A", 0); ("T", 5000000)] [("A", 9000000)]
                  [("A", decimal 90 1)] "T" 5000000 Hin eq_refl eq_refl)).
Defined.

(** C1, as stated, fails: the only test has a start and nothing else; the
    grid is the single instant of its start, and the count there is 0. *)
Lemma zero_width_not_counted_at_start :
  end_time_of whole_microseconds [] [] "T" 0 = 0 /\
  grid 0 0 = [0] /\
  is_active whole_microseconds [] [] 0 ("T", 0) = false /\
  parallel_counts whole_microseconds [("T", 0)] [] [] = [(0, 0)].
Proof.
  repeat split; vm_compute; reflexivity.
Qed.

(** ** The order of floats *)

Ltac float_cases :=
  repeat match goal with
    | b : bool |- _ => destruct b
    end;
  cbn in *;
  repeat match goal with
    | H : context [Z.compare ?a ?b] |- _ =>
        destruct (Z.compare_spec a b); subst; cbn in H
    | H : context [Pos.compare_cont Eq ?a ?b] |- _ =>
        change (Pos.compare_cont Eq a b) with (Pos.compare a b) in H;
        destruct (Pos.compare_spec a b); subst; cbn in H
    | |- context [Z.compare ?a ?b] =>
        destruct (Z.compare_spec a b); subst; cbn
    | |- context [Pos.compare_cont Eq ?a ?b] =>
        change (Pos.compare_cont Eq a b) with (Pos.compare a b);
        destruct (Pos.compare_spec a b); subst; cbn
    end;
  try reflexivity; try discriminate; try congruence; try lia.

Lemma SFltb_opp (x y : pyfloat) : SFltb (SFopp x) (SFopp y) = SFltb y x.
Proof.
  unfold SFltb. destruct x, y; cbn [SFopp SFcompare]; float_cases.
Qed.

Lemma SFltb_asym (x y : pyfloat) : SFltb x y = true -> SFltb y x = false.
Proof.
  unfold SFltb. destruct x, y; cbn [SFcompare]; float_cases.
Qed.

Lemma SFltb_negtrans (x y z : pyfloat) :
  is_number x -> is_number y -> is_number z ->
  SFltb x y = false -> SFltb y z = false -> SFltb x z = false.
Proof.
  unfold is_number, SFltb.
  destruct x, y, z; cbn [SFcompare]; intros Hx Hy Hz H1 H2;
    try congruence; float_cases.
Qed.

Lemma SFeqb_tie (x y : pyfloat) :
  is_number x -> is_number y ->
  negb (SFltb x y) && negb (SFltb y x) = SFeqb x y.
Proof.
  unfold is_number, SFltb, SFeqb.
  destruct x, y; cbn [SFcompare]; intros Hx Hy; try congruence; float_cases.
Qed.

(** ** The ranking *)

Lemma key_lt_not_after (a b : string * pyfloat) :
  not_after key_lt a b <-> float_ge (snd a) (snd b).
Proof.
  unfold not_after, key_lt, duration_key, float_ge. now rewrite SFltb_opp.
Qed.

Lemma key_lt_tie (a b : string * pyfloat) :
  is_number (snd a) -> is_number (snd b) ->
  tie key_lt a b = SFeqb (snd a) (snd b).
Proof.
  intros Ha Hb. unfold tie, key_lt, duration_key. rewrite !SFltb_opp.
  rewrite andb_comm. now apply SFeqb_tie.
Qed.

(** C8: the ranking is a rearrangement of the items of [durations], sorted
    by descending duration, and items of equal duration keep the order
    they have in [durations]; from [{A: 5.0, B: 9.2, C: 1.0}] the first two
    rows are [(B, 9.2)] and [(A, 5.0)]. *)
Theorem ranked_durations_descending_stable (durations : dict pyfloat) :
  Forall (fun item => is_number (snd item)) durations ->
  Permutation (ranked_durations durations) durations /\
  StronglySorted (fun a b => float_ge (snd a) (snd b)) (ranked_durations durations) /\
  (forall d, is_number d ->
     filter (fun item => SFeqb d (snd item)) (ranked_durations durations) =
     filter (fun item => SFeqb d (snd item)) durations) /\
  printed_rows
    (longest_tests [("A", decimal 50 1); ("B", decimal 92 1); ("C", decimal 10 1)]) 2
  = [("B", decimal 92 1); ("A", decimal 50 1)].
Proof.
  intros Hnum.
  assert (Hasym : forall a b : string * pyfloat,
             is_number (snd a) -> is_number (snd b) ->
             key_lt a b = true -> key_lt b a = false).
  { intros a b _ _. apply SFltb_asym. }
  assert (Hneg : forall a b c : string * pyfloat,
             is_number (snd a) -> is_number (snd b) -> is_number (snd c) ->
             key_lt a b = false -> key_lt b c = false -> key_lt a c = false).
  { intros a b c Ha Hb Hc. unfold key_lt, duration_key. rewrite !SFltb_opp.
    intros H1 H2. now apply (SFltb_negtrans (snd c) (snd b) (snd a)). }
  split; [apply py_sort_perm|split; [|split]].
  - pose proof (py_sort_strongly key_lt _ Hasym Hneg durations Hnum) as Hs.
    fold (ranked_durations durations) in Hs.
    induction Hs as [|a l Hl IH Hall]; constructor; [exact IH|].
    eapply Forall_impl; [|exact Hall]. intros b. apply key_lt_not_after.
  - intros d Hd.
    pose proof (py_sort_stable key_lt _ Hneg ("", d) durations Hd Hnum) as Hst.
    fold (ranked_durations durations) in Hst.
    assert (Hnum' : Forall (fun item => is_number (snd item)) (ranked_durations durations)).
    { apply (Permutation_Forall (x := durations)); [|exact Hnum].
      symmetry. apply py_sort_perm. }
    rewrite (filter_ext_in (fun item => SFeqb d (snd item)) (tie key_lt ("", d))
               (ranked_durations durations)).
    + etransitivity; [exact Hst|]. apply filter_ext_in. intros x Hx.
      rewrite Forall_forall in Hnum. now rewrite key_lt_tie by auto.
    + intros x Hx. rewrite Forall_forall in Hnum'. now rewrite key_lt_tie by auto.
  - vm_compute. reflexivity.
Qed.

Lemma ranked_durations_descending_stable_witness :
  Forall (fun item => is_number (snd item))
    [("TestA", decimal 200 2); ("TestB", decimal 200 2); ("TestC", decimal 350 2)] /\
  filter (fun item => SFeqb (decimal 200 2) (snd item))
    (ranked_durations
       [("TestA", decimal 200 2); ("TestB", decimal 200 2); ("TestC", decimal 350 2)])
  = filter (fun item => SFeqb (decimal 200 2) (snd item))
      [("TestA", decimal 200 2); ("TestB", decimal 200 2); ("TestC", decimal 350 2)].
Proof.
  assert (Hnum : Forall (fun item => is_number (snd item))
                   [("TestA", decimal 200 2); ("TestB", decimal 200 2);
                    ("TestC", decimal 350 2)]).
  { repeat constructor; vm_compute; discriminate. }
  split; [exact Hnum|].
  refine (proj1 (proj2 (proj2 (ranked_durations_descending_stable _ Hnum))) _ _).
  vm_compute. discriminate.
Defined.

(** ** The downsampler *)

(** C9: on the empty series the downsampler raises and returns nothing:
    [max] of an empty sequence for every non-negative width (a negative
    width is refused by [linspace] before that).  The caller
    [draw_ascii_chart_horizontal] tests for the empty series first. *)
Theorem downsample_empty_raises (max_height max_width : Z) :
  downsample_to_width [] max_height max_width =
    Raise (ValueError (if max_width <? 0 then "linspace" else "max")) /\
  chart_heights [] max_height max_width = Ok None.
Proof.
  split; [|reflexivity].
  unfold downsample_to_width, select_data, np_linspace_int. cbn [List.length Z.of_nat].
  destruct (max_width <? 0); reflexivity.
Qed.

(** ** Binary64 rounding

    The rounding of the library's specification, [binary_round_aux], related
    to the reals: the result is a nearest multiple of the unit in the last
    place of its argument. *)

Section RoundingFacts.
Local Open Scope R_scope.

Lemma bpow_pos (e : Z) : 0 < bpow e.
Proof. apply powerRZ_lt. lra. Qed.

Lemma bpow_add (a b : Z) : bpow (a + b) = bpow a * bpow b.
Proof. apply powerRZ_add. lra. Qed.

Lemma bpow_0 : bpow 0 = 1.
Proof. reflexivity. Qed.

Lemma bpow_1 : bpow 1 = 2.
Proof. unfold bpow. rewrite powerRZ_1. reflexivity. Qed.

Lemma bpow_opp_l (e : Z) : bpow (- e) * bpow e = 1.
Proof. rewrite <- bpow_add. replace (- e + e)%Z with 0%Z by lia. apply bpow_0. Qed.

Lemma bpow_succ (e : Z) : bpow (e + 1) = 2 * bpow e.
Proof. rewrite bpow_add, bpow_1. lra. Qed.

Lemma bpow_IZR (k : Z) : (0 <= k)%Z -> bpow k = IZR (2 ^ k).
Proof.
  intros Hk. destruct k as [|p|p]; [reflexivity| |lia].
  unfold bpow. change (2 ^ Z.pos p)%Z with (Z.pow_pos 2 p).
  now rewrite Zpower_pos_powerRZ.
Qed.

Lemma bpow_le (a b : Z) : (a <= b)%Z -> bpow a <= bpow b.
Proof.
  intros H. replace b with (a + (b - a))%Z by lia. rewrite bpow_add.
  assert (1 <= bpow (b - a)).
  { rewrite bpow_IZR by lia. apply IZR_le.
    assert (0 < 2 ^ (b - a))%Z by (apply Z.pow_pos_nonneg; lia). lia. }
  pose proof (bpow_pos a). nra.
Qed.

Lemma bpow_lt (a b : Z) : (a < b)%Z -> bpow a < bpow b.
Proof.
  intros H. apply Rlt_le_trans with (bpow (a + 1)).
  - rewrite bpow_succ. pose proof (bpow_pos a). lra.
  - apply bpow_le. lia.
Qed.

Lemma bpow_lt_inv (a b : Z) : bpow a < bpow b -> (a < b)%Z.
Proof.
  intros H. destruct (Z_lt_le_dec a b) as [Hlt|Hge]; [exact Hlt|].
  assert (bpow b <= bpow a) by (apply bpow_le; lia). lra.
Qed.

(** *** The number of binary digits *)

Lemma digits2_pos_bounds (p : positive) :
  (2 ^ (Z.pos (digits2_pos p) - 1) <= Z.pos p < 2 ^ Z.pos (digits2_pos p))%Z.
Proof.
  induction p as [p IH|p IH|]; cbn [digits2_pos].
  - rewrite Pos2Z.inj_succ.
    replace (Z.succ (Z.pos (digits2_pos p)) - 1)%Z
      with (Z.succ (Z.pos (digits2_pos p) - 1)) by lia.
    rewrite !Z.pow_succ_r by lia. lia.
  - rewrite Pos2Z.inj_succ.
    replace (Z.succ (Z.pos (digits2_pos p)) - 1)%Z
      with (Z.succ (Z.pos (digits2_pos p) - 1)) by lia.
    rewrite !Z.pow_succ_r by lia. lia.
  - cbn. lia.
Qed.

Lemma Zdigits2_bounds (m : Z) :
  (0 < m)%Z -> (2 ^ (Zdigits2 m - 1) <= m < 2 ^ Zdigits2 m)%Z.
Proof.
  destruct m as [|p|p]; try lia. intros _. apply digits2_pos_bounds.
Qed.

Lemma Zdigits2_nonneg (m : Z) : (0 <= Zdigits2 m)%Z.
Proof. destruct m; cbn; lia. Qed.

Lemma Zdigits2_unique (m d : Z) :
  (2 ^ (d - 1) <= m < 2 ^ d)%Z -> (0 < m)%Z -> Zdigits2 m = d.
Proof.
  intros [Hlo Hhi] Hm. pose proof (Zdigits2_bounds m Hm) as [Hlo' Hhi'].
  pose proof (Zdigits2_nonneg m).
  assert (0 <= d)%Z.
  { destruct (Z_lt_le_dec d 0) as [Hneg|]; [|assumption].
    rewrite (Z.pow_neg_r 2 d) in Hhi by assumption. lia. }
  assert (d - 1 < Zdigits2 m)%Z.
  { apply (Z.pow_lt_mono_r_iff 2); lia. }
  assert (Zdigits2 m - 1 < d)%Z.
  { apply (Z.pow_lt_mono_r_iff 2); lia. }
  lia.
Qed.

(** *** Shifting right *)

Lemma located_bounds (m : Z) (l : location) (y : R) :
  located m l y -> IZR m <= y < IZR m + 1.
Proof. destruct l as [|[| |]]; unfold located; lra. Qed.

Lemma loc_of_shr_record_of_loc (m : Z) (l : location) :
  loc_of_shr_record (shr_record_of_loc m l) = l /\
  shr_m (shr_record_of_loc m l) = m.
Proof. destruct l as [|[| |]]; split; reflexivity. Qed.

Lemma bpow_m1 : bpow (-1) = / 2.
Proof.
  pose proof (bpow_opp_l 1) as H1. rewrite bpow_1 in H1.
  change (- (1))%Z with (-1)%Z in H1. lra.
Qed.

Lemma shr_1_inv (mrs : shr_record) (e : Z) (x : R) :
  shr_inv mrs e x -> shr_inv (shr_1 mrs) (e + 1) x.
Proof.
  unfold shr_inv. replace (- (e + 1))%Z with (- e + (-1))%Z by lia.
  rewrite bpow_add, bpow_m1.
  replace (x * (bpow (- e) * / 2)) with (x * bpow (- e) / 2) by field.
  generalize (x * bpow (- e)). intros y.
  destruct mrs as [m r s]. cbn [shr_m].
  destruct m as [|[p|p|]|p]; intros [Hm Hloc]; try lia;
    destruct r, s; cbn [shr_1 orb shr_m loc_of_shr_record located] in *;
    try rewrite (Pos2Z.inj_xI p) in Hloc; try rewrite (Pos2Z.inj_xO p) in Hloc;
    try rewrite plus_IZR in Hloc; try rewrite mult_IZR in Hloc;
    (split; [lia|lra]).
Qed.

Lemma iter_shr_1_inv (p : positive) :
  forall (mrs : shr_record) (e : Z) (x : R),
    shr_inv mrs e x -> shr_inv (iter_pos shr_1 p mrs) (e + Z.pos p) x.
Proof.
  induction p as [p IH|p IH|]; intros mrs e x H; cbn [iter_pos].
  - replace (e + Z.pos p~1)%Z with (e + 1 + Z.pos p + Z.pos p)%Z by lia.
    apply IH, IH, shr_1_inv, H.
  - replace (e + Z.pos p~0)%Z with (e + Z.pos p + Z.pos p)%Z by lia.
    apply IH, IH, H.
  - apply shr_1_inv, H.
Qed.

Lemma shr_fexp_inv (mx ex : Z) (lx : location) (x : R) :
  (0 <= mx)%Z ->
  located mx lx (x * bpow (- ex)) ->
  (ex <= fexp64 (Zdigits2 mx + ex))%Z ->
  exists mrs,
    shr_fexp f64_prec f64_emax mx ex lx = (mrs, fexp64 (Zdigits2 mx + ex)) /\
    shr_inv mrs (fexp64 (Zdigits2 mx + ex)) x.
Proof.
  intros Hm Hloc Hal. unfold shr_fexp. fold (fexp64 (Zdigits2 mx + ex)).
  destruct (loc_of_shr_record_of_loc mx lx) as [Hl Hr].
  assert (Hinv : shr_inv (shr_record_of_loc mx lx) ex x).
  { unfold shr_inv. rewrite Hl, Hr. auto. }
  unfold shr.
  destruct (fexp64 (Zdigits2 mx + ex) - ex)%Z as [|p|p] eqn:Hn; try lia.
  - exists (shr_record_of_loc mx lx).
    replace (fexp64 (Zdigits2 mx + ex)) with ex by lia. auto.
  - exists (iter_pos shr_1 p (shr_record_of_loc mx lx)).
    replace (fexp64 (Zdigits2 mx + ex)) with (ex + Z.pos p)%Z by lia.
    split; [reflexivity|]. now apply iter_shr_1_inv.
Qed.

(** *** The magnitude of the rounded real *)

Lemma unscale (x : R) (e : Z) : x * bpow (- e) * bpow e = x.
Proof. rewrite Rmult_assoc, bpow_opp_l. ring. Qed.

Lemma magnitude_bounds (mx ex : Z) (lx : location) (x : R) :
  (0 <= mx)%Z ->
  located mx lx (x * bpow (- ex)) ->
  0 <= x /\ x < bpow (Zdigits2 mx + ex) /\
  ((0 < mx)%Z -> bpow (Zdigits2 mx - 1 + ex) <= x).
Proof.
  intros Hm Hloc. apply located_bounds in Hloc.
  pose proof (bpow_pos ex) as Hex.
  rewrite <- (unscale x ex). set (y := x * bpow (- ex)) in *.
  assert (H0 : 0 <= IZR mx) by now apply IZR_le.
  split; [nra|]. rewrite !bpow_add. split.
  - assert (Hy : y < bpow (Zdigits2 mx)).
    { destruct (Z.eq_dec mx 0) as [->|Hne].
      - cbn [Zdigits2]. rewrite bpow_0. cbn in Hloc. lra.
      - pose proof (Zdigits2_bounds mx ltac:(lia)) as [_ Hhi].
        rewrite bpow_IZR by apply Zdigits2_nonneg.
        apply Rlt_le_trans with (IZR mx + 1); [lra|].
        rewrite <- plus_IZR. apply IZR_le. lia. }
    nra.
  - intros Hpos. pose proof (Zdigits2_bounds mx Hpos) as [Hlo _].
    assert (Hy : bpow (Zdigits2 mx - 1) <= y).
    { rewrite bpow_IZR.
      - apply Rle_trans with (IZR mx); [now apply IZR_le|lra].
      - destruct mx; cbn [Zdigits2]; lia. }
    nra.
Qed.

Lemma round_nearest_even_near (m : Z) (l : location) (y : R) :
  located m l y ->
  IZR (round_nearest_even m l) - 1 / 2 <= y <= IZR (round_nearest_even m l) + 1 / 2 /\
  (m <= round_nearest_even m l)%Z.
Proof.
  intros Hloc.
  destruct l as [|[| |]]; cbn [round_nearest_even located] in *.
  - subst y. split; [lra|lia].
  - destruct (Z.even m); [|rewrite plus_IZR]; subst y; (split; [lra|lia]).
  - split; [lra|lia].
  - rewrite plus_IZR. split; [lra|lia].
Qed.

(** The exponent of the format is monotone and not below the least one. *)
Lemma fexp64_eq (e : Z) : fexp64 e = Z.max (e - 53) (-1074).
Proof. reflexivity. Qed.

Lemma Zdigits2_le_53 (m : Z) : (0 <= m < 2 ^ 53)%Z -> (Zdigits2 m <= 53)%Z.
Proof.
  intros [H0 H1]. destruct (Z.eq_dec m 0) as [->|Hne]; [cbn; lia|].
  pose proof (Zdigits2_bounds m ltac:(lia)) as [Hlo _].
  assert (Zdigits2 m - 1 < 53)%Z; [|lia].
  apply (Z.pow_lt_mono_r_iff 2); lia.
Qed.

Lemma shr_fexp_exact_small (m e : Z) :
  (0 <= m < 2 ^ 53)%Z -> (-1074 <= e)%Z ->
  shr_fexp f64_prec f64_emax m e loc_Exact = (Build_shr_record m false false, e).
Proof.
  intros Hm He. pose proof (Zdigits2_le_53 m Hm) as Hd.
  unfold shr_fexp, shr. fold (fexp64 (Zdigits2 m + e)). rewrite fexp64_eq.
  destruct (Z.max (Zdigits2 m + e - 53) (-1074) - e)%Z eqn:Hn; try reflexivity.
  lia.
Qed.

Lemma shr_fexp_exact_carry (e : Z) :
  (-1074 <= e)%Z ->
  shr_fexp f64_prec f64_emax (2 ^ 53) e loc_Exact
    = (Build_shr_record (2 ^ 52) false false, (e + 1)%Z).
Proof.
  intros He. unfold shr_fexp, shr. fold (fexp64 (Zdigits2 (2 ^ 53) + e)).
  rewrite fexp64_eq. change (Zdigits2 (2 ^ 53)) with 54%Z.
  replace (Z.max (54 + e - 53) (-1074) - e)%Z with 1%Z by lia.
  reflexivity.
Qed.

(** The rounding of [x], given as a mantissa with a position: the result is
    [m * 2^e] where [e] is the exponent the format gives the magnitude of
    [x] and [m] is an integer nearest to [x / 2^e]. *)
Lemma binary_round_aux_spec (sx : bool) (mx ex : Z) (lx : location) (x : R) :
  (0 <= mx)%Z ->
  located mx lx (x * bpow (- ex)) ->
  (ex <= fexp64 (Zdigits2 mx + ex))%Z ->
  exists m e : Z,
    binary_round_aux f64_prec f64_emax sx mx ex lx = round_result sx m e /\
    (0 <= m <= 2 ^ 53)%Z /\ (-1074 <= e)%Z /\
    (e = (-1074)%Z \/ bpow (52 + e) <= x) /\
    0 <= x < bpow (53 + e) /\
    IZR m - 1 / 2 <= x * bpow (- e) <= IZR m + 1 / 2.
Proof.
  intros Hm Hloc Hal.
  destruct (shr_fexp_inv mx ex lx x Hm Hloc Hal) as (mrs & Hshr & Hm1 & Hloc1).
  destruct (magnitude_bounds mx ex lx x Hm Hloc) as (Hx0 & Hxhi & Hxlo).
  pose proof (Zdigits2_nonneg mx) as Hd.
  remember (fexp64 (Zdigits2 mx + ex)) as e eqn:Ee.
  rewrite fexp64_eq in Ee.
  destruct (round_nearest_even_near _ _ _ Hloc1) as [Hnear Hge].
  remember (round_nearest_even (shr_m mrs) (loc_of_shr_record mrs)) as m eqn:Em.
  assert (He : (-1074 <= e)%Z) by lia.
  assert (Hhi : x < bpow (53 + e)).
  { apply Rlt_le_trans with (1 := Hxhi). apply bpow_le. lia. }
  assert (Hlo : e = (-1074)%Z \/ bpow (52 + e) <= x).
  { destruct (Z.eq_dec e (-1074)) as [|Hne]; [now left|right].
    assert (Hpos : (0 < mx)%Z).
    { destruct (Z.eq_dec mx 0) as [->|]; [cbn [Zdigits2] in *; lia|lia]. }
    apply Rle_trans with (2 := Hxlo Hpos). apply bpow_le. lia. }
  assert (Hy : x * bpow (- e) < bpow 53).
  { replace 53%Z with (53 + e + - e)%Z by lia. rewrite bpow_add.
    pose proof (bpow_pos (- e)). nra. }
  assert (Hm53 : (0 <= m <= 2 ^ 53)%Z).
  { split; [lia|].
    rewrite (bpow_IZR 53) in Hy by lia.
    assert (IZR m < IZR (2 ^ 53 + 1)) by (rewrite plus_IZR; lra).
    apply lt_IZR in H. lia. }
  exists m, e. split; [|now repeat split].
  unfold binary_round_aux. rewrite Hshr, <- Em.
  destruct (Z.eq_dec m (2 ^ 53)) as [->|Hne].
  - rewrite shr_fexp_exact_carry by assumption. reflexivity.
  - rewrite shr_fexp_exact_small by lia. cbn [shr_m].
    unfold round_result. destruct m as [|p|p]; [reflexivity| |lia].
    apply Z.eqb_neq in Hne. rewrite Hne. reflexivity.
Qed.


(** *** Consequences of being nearest *)

Lemma IZR_le_half (a b : Z) : IZR a <= IZR b + 1 / 2 -> (a <= b)%Z.
Proof.
  intros H. assert (IZR a < IZR (b + 1)) by (rewrite plus_IZR; lra).
  apply lt_IZR in H0. lia.
Qed.

Lemma bpow_sub_IZR (a b : Z) : (b <= a)%Z -> bpow a * bpow (- b) = IZR (2 ^ (a - b)).
Proof.
  intros H. rewrite <- bpow_add. apply bpow_IZR. lia.
Qed.

(** A double, scaled by a unit that is not too coarse for it, is an integer. *)
Lemma format_scaled (y : R) (e : Z) :
  in_format y -> 0 <= y -> (-1074 <= e)%Z ->
  (e = (-1074)%Z \/ bpow (52 + e) <= y) ->
  exists K : Z, y * bpow (- e) = IZR K.
Proof.
  intros (my & ey & -> & Hmy & Hey) Hy He Hmag.
  assert (Hle : (e <= ey)%Z).
  { destruct Hmag as [->|Hmag]; [lia|].
    assert (Hlt : IZR my * bpow ey < bpow (53 + ey)).
    { rewrite bpow_add, (bpow_IZR 53) by lia.
      assert (IZR my < IZR (2 ^ 53)) by (apply IZR_lt; lia).
      pose proof (bpow_pos ey). nra. }
    assert (52 + e < 53 + ey)%Z by (apply bpow_lt_inv; lra). lia. }
  exists (my * 2 ^ (ey - e))%Z.
  rewrite Rmult_assoc, bpow_sub_IZR, <- mult_IZR by assumption. reflexivity.
Qed.

Lemma nearest_nonneg (v x : R) : nearest_to v x -> 0 <= v.
Proof.
  intros (m & e & -> & He & _ & [Hx0 _] & Hn).
  assert (0 <= x * bpow (- e)).
  { pose proof (bpow_pos (- e)). nra. }
  assert (0 <= m)%Z by (apply IZR_le_half; cbn; lra).
  pose proof (bpow_pos e). apply IZR_le in H0. nra.
Qed.

(** Rounding does not step over a double. *)
Lemma nearest_le_format (v x y : R) :
  nearest_to v x -> in_format y -> x <= y -> v <= y.
Proof.
  intros (m & e & -> & He & Hmag & [Hx0 Hxhi] & Hn) Hy Hxy.
  destruct (format_scaled y e Hy ltac:(lra) He) as [K HK].
  { destruct Hmag as [->|Hmag]; [now left|right; lra]. }
  assert (Hm : (m <= K)%Z).
  { apply IZR_le_half. rewrite <- HK. pose proof (bpow_pos (- e)). nra. }
  rewrite <- (unscale y e), HK. pose proof (bpow_pos e).
  apply IZR_le in Hm. nra.
Qed.

Lemma nearest_ge_format (v x y : R) :
  nearest_to v x -> in_format y -> 0 <= y <= x -> y <= v.
Proof.
  intros (m & e & -> & He & Hmag & [Hx0 Hxhi] & Hn) Hy [Hy0 Hyx].
  pose proof (bpow_pos e) as Hpe. pose proof (bpow_pos (- e)) as Hpe'.
  destruct (Rle_lt_dec (bpow (52 + e)) y) as [Hbig|Hsmall].
  - destruct (format_scaled y e Hy Hy0 He (or_intror Hbig)) as [K HK].
    assert (Hm : (K <= m)%Z).
    { apply IZR_le_half. rewrite <- HK. nra. }
    rewrite <- (unscale y e), HK. apply IZR_le in Hm. nra.
  - destruct Hmag as [->|Hmag].
    + destruct (format_scaled y (-1074) Hy Hy0 ltac:(lia) (or_introl eq_refl))
        as [K HK].
      assert (Hm : (K <= m)%Z).
      { apply IZR_le_half. rewrite <- HK. nra. }
      rewrite <- (unscale y (-1074)), HK. apply IZR_le in Hm. nra.
    + assert (Hm : (2 ^ 52 <= m)%Z).
      { apply IZR_le_half. rewrite <- (bpow_IZR 52) by lia.
        replace 52%Z with (52 + e + - e)%Z by lia. rewrite bpow_add. nra. }
      apply IZR_le in Hm. rewrite <- (bpow_IZR 52) in Hm by lia.
      rewrite bpow_add in Hsmall. nra.
Qed.

(** A double rounds to itself. *)
Lemma nearest_exact (v x : R) : nearest_to v x -> in_format x -> v = x.
Proof.
  intros Hn Hx. apply Rle_antisym.
  - apply (nearest_le_format v x x); auto. lra.
  - apply (nearest_ge_format v x x); auto.
    destruct Hn as (m & e & _ & _ & _ & [Hx0 _] & _). lra.
Qed.

(** The error is at most the fraction [2^-53] of a number in the normal
    range. *)
Lemma nearest_relative (v x : R) :
  nearest_to v x -> bpow (-1022) <= x ->
  x * (1 - bpow (-53)) <= v <= x * (1 + bpow (-53)).
Proof.
  intros (m & e & -> & He & Hmag & [Hx0 Hxhi] & Hn) Hnorm.
  pose proof (bpow_pos e) as Hpe.
  assert (Hu : bpow e / 2 <= x * bpow (-53)).
  { destruct Hmag as [->|Hmag].
    - replace (-1022)%Z with (52 + -1074)%Z in Hnorm by lia.
      replace (bpow (-1074)) with (bpow (52 + -1074) * bpow (-52)).
      + replace (-53)%Z with (-52 + (-1))%Z by lia.
        rewrite (bpow_add (-52)), bpow_m1. pose proof (bpow_pos (-52)). nra.
      + rewrite <- bpow_add. f_equal.
    - replace (bpow e) with (bpow (52 + e) * bpow (-52)).
      + replace (-53)%Z with (-52 + (-1))%Z by lia.
        rewrite (bpow_add (-52)), bpow_m1. pose proof (bpow_pos (-52)). nra.
      + rewrite <- bpow_add. f_equal. lia. }
  pose proof (unscale x e) as Hxe. set (y := x * bpow (- e)) in *.
  assert (IZR m * bpow e - bpow e / 2 <= y * bpow e <= IZR m * bpow e + bpow e / 2)
    by nra.
  split; nra.
Qed.

Lemma nearest_zero : nearest_to 0 0.
Proof.
  exists 0%Z, (-1074)%Z. pose proof (bpow_pos (53 + -1074)).
  repeat split; try lia; try lra.
Qed.


(** *** The result of rounding *)

Lemma bounded_intro (p : positive) (e : Z) :
  (Z.pos p < 2 ^ 53)%Z -> (-1074 <= e <= 971)%Z ->
  (e = (-1074)%Z \/ (2 ^ 52 <= Z.pos p)%Z) ->
  bounded f64_prec f64_emax p e = true.
Proof.
  intros Hp He Hn. unfold bounded, canonical_mantissa.
  fold (fexp64 (Z.pos (digits2_pos p) + e)). rewrite fexp64_eq.
  change (Z.pos (digits2_pos p)) with (Zdigits2 (Z.pos p)).
  apply andb_true_intro. split; [apply Z.eqb_eq|apply Z.leb_le; cbn; lia].
  destruct Hn as [->|Hn].
  - pose proof (Zdigits2_le_53 (Z.pos p) ltac:(lia)). lia.
  - rewrite (Zdigits2_unique (Z.pos p) 53) by (cbn; lia). lia.
Qed.

Lemma bounded_inv (p : positive) (e : Z) :
  bounded f64_prec f64_emax p e = true ->
  (Z.pos p < 2 ^ 53)%Z /\ (-1074 <= e <= 971)%Z /\
  (e = (-1074)%Z \/ (2 ^ 52 <= Z.pos p)%Z).
Proof.
  unfold bounded, canonical_mantissa.
  fold (fexp64 (Z.pos (digits2_pos p) + e)). rewrite fexp64_eq.
  change (Z.pos (digits2_pos p)) with (Zdigits2 (Z.pos p)).
  intros H. apply andb_true_iff in H as [Hc He].
  apply Z.eqb_eq in Hc. apply Z.leb_le in He. cbn in He.
  pose proof (Zdigits2_bounds (Z.pos p) ltac:(lia)) as [Hlo Hhi].
  pose proof (Zdigits2_nonneg (Z.pos p)).
  assert (Hd : (Zdigits2 (Z.pos p) <= 53)%Z) by lia.
  split; [|split; [lia|]].
  - apply Z.lt_le_trans with (1 := Hhi). apply Z.pow_le_mono_r; lia.
  - destruct (Z.eq_dec e (-1074)) as [|Hne]; [now left|right].
    replace (Zdigits2 (Z.pos p)) with 53%Z in Hlo by lia. exact Hlo.
Qed.

Lemma round_result_ok (m e : Z) :
  (0 <= m <= 2 ^ 53)%Z -> (-1074 <= e)%Z ->
  (e = (-1074)%Z \/ (2 ^ 52 <= m)%Z) ->
  IZR m * bpow e < bpow 1024 ->
  nonneg_valid (round_result false m e) /\
  SF2R (round_result false m e) = IZR m * bpow e.
Proof.
  intros Hm He Hn Hlt. pose proof (bpow_pos e) as Hpe.
  destruct m as [|p|p]; [cbn; split; [exact I|lra]| |lia].
  unfold round_result.
  destruct (Z.eqb_spec (Z.pos p) (2 ^ 53)) as [Heq|Hne].
  - rewrite Heq in Hlt. rewrite <- (bpow_IZR 53), <- bpow_add in Hlt by lia.
    apply bpow_lt_inv in Hlt.
    replace (e + 1 <=? 971)%Z with true by (symmetry; apply Z.leb_le; lia).
    split.
    + apply bounded_intro; cbn; lia.
    + cbn [SF2R cond_Zopp]. rewrite Heq.
      change (Z.pos (2 ^ 52)) with (2 ^ 52)%Z.
      rewrite <- !bpow_IZR, bpow_succ by lia.
      replace 53%Z with (52 + 1)%Z by lia. rewrite bpow_succ. ring.
  - assert (Hle : (e <= 971)%Z).
    { destruct Hn as [->|Hn]; [lia|].
      apply IZR_le in Hn. rewrite <- (bpow_IZR 52) in Hn by lia.
      assert (bpow (52 + e) < bpow 1024) by (rewrite bpow_add; nra).
      apply bpow_lt_inv in H. lia. }
    replace (e <=? 971)%Z with true by (symmetry; apply Z.leb_le; lia).
    split; [|reflexivity].
    apply bounded_intro; auto; lia.
Qed.

Lemma in_format_lt_max (y : R) : in_format y -> y < bpow 1024.
Proof.
  intros (m & e & -> & Hm & He).
  apply Rlt_le_trans with (bpow (53 + e)); [|apply bpow_le; lia].
  rewrite bpow_add, (bpow_IZR 53) by lia.
  assert (IZR m < IZR (2 ^ 53)) by (apply IZR_lt; lia).
  pose proof (bpow_pos e). nra.
Qed.

(** Rounding a real that is not above some double gives a double nearest to
    it. *)
Lemma binary_round_aux_nearest (mx ex : Z) (lx : location) (x y : R) :
  (0 <= mx)%Z ->
  located mx lx (x * bpow (- ex)) ->
  (ex <= fexp64 (Zdigits2 mx + ex))%Z ->
  in_format y -> x <= y ->
  nonneg_valid (binary_round_aux f64_prec f64_emax false mx ex lx) /\
  nearest_to (SF2R (binary_round_aux f64_prec f64_emax false mx ex lx)) x.
Proof.
  intros Hm Hloc Hal Hy Hxy.
  destruct (binary_round_aux_spec false mx ex lx x Hm Hloc Hal)
    as (m & e & -> & Hm53 & He & Hmag & Hx & Hn).
  assert (Hnear : nearest_to (IZR m * bpow e) x).
  { exists m, e. repeat split; auto; lra. }
  pose proof (nearest_le_format _ _ _ Hnear Hy Hxy) as Hv.
  pose proof (in_format_lt_max y Hy) as Hmax.
  assert (Hnorm : e = (-1074)%Z \/ (2 ^ 52 <= m)%Z).
  { destruct Hmag as [->|Hmag]; [now left|right].
    apply IZR_le_half. rewrite <- (bpow_IZR 52) by lia.
    replace 52%Z with (52 + e + - e)%Z by lia. rewrite bpow_add.
    pose proof (bpow_pos (- e)). nra. }
  destruct (round_result_ok m e Hm53 He Hnorm ltac:(lra)) as [Hvalid Hval].
  split; [exact Hvalid|]. now rewrite Hval.
Qed.


(** *** Conversion of an integer *)

Lemma iter_xO_value (p d : positive) :
  Z.pos (Pos.iter xO p d) = (Z.pos p * 2 ^ Z.pos d)%Z.
Proof.
  induction d as [|d IH] using Pos.peano_ind.
  - cbn [Pos.iter]. rewrite Pos2Z.inj_xO. lia.
  - rewrite Pos.iter_succ, Pos2Z.inj_xO, IH, Pos2Z.inj_succ, Z.pow_succ_r by lia.
    lia.
Qed.

Lemma iter_xO_digits (p d : positive) :
  Zdigits2 (Z.pos (Pos.iter xO p d)) = (Zdigits2 (Z.pos p) + Z.pos d)%Z.
Proof.
  induction d as [|d IH] using Pos.peano_ind.
  - cbn [Pos.iter Zdigits2 digits2_pos]. lia.
  - rewrite Pos.iter_succ. cbn [Zdigits2 digits2_pos] in *.
    rewrite Pos2Z.inj_succ, IH. lia.
Qed.

Lemma Zdigits2_lower (m k : Z) : (2 ^ k <= m)%Z -> (0 <= k)%Z -> (k + 1 <= Zdigits2 m)%Z.
Proof.
  intros Hk H0.
  assert (Hm : (0 < m)%Z).
  { assert (0 < 2 ^ k)%Z by (apply Z.pow_pos_nonneg; lia). lia. }
  pose proof (Zdigits2_bounds m Hm) as [_ Hhi].
  pose proof (Zdigits2_nonneg m).
  assert (k < Zdigits2 m)%Z; [|lia].
  apply (Z.pow_lt_mono_r_iff 2); lia.
Qed.

(** An integer that is a double converts to itself. *)
Lemma binary_round_exact (p : positive) :
  in_format (IZR (Z.pos p)) ->
  nonneg_valid (binary_round f64_prec f64_emax false p 0) /\
  SF2R (binary_round f64_prec f64_emax false p 0) = IZR (Z.pos p).
Proof.
  intros Hfmt. unfold binary_round.
  fold (fexp64 (Z.pos (digits2_pos p) + 0)).
  change (Z.pos (digits2_pos p)) with (Zdigits2 (Z.pos p)).
  set (e' := fexp64 (Zdigits2 (Z.pos p) + 0)).
  assert (Hsh : exists mz ez,
             shl_align p 0 e' = (mz, ez) /\
             IZR (Z.pos mz) * bpow ez = IZR (Z.pos p) /\
             (ez <= fexp64 (Zdigits2 (Z.pos mz) + ez))%Z).
  { unfold shl_align. destruct (e' - 0)%Z as [|d|d] eqn:Hd.
    - exists p, 0%Z. rewrite bpow_0. split; [reflexivity|split; [ring|]].
      fold e'. lia.
    - exists p, 0%Z. rewrite bpow_0. split; [reflexivity|split; [ring|]].
      fold e'. lia.
    - exists (Pos.iter xO p d), e'. split; [reflexivity|split].
      + rewrite iter_xO_value, mult_IZR, <- (bpow_IZR (Z.pos d)) by lia.
        replace e' with (- Z.pos d)%Z by lia.
        rewrite Rmult_assoc, (Rmult_comm (bpow (Z.pos d))), bpow_opp_l. ring.
      + rewrite iter_xO_digits.
        replace (Zdigits2 (Z.pos p) + Z.pos d + e')%Z
          with (Zdigits2 (Z.pos p) + 0)%Z by lia.
        fold e'. lia. }
  destruct Hsh as (mz & ez & -> & Hval & Hal).
  assert (Hloc : located (Z.pos mz) loc_Exact (IZR (Z.pos p) * bpow (- ez))).
  { cbn [located]. rewrite <- Hval, Rmult_assoc.
    rewrite (Rmult_comm (bpow ez)), bpow_opp_l. ring. }
  destruct (binary_round_aux_nearest (Z.pos mz) ez loc_Exact _ _
              ltac:(lia) Hloc Hal Hfmt (Rle_refl _)) as [Hvalid Hnear].
  split; [exact Hvalid|]. now apply nearest_exact.
Qed.

Lemma int_in_format (n : Z) : (0 <= n <= 2 ^ 53)%Z -> in_format (IZR n).
Proof.
  intros Hn. destruct (Z.eq_dec n (2 ^ 53)) as [->|Hne].
  - exists (2 ^ 52)%Z, 1%Z. rewrite bpow_1, <- mult_IZR.
    split; [reflexivity|split; [reflexivity|lia]].
  - exists n, 0%Z. rewrite bpow_0. split; [ring|split; lia].
Qed.

Lemma f64_of_Z_exact (n : Z) :
  (0 <= n <= 2 ^ 53)%Z ->
  nonneg_valid (f64_of_Z n) /\ SF2R (f64_of_Z n) = IZR n.
Proof.
  intros Hn. destruct n as [|p|p]; [split; [exact I|reflexivity]| |lia].
  apply binary_round_exact. now apply int_in_format.
Qed.


(** *** Multiplication *)

Lemma nonneg_valid_value (a : pyfloat) : nonneg_valid a -> 0 <= SF2R a.
Proof.
  destruct a as [[|]|[|]| |[|] m e]; cbn; try tauto; try lra.
  intros _. pose proof (bpow_pos e).
  assert (0 < IZR (Z.pos m)) by (apply IZR_lt; lia). nra.
Qed.

Lemma f64_mul_nearest (a b : pyfloat) (y : R) :
  nonneg_valid a -> nonneg_valid b ->
  in_format y -> SF2R a * SF2R b <= y ->
  nonneg_valid (f64_mul a b) /\
  nearest_to (SF2R (f64_mul a b)) (SF2R a * SF2R b).
Proof.
  intros Ha Hb Hy Hle.
  destruct a as [[|]|[|]| |[|] ma ea]; try contradiction;
    destruct b as [[|]|[|]| |[|] mb eb]; try contradiction;
    cbn [f64_mul SFmul xorb SF2R nonneg_valid];
    try (split; [exact I|];
         match goal with
         | |- nearest_to 0 ?x => replace x with 0 by ring; apply nearest_zero
         end).
  cbn [SF2R cond_Zopp] in Hle. cbn [nonneg_valid] in Ha, Hb.
  apply bounded_inv in Ha as (Ha53 & Hea & Hna).
  apply bounded_inv in Hb as (Hb53 & Heb & Hnb).
  cbn [cond_Zopp].
  apply binary_round_aux_nearest with (y := y); auto; try lia.
  - cbn [located]. rewrite Pos2Z.inj_mul, mult_IZR.
    replace (- (ea + eb))%Z with (- ea + - eb)%Z by lia. rewrite bpow_add.
    pose proof (bpow_opp_l ea). pose proof (bpow_opp_l eb).
    set (A := IZR (Z.pos ma)). set (B := IZR (Z.pos mb)).
    transitivity (A * B * (bpow (- ea) * bpow ea) * (bpow (- eb) * bpow eb));
      [ring|]. rewrite H, H0. ring.
  - rewrite fexp64_eq.
    destruct Hna as [->|Hna]; [destruct Hnb as [->|Hnb]; [lia|]|].
    + assert (53 <= Zdigits2 (Z.pos (ma * mb)))%Z; [|lia].
      apply (Zdigits2_lower _ 52); [|lia]. rewrite Pos2Z.inj_mul. nia.
    + assert (53 <= Zdigits2 (Z.pos (ma * mb)))%Z; [|lia].
      apply (Zdigits2_lower _ 52); [|lia]. rewrite Pos2Z.inj_mul. nia.
Qed.

(** *** Division *)

Lemma new_location_located (n q r : Z) :
  (0 <= r < n)%Z ->
  located q (new_location n r) (IZR q + IZR r / IZR n).
Proof.
  intros Hr.
  assert (Hn : 0 < IZR n) by (apply IZR_lt; lia).
  assert (Ht : IZR r / IZR n * IZR n = IZR r) by (field; lra).
  set (t := IZR r / IZR n) in *.
  assert (Hr0 : 0 <= IZR r < IZR n) by (split; [apply IZR_le|apply IZR_lt]; lia).
  unfold new_location, new_location_even, new_location_odd.
  destruct (Z.even n) eqn:Hev; destruct (Z.eqb_spec r 0) as [->|Hne].
  - cbn [located]. replace t with 0 by (cbn in Ht; nra). ring.
  - assert (0 < IZR r) by (apply IZR_lt; lia).
    destruct (Z.compare_spec (2 * r) n) as [Heq|Hlt|Hgt]; cbn [located].
    + apply (f_equal IZR) in Heq. rewrite mult_IZR in Heq. nra.
    + apply IZR_lt in Hlt. rewrite mult_IZR in Hlt. nra.
    + apply IZR_lt in Hgt. rewrite mult_IZR in Hgt. nra.
  - cbn [located]. replace t with 0 by (cbn in Ht; nra). ring.
  - assert (0 < IZR r) by (apply IZR_lt; lia).
    assert (Hodd : (2 * r <> n)%Z).
    { intros <-. rewrite Z.even_mul in Hev. discriminate. }
    destruct (Z.compare_spec (2 * r + 1) n) as [Heq|Hlt|Hgt]; cbn [located].
    + assert (Hlt : (2 * r < n)%Z) by lia.
      apply IZR_lt in Hlt. rewrite mult_IZR in Hlt. nra.
    + assert (Hlt' : (2 * r < n)%Z) by lia.
      apply IZR_lt in Hlt'. rewrite mult_IZR in Hlt'. nra.
    + assert (Hgt' : (n < 2 * r)%Z) by lia.
      apply IZR_lt in Hgt'. rewrite mult_IZR in Hgt'. nra.
Qed.

(** The quotient of two positive mantissas at their exponents, as the
    division prepares it for rounding. *)
Lemma SFdiv_core_located (m1 e1 m2 e2 : Z) :
  (0 < m1)%Z -> (0 < m2)%Z ->
  exists q e l,
    SFdiv_core_binary f64_prec f64_emax m1 e1 m2 e2 = (q, e, l) /\
    (0 <= q)%Z /\
    located q l (IZR m1 * bpow e1 / (IZR m2 * bpow e2) * bpow (- e)) /\
    (e <= fexp64 (Zdigits2 q + e))%Z.
Proof.
  intros H1 H2. unfold SFdiv_core_binary.
  fold (fexp64 (Zdigits2 m1 + e1 - (Zdigits2 m2 + e2))).
  set (e := Z.min (fexp64 (Zdigits2 m1 + e1 - (Zdigits2 m2 + e2))) (e1 - e2)).
  set (s := (e1 - e2 - e)%Z).
  assert (Hs : (0 <= s)%Z) by (unfold s, e; lia).
  set (m' := match s with
             | 0%Z => m1
             | Z.pos _ => Z.shiftl m1 s
             | Z.neg _ => 0%Z
             end).
  assert (Hm' : m' = (m1 * 2 ^ s)%Z).
  { unfold m'. destruct s as [|p|p] eqn:Es; [lia| |lia].
    now rewrite Z.shiftl_mul_pow2 by lia. }
  destruct (Z.div_eucl m' m2) as [q r] eqn:Hdiv.
  pose proof (Z_div_mod m' m2 ltac:(lia)) as Hdm. rewrite Hdiv in Hdm.
  destruct Hdm as [Heq Hr].
  assert (H2s : (0 < 2 ^ s)%Z) by (apply Z.pow_pos_nonneg; lia).
  assert (Hq : (0 <= q)%Z) by nia.
  exists q, e, (new_location m2 r). split; [reflexivity|split; [exact Hq|split]].
  - assert (Hx : IZR m1 * bpow e1 / (IZR m2 * bpow e2) * bpow (- e)
                 = IZR q + IZR r / IZR m2).
    { assert (Hn : 0 < IZR m2) by (apply IZR_lt; lia).
      pose proof (bpow_pos e2) as Hp2.
      assert (Hm1 : IZR m1 * bpow s = IZR m2 * IZR q + IZR r).
      { rewrite bpow_IZR, <- !mult_IZR, <- plus_IZR by lia. f_equal. lia. }
      assert (Hb : bpow e1 * bpow (- e) = bpow s * bpow e2).
      { rewrite <- !bpow_add. f_equal. unfold s. lia. }
      transitivity (IZR m1 * (bpow e1 * bpow (- e)) / (IZR m2 * bpow e2));
        [field; lra|].
      rewrite Hb.
      transitivity ((IZR m1 * bpow s) / IZR m2); [field; lra|].
      rewrite Hm1. field. lra. }
    rewrite Hx. now apply new_location_located.
  - rewrite fexp64_eq.
    destruct (Z_le_gt_dec e (-1074)) as [Hsmall|Hbig]; [lia|].
    pose proof (Zdigits2_bounds m1 H1) as [Hlo1 _].
    pose proof (Zdigits2_bounds m2 H2) as [_ Hhi2].
    pose proof (Zdigits2_nonneg m1). pose proof (Zdigits2_nonneg m2).
    assert (Hd1 : (1 <= Zdigits2 m1)%Z) by (destruct m1; cbn; lia).
    assert (Hse : (53 + Zdigits2 m2 - Zdigits2 m1 <= s)%Z).
    { unfold s, e in *. rewrite fexp64_eq in *. lia. }
    assert (Hq52 : (2 ^ 52 <= q)%Z).
    { assert (Hpow : (2 ^ 52 * 2 ^ Zdigits2 m2 <= 2 ^ (Zdigits2 m1 - 1) * 2 ^ s)%Z).
      { rewrite <- !Z.pow_add_r by lia. apply Z.pow_le_mono_r; lia. }
      assert (Hlow : (2 ^ 52 * m2 <= m')%Z) by (rewrite Hm'; nia).
      destruct (Z_lt_le_dec q (2 ^ 52)) as [Hlt|]; [|assumption]. nia. }
    pose proof (Zdigits2_lower q 52 Hq52 ltac:(lia)). lia.
Qed.


(** [a / b] on integers [0 <= a] and [0 < b] whose quotient is not above
    some double: no exception, and a double nearest to the quotient. *)
Lemma int_true_div_nearest (a b : Z) (y : R) :
  (0 <= a)%Z -> (0 < b)%Z -> in_format y -> IZR a / IZR b <= y ->
  exists r,
    int_true_div a b = Ok r /\ nonneg_valid r /\
    nearest_to (SF2R r) (IZR a / IZR b).
Proof.
  intros Ha Hb Hy Hle. unfold int_true_div.
  replace (b =? 0)%Z with false by (symmetry; apply Z.eqb_neq; lia).
  replace (a <? 0)%Z with false by (symmetry; apply Z.ltb_ge; lia).
  replace (b <? 0)%Z with false by (symmetry; apply Z.ltb_ge; lia).
  cbn [xorb].
  destruct (Z.eqb_spec a 0) as [->|Hne].
  - exists (S754_zero false). split; [reflexivity|split; [exact I|]].
    cbn [SF2R]. replace (0 / IZR b) with 0; [apply nearest_zero|].
    unfold Rdiv. ring.
  - rewrite (Z.abs_eq a), (Z.abs_eq b) by lia.
    destruct (SFdiv_core_located a 0 b 0 ltac:(lia) Hb)
      as (q & e & l & -> & Hq & Hloc & Hal).
    rewrite bpow_0, !Rmult_1_r in Hloc.
    destruct (binary_round_aux_nearest q e l _ y Hq Hloc Hal Hy Hle)
      as [Hvalid Hnear].
    exists (binary_round_aux f64_prec f64_emax false q e l).
    split; [|split; assumption]. clear Hnear.
    destruct (binary_round_aux f64_prec f64_emax false q e l) as [[|]|[|]| |[|] m' e'];
      cbn in Hvalid; try contradiction; reflexivity.
Qed.

(** [a / b] on doubles [0 <= a] and [0 < b]. *)
Lemma f64_div_nearest (a b : pyfloat) (y : R) :
  nonneg_valid a -> nonneg_valid b -> 0 < SF2R b ->
  in_format y -> SF2R a / SF2R b <= y ->
  nonneg_valid (f64_div a b) /\
  nearest_to (SF2R (f64_div a b)) (SF2R a / SF2R b).
Proof.
  intros Ha Hb Hpos Hy Hle.
  destruct b as [[|]|[|]| |[|] mb eb]; try contradiction;
    [cbn in Hpos; lra|].
  destruct a as [[|]|[|]| |[|] ma ea]; try contradiction.
  - cbn [f64_div SFdiv xorb nonneg_valid]. split; [exact I|].
    cbn [SF2R]. replace (0 / _) with 0; [apply nearest_zero|].
    unfold Rdiv. ring.
  - cbn [f64_div SFdiv xorb]. cbn [SF2R cond_Zopp] in *.
    destruct (SFdiv_core_located (Z.pos ma) ea (Z.pos mb) eb ltac:(lia) ltac:(lia))
      as (q & e & l & -> & Hq & Hloc & Hal).
    now apply binary_round_aux_nearest with (y := y).
Qed.

Lemma f64_add_zero (a : pyfloat) :
  nonneg_valid a -> f64_add a (f64_of_Z 0) = a.
Proof. destruct a as [[|]|[|]| |[|] m e]; cbn; tauto. Qed.

(** *** The integer part *)

Lemma f64_trunc_bounds (r : pyfloat) :
  nonneg_valid r ->
  (0 <= f64_trunc r)%Z /\ f64_floor r = f64_trunc r /\
  IZR (f64_trunc r) <= SF2R r < IZR (f64_trunc r) + 1.
Proof.
  destruct r as [[|]|[|]| |[|] m e]; try contradiction; intros _.
  - cbn. split; [lia|split; [reflexivity|lra]].
  - cbn [f64_trunc f64_floor SF2R cond_Zopp].
    destruct e as [|p|p].
    + rewrite bpow_0. cbn [Z.pow]. rewrite Z.mul_1_r.
      split; [lia|split; [reflexivity|lra]].
    + assert (0 < 2 ^ Z.pos p)%Z by (apply Z.pow_pos_nonneg; lia).
      rewrite mult_IZR, <- bpow_IZR by lia.
      split; [nia|split; [reflexivity|lra]].
    + assert (Hp : (0 < 2 ^ Z.pos p)%Z) by (apply Z.pow_pos_nonneg; lia).
      pose proof (Z_div_mod_eq_full (Z.pos m) (2 ^ Z.pos p)) as Heq.
      pose proof (Z.mod_pos_bound (Z.pos m) (2 ^ Z.pos p) Hp) as Hr.
      assert (Hq : (0 <= Z.pos m / 2 ^ Z.pos p)%Z) by (apply Z.div_pos; lia).
      split; [exact Hq|split; [reflexivity|]].
      set (q := (Z.pos m / 2 ^ Z.pos p)%Z) in *.
      set (t := (Z.pos m mod 2 ^ Z.pos p)%Z) in *.
      change (Z.neg p) with (- Z.pos p)%Z.
      pose proof (bpow_opp_l (Z.pos p)) as Hinv.
      rewrite (bpow_IZR (Z.pos p)) in Hinv by lia.
      rewrite Heq, plus_IZR, mult_IZR.
      assert (Ht : 0 <= IZR t < IZR (2 ^ Z.pos p))
        by (split; [apply IZR_le|apply IZR_lt]; lia).
      pose proof (bpow_pos (- Z.pos p)) as HB.
      replace ((IZR (2 ^ Z.pos p) * IZR q + IZR t) * bpow (- Z.pos p))
        with (IZR q * (bpow (- Z.pos p) * IZR (2 ^ Z.pos p))
              + IZR t * bpow (- Z.pos p)) by ring.
      rewrite Hinv. nra.
Qed.


(** *** One scaled count *)

Lemma in_format_1 : in_format 1.
Proof. apply (int_in_format 1). lia. Qed.

Lemma in_format_0 : in_format 0.
Proof. apply (int_in_format 0). lia. Qed.

(** [int((count / max_value) * max_height)] for [0 <= count <= max_value]:
    no exception; the result is the integer part of a double nearest to the
    product of [max_height] and a double nearest to the quotient. *)
Lemma scale_count_spec (M h v : Z) :
  (0 <= v <= M)%Z -> (0 < M)%Z -> (0 <= h <= 2 ^ 53)%Z ->
  exists (q p : pyfloat) (out : Z),
    scale_count M h v = Ok out /\
    nearest_to (SF2R q) (IZR v / IZR M) /\
    nearest_to (SF2R p) (SF2R q * IZR h) /\
    IZR out <= SF2R p < IZR out + 1 /\
    (0 <= out <= h)%Z /\
    (v = M -> out = h) /\
    (v = 0%Z -> out = 0%Z).
Proof.
  intros Hv HM Hh.
  assert (HMr : 0 < IZR M) by (apply IZR_lt; lia).
  assert (Hvr : 0 <= IZR v <= IZR M) by (split; apply IZR_le; lia).
  assert (Hhr : 0 <= IZR h) by (apply IZR_le; lia).
  assert (Hx1 : IZR v / IZR M <= 1).
  { apply Rmult_le_reg_r with (IZR M); [lra|].
    replace (IZR v / IZR M * IZR M) with (IZR v) by (field; lra). lra. }
  destruct (int_true_div_nearest v M 1 ltac:(lia) HM in_format_1 Hx1)
    as (q & Hq & Hqv & Hqn).
  pose proof (nearest_le_format _ _ _ Hqn in_format_1 Hx1) as Hq1.
  pose proof (nearest_nonneg _ _ Hqn) as Hq0.
  destruct (f64_of_Z_exact h Hh) as [Hhv Hhval].
  assert (Hprod : SF2R q * SF2R (f64_of_Z h) <= IZR h) by (rewrite Hhval; nra).
  destruct (f64_mul_nearest q (f64_of_Z h) (IZR h) Hqv Hhv
              (int_in_format h Hh) Hprod) as [Hpv Hpn].
  rewrite Hhval in Hpn.
  pose proof (nearest_le_format _ _ _ Hpn (int_in_format h Hh)
                ltac:(rewrite Hhval in Hprod; exact Hprod)) as Hph.
  destruct (f64_trunc_bounds _ Hpv) as (Ht0 & _ & Htb).
  set (p := f64_mul q (f64_of_Z h)) in *.
  exists q, p, (f64_trunc p).
  assert (Hrun : scale_count M h v = Ok (f64_trunc p)).
  { unfold scale_count, float_mul_int, int_to_float. rewrite Hq. cbn [bind].
    destruct (f64_of_Z h) as [[|]|[|]| |[|] mh eh] eqn:Eh;
      cbn in Hhv; try contradiction; cbn [bind]; fold p;
      destruct p as [[|]|[|]| |[|] mp ep]; cbn in Hpv; try contradiction;
      reflexivity. }
  split; [exact Hrun|]. split; [exact Hqn|]. split; [exact Hpn|].
  split; [exact Htb|]. split; [|split].
  - split; [exact Ht0|]. apply le_IZR. lra.
  - intros ->.
    replace (IZR M / IZR M) with 1 in Hqn by (field; lra).
    pose proof (nearest_exact _ _ Hqn in_format_1) as Hq_one.
    rewrite Hq_one, Rmult_1_l in Hpn.
    pose proof (nearest_exact _ _ Hpn (int_in_format h Hh)) as Hp_h.
    rewrite Hp_h in Htb.
    assert (f64_trunc p <= h)%Z by (apply le_IZR; lra).
    assert (h < f64_trunc p + 1)%Z by (apply lt_IZR; rewrite plus_IZR; lra).
    lia.
  - intros ->.
    replace (0 / IZR M) with 0 in Hqn by (unfold Rdiv; ring).
    pose proof (nearest_exact _ _ Hqn in_format_0) as Hq_zero.
    rewrite Hq_zero, Rmult_0_l in Hpn.
    pose proof (nearest_exact _ _ Hpn in_format_0) as Hp_zero.
    rewrite Hp_zero in Htb.
    assert (f64_trunc p < 1)%Z by (apply lt_IZR; lra). lia.
Qed.


Lemma bpow_m53 : bpow (-53) * 9007199254740992 = 1.
Proof.
  pose proof (bpow_opp_l 53) as H. rewrite (bpow_IZR 53) in H by lia. exact H.
Qed.

Lemma bpow_m1022_small : bpow (-1022) <= bpow (-53) / 4.
Proof.
  apply Rle_trans with (bpow (-55)); [apply bpow_le; lia|].
  replace (-55)%Z with (-53 + (-1) + (-1))%Z by lia.
  rewrite !bpow_add, bpow_m1. lra.
Qed.

(** Two roundings against the exact quotient: the integer part of a double
    nearest to [C] times a double nearest to [A / B] is the quotient
    [A * C / B] of the integers, or one less. *)
Lemma floor_of_rounded_product (A B C out : Z) (qq pp : R) :
  (0 < A)%Z -> (0 < B)%Z -> (0 < C)%Z ->
  (A * C < 2 ^ 51)%Z -> (B < 2 ^ 51)%Z ->
  nearest_to qq (IZR A / IZR B) ->
  nearest_to pp (qq * IZR C) ->
  IZR out <= pp < IZR out + 1 ->
  (A * C / B - 1 <= out <= A * C / B)%Z.
Proof.
  intros HA HB HC HAC HB51 Hqn Hpn Htb.
  pose proof bpow_m53 as Hu. pose proof bpow_m1022_small as Hmin.
  pose proof (bpow_pos (-53)) as Hu0.
  set (u := bpow (-53)) in *.
  assert (HBr : 1 <= IZR B <= 2251799813685247) by (split; apply IZR_le; lia).
  assert (HAr : 1 <= IZR A) by (apply IZR_le; lia).
  assert (HCr : 1 <= IZR C) by (apply IZR_le; lia).
  assert (HACr : IZR A * IZR C <= 2251799813685247).
  { rewrite <- mult_IZR. apply IZR_le. lia. }
  (* the exact quotient as an integer and a remainder *)
  pose proof (Z_div_mod_eq_full (A * C) B) as Hdm.
  pose proof (Z.mod_pos_bound (A * C) B HB) as Hr.
  set (F := (A * C / B)%Z) in *. set (r := ((A * C) mod B)%Z) in *.
  assert (HACF : IZR A * IZR C = IZR B * IZR F + IZR r).
  { rewrite <- !mult_IZR, <- plus_IZR. f_equal. exact Hdm. }
  assert (Hrr : 0 <= IZR r <= IZR B - 1).
  { split; [apply IZR_le; lia|]. rewrite <- minus_IZR. apply IZR_le. lia. }
  clear Hdm Hr HA HB HC HAC HB51.
  set (x := IZR A / IZR B) in *.
  assert (Hx : x * IZR B = IZR A) by (unfold x; field; lra).
  clearbody x. set (b := IZR B) in *. set (c := IZR C) in *.
  set (a := IZR A) in *.
  remember (IZR out) as o eqn:Eo. remember (IZR F) as f eqn:Ef.
  set (rr := IZR r) in *.
  clearbody a b c rr.
  assert (Hx0 : 0 < x) by (clear - Hx HAr HBr; nra).
  assert (Hub : u * b <= 1 / 4) by (clear - HBr Hu Hu0; nra).
  assert (Hxu : u <= x) by (clear - Hub Hx HAr HBr; nra).
  assert (Hxbig : bpow (-1022) <= x) by (clear - Hxu Hmin Hu0; lra).
  pose proof (nearest_relative _ _ Hqn Hxbig) as Hq. fold u in Hq.
  assert (Hu1 : u <= 1 / 2) by (clear - Hu Hu0; lra).
  assert (Hqx : x / 2 <= qq) by (clear - Hq Hu1 Hx0; nra).
  assert (Hq2 : bpow (-1022) <= qq * c) by (clear - Hqx Hxu Hmin HCr Hu0; nra).
  pose proof (nearest_relative _ _ Hpn Hq2) as Hp. fold u in Hp.
  clear Hqn Hpn Hxbig Hq2 Hmin. clearbody u.
  set (E := x * c) in *.
  assert (HE : 0 < E) by (unfold E; clear - Hx0 HCr; nra).
  assert (HEb : E * b = b * f + rr) by (unfold E; clear - Hx HACF; nra).
  assert (HEac : E * b <= 2251799813685247) by (unfold E; clear - Hx HACr; nra).
  assert (Hqc : E * (1 - u) <= qq * c <= E * (1 + u))
    by (unfold E; clear - Hq HCr; nra).
  clearbody E.
  assert (H1u : 0 <= 1 - u <= 1 /\ 1 <= 1 + u <= 2) by (clear - Hu1 Hu0; lra).
  assert (Hplo : E - E * (2 * u) <= pp) by (clear - Hqc Hp H1u HE; nra).
  assert (Hphi : pp <= E + E * (3 * u)) by (clear - Hqc Hp H1u HE Hu1; nra).
  assert (Herr : E * (2 * u) <= 1 /\ E * (3 * u) * b < 1).
  { assert (E <= 2251799813685247) by (clear - HEac HBr HE; nra).
    clear - H HEac Hu Hu0 HE. split; nra. }
  assert (HEf : f <= E /\ E * b + 1 <= (f + 1) * b)
    by (clear - HEb Hrr HBr; split; nra).
  split.
  - assert (Hlt : IZR (F - 2) < IZR out).
    { rewrite minus_IZR, <- Eo, <- Ef. clear - Hplo Herr HEf Htb. lra. }
    apply lt_IZR in Hlt. lia.
  - assert (Hlt : IZR out < IZR (F + 1)).
    { rewrite plus_IZR, <- Eo, <- Ef.
      assert (pp * b < (f + 1) * b) by (clear - Hphi Herr HEf HBr; nra).
      clear - H Htb HBr. nra. }
    apply lt_IZR in Hlt. lia.
Qed.

(** The scaled count against the exact quotient: the same or one less, as
    long as [max_value * max_height] stays below [2^51]. *)
Lemma scale_count_near_exact (M h v out : Z) :
  (0 <= v <= M)%Z -> (0 < M)%Z -> (0 <= h)%Z -> (M * h < 2 ^ 51)%Z ->
  scale_count M h v = Ok out ->
  (exact_scale M h v - 1 <= out <= exact_scale M h v)%Z.
Proof.
  intros Hv HM Hh Hsmall Hrun.
  assert (Hh53 : (0 <= h <= 2 ^ 53)%Z) by nia.
  destruct (scale_count_spec M h v Hv HM Hh53)
    as (q & p & out' & Hrun' & Hqn & Hpn & Htb & Hrange & _ & Hzero).
  rewrite Hrun in Hrun'. injection Hrun' as <-.
  unfold exact_scale.
  destruct (Z.eq_dec v 0) as [->|Hv0].
  { rewrite (Hzero eq_refl). cbn. lia. }
  destruct (Z.eq_dec h 0) as [->|Hh0].
  { rewrite Z.mul_0_r. cbn. lia. }
  apply (floor_of_rounded_product v M h out (SF2R q) (SF2R p)); auto; try lia; nia.
Qed.


(** *** The samples of the index selection *)

Lemma f64_sub_zero (a : pyfloat) :
  nonneg_valid a -> f64_sub a (f64_of_Z 0) = a.
Proof. destruct a as [[|]|[|]| |[|] m e]; cbn; tauto. Qed.

Lemma linspace_step_spec (stop num : Z) :
  (2 <= num <= stop)%Z -> (stop <= 2 ^ 53)%Z ->
  nonneg_valid (linspace_step stop num) /\
  nearest_to (SF2R (linspace_step stop num)) (IZR stop / IZR (num - 1)) /\
  1 <= SF2R (linspace_step stop num) /\
  SFeqb (linspace_step stop num) f64_zero = false.
Proof.
  intros Hnum Hstop. unfold linspace_step.
  destruct (f64_of_Z_exact stop ltac:(lia)) as [Hav Haval].
  destruct (f64_of_Z_exact (num - 1) ltac:(lia)) as [Hbv Hbval].
  rewrite (f64_sub_zero _ Hav).
  assert (Hb : 1 <= IZR (num - 1)) by (apply IZR_le; lia).
  assert (Hab : IZR (num - 1) <= IZR stop) by (apply IZR_le; lia).
  assert (Hx : IZR stop / IZR (num - 1) * IZR (num - 1) = IZR stop)
    by (field; lra).
  assert (Hx1 : 1 <= IZR stop / IZR (num - 1) <= IZR stop) by nra.
  destruct (f64_div_nearest (f64_of_Z stop) (f64_of_Z (num - 1)) (IZR stop)
              Hav Hbv ltac:(lra) (int_in_format stop ltac:(lia))
              ltac:(rewrite Haval, Hbval; lra)) as [Hsv Hsn].
  rewrite Haval, Hbval in Hsn.
  pose proof (nearest_ge_format _ _ 1 Hsn in_format_1 ltac:(lra)) as Hs1.
  repeat split; try assumption.
  destruct (f64_div (f64_of_Z stop) (f64_of_Z (num - 1))) as [[|]|[|]| |[|] m e];
    cbn in Hsv, Hs1; try contradiction; try lra; reflexivity.
Qed.

Lemma linspace_sample_spec (stop num i : Z) :
  (2 <= num <= stop)%Z -> (stop <= 2 ^ 53)%Z -> (0 <= i < num - 1)%Z ->
  nearest_to (SF2R (linspace_sample stop num i))
    (IZR i * SF2R (linspace_step stop num)) /\
  np_floor_astype_int (linspace_sample stop num i)
    = f64_trunc (linspace_sample stop num i) /\
  IZR (f64_trunc (linspace_sample stop num i))
    <= SF2R (linspace_sample stop num i)
    < IZR (f64_trunc (linspace_sample stop num i)) + 1 /\
  (0 <= f64_trunc (linspace_sample stop num i) <= stop)%Z.
Proof.
  intros Hnum Hstop Hi.
  destruct (linspace_step_spec stop num Hnum Hstop) as (Hsv & Hsn & Hs1 & _).
  destruct (f64_of_Z_exact i ltac:(lia)) as [Hiv Hival].
  assert (Hb : 1 <= IZR (num - 1) <= 9007199254740992)
    by (split; apply IZR_le; lia).
  assert (Hir : 0 <= IZR i <= IZR (num - 1) - 1).
  { split; [apply IZR_le; lia|]. rewrite <- minus_IZR. apply IZR_le. lia. }
  assert (Hx : IZR stop / IZR (num - 1) * IZR (num - 1) = IZR stop)
    by (field; lra).
  assert (Ha : 1 <= IZR stop) by (apply IZR_le; lia).
  assert (Hab : IZR (num - 1) <= IZR stop) by (apply IZR_le; lia).
  assert (Hx1 : 1 <= IZR stop / IZR (num - 1)) by nra.
  assert (Hprod : IZR i * SF2R (linspace_step stop num) <= IZR stop).
  { assert (Hnorm : bpow (-1022) <= IZR stop / IZR (num - 1)).
    { apply Rle_trans with 1; [|exact Hx1].
      rewrite <- bpow_0. apply bpow_le. lia. }
    pose proof (nearest_relative _ _ Hsn Hnorm) as [_ Hrel].
    pose proof bpow_m53 as Hu. pose proof (bpow_pos (-53)) as Hu0.
    set (u := bpow (-53)) in *. set (x := IZR stop / IZR (num - 1)) in *.
    set (s := SF2R (linspace_step stop num)) in *.
    set (b := IZR (num - 1)) in *.
    clearbody u x s b.
    assert (Hx0 : 0 < x) by (clear - Hx Ha Hb; nra).
    assert (Hub : (b - 1) * u <= 1) by (clear - Hb Hu Hu0; nra).
    assert (His : IZR i * s <= (b - 1) * (x * (1 + u))) by (clear - Hir Hrel Hs1 Hx0 Hu0; nra).
    assert ((b - 1) * (x * (1 + u)) <= x * b) by (clear - Hub Hx0; nra).
    clear - His H Hx. lra. }
  destruct (f64_mul_nearest (f64_of_Z i) (linspace_step stop num) (IZR stop)
              Hiv Hsv (int_in_format stop ltac:(lia))
              ltac:(rewrite Hival; exact Hprod)) as [Hyv Hyn].
  rewrite Hival in Hyn.
  unfold linspace_sample. rewrite (f64_add_zero _ Hyv).
  pose proof (nearest_le_format _ _ _ Hyn (int_in_format stop ltac:(lia)) Hprod)
    as Hya.
  destruct (f64_trunc_bounds _ Hyv) as (Ht0 & Hfl & Htb).
  assert (Hta : (f64_trunc (f64_mul (f64_of_Z i) (linspace_step stop num)) <= stop)%Z)
    by (apply le_IZR; lra).
  repeat split; try assumption; try lra.
  unfold np_floor_astype_int.
  destruct (f64_mul (f64_of_Z i) (linspace_step stop num)) as [[|]|[|]| |[|] m e] eqn:Ey;
    cbn in Hyv; try contradiction; [reflexivity|].
  rewrite Hfl.
  replace ((- 2 ^ 63 <=? f64_trunc (S754_finite false m e))%Z) with true
    by (symmetry; apply Z.leb_le; lia).
  replace ((f64_trunc (S754_finite false m e) <? 2 ^ 63)%Z) with true
    by (symmetry; apply Z.ltb_lt; lia).
  reflexivity.
Qed.

(** An interior index against the exact interpolation: the same or one
    less. *)
Lemma linspace_sample_near_exact (stop num i : Z) :
  (2 <= num <= stop)%Z -> (stop * num < 2 ^ 51)%Z -> (0 <= i < num - 1)%Z ->
  (exact_index stop num i - 1
   <= f64_trunc (linspace_sample stop num i)
   <= exact_index stop num i)%Z.
Proof.
  intros Hnum Hsmall Hi.
  assert (Hstop : (stop <= 2 ^ 53)%Z) by nia.
  destruct (linspace_step_spec stop num Hnum Hstop) as (_ & Hsn & _ & _).
  destruct (linspace_sample_spec stop num i Hnum Hstop Hi)
    as (Hyn & _ & Htb & Hrange).
  unfold exact_index.
  destruct (Z.eq_dec i 0) as [->|Hi0].
  - rewrite Rmult_0_l in Hyn.
    pose proof (nearest_exact _ _ Hyn in_format_0) as Hy0. rewrite Hy0 in Htb.
    assert (f64_trunc (linspace_sample stop num 0) < 1)%Z by (apply lt_IZR; lra).
    cbn. lia.
  - rewrite Rmult_comm in Hyn. rewrite (Z.mul_comm i stop).
    apply (floor_of_rounded_product stop (num - 1) i _
             (SF2R (linspace_step stop num)) (SF2R (linspace_sample stop num i)));
      auto; try lia; nia.
Qed.


Lemma np_floor_of_Z (n : Z) :
  (0 <= n <= 2 ^ 53)%Z -> np_floor_astype_int (f64_of_Z n) = n.
Proof.
  intros Hn. destruct (f64_of_Z_exact n Hn) as [Hv Hval].
  destruct (f64_trunc_bounds _ Hv) as (Ht0 & Hfl & Htb). rewrite Hval in Htb.
  assert (Ht : f64_trunc (f64_of_Z n) = n).
  { assert (f64_trunc (f64_of_Z n) <= n)%Z by (apply le_IZR; lra).
    assert (n < f64_trunc (f64_of_Z n) + 1)%Z
      by (apply lt_IZR; rewrite plus_IZR; lra).
    lia. }
  unfold np_floor_astype_int.
  destruct (f64_of_Z n) as [[|]|[|]| |[|] m e] eqn:En;
    cbn in Hv; try contradiction.
  - cbn in Ht. exact Ht.
  - rewrite Hfl, Ht.
    replace ((- 2 ^ 63 <=? n)%Z) with true by (symmetry; apply Z.leb_le; lia).
    replace ((n <? 2 ^ 63)%Z) with true by (symmetry; apply Z.ltb_lt; lia).
    reflexivity.
Qed.

Lemma f64_mul_zero_l (a : pyfloat) :
  nonneg_valid a -> f64_mul (f64_of_Z 0) a = S754_zero false.
Proof. destruct a as [[|]|[|]| |[|] m e]; cbn; tauto. Qed.

Lemma f64_of_Z_valid (n : Z) : (0 <= n <= 2 ^ 53)%Z -> nonneg_valid (f64_of_Z n).
Proof. intros Hn. apply (f64_of_Z_exact n Hn). Qed.

Lemma linspace_step_valid (stop num : Z) :
  (2 <= num <= stop)%Z -> (stop <= 2 ^ 53)%Z ->
  SFeqb (linspace_step stop num) f64_zero = false.
Proof. intros H1 H2. apply (linspace_step_spec stop num H1 H2). Qed.

Lemma linspace_sample_index (stop num i : Z) :
  (2 <= num <= stop)%Z -> (stop <= 2 ^ 53)%Z -> (0 <= i < num - 1)%Z ->
  np_floor_astype_int (linspace_sample stop num i)
    = f64_trunc (linspace_sample stop num i) /\
  (0 <= f64_trunc (linspace_sample stop num i) <= stop)%Z.
Proof.
  intros H1 H2 H3.
  destruct (linspace_sample_spec stop num i H1 H2 H3) as (_ & Hf & _ & Hr).
  split; assumption.
Qed.

(** A scaled count: what the later statements need of [scale_count_spec]. *)
Lemma scale_count_ok (M h v : Z) :
  (0 <= v <= M)%Z -> (0 < M)%Z -> (0 <= h <= 2 ^ 53)%Z ->
  exists (q p : pyfloat),
    int_true_div v M = Ok q /\
    float_mul_int q h = Ok p /\
    scale_count M h v = Ok (f64_trunc p) /\
    (0 <= f64_trunc p <= h)%Z /\
    (v = M -> f64_trunc p = h) /\
    (v = 0%Z -> f64_trunc p = 0%Z).
Proof.
  intros Hv HM Hh.
  destruct (scale_count_spec M h v Hv HM Hh)
    as (q & p & out & Hrun & _ & _ & _ & Hrange & Hmax & Hzero).
  unfold scale_count in *.
  destruct (int_true_div v M) as [q'|] eqn:Hq; [|discriminate].
  cbn [bind] in *.
  destruct (float_mul_int q' h) as [p'|] eqn:Hp; [|discriminate].
  cbn [bind] in *. exists q', p'.
  assert (Hout : out = f64_trunc p').
  { destruct p' as [[|]|[|]| |[|] m e]; cbn [float_to_int] in Hrun; congruence. }
  subst out. repeat split; auto; lia.
Qed.

End RoundingFacts.

(** ** The downsampler: selection *)

Lemma py_range_length (n : Z) : List.length (py_range n) = Z.to_nat n.
Proof. unfold py_range. now rewrite length_map, length_seq. Qed.

Lemma py_range_In (n i : Z) : In i (py_range n) <-> 0 <= i < n.
Proof.
  unfold py_range. rewrite in_map_iff. split.
  - intros (k & <- & Hk). apply in_seq in Hk. lia.
  - intros Hi. exists (Z.to_nat i). split; [lia|]. apply in_seq. lia.
Qed.

Lemma py_range_snoc (n : Z) :
  1 <= n -> py_range n = (py_range (n - 1) ++ [n - 1])%list.
Proof.
  intros Hn. unfold py_range.
  replace (Z.to_nat n) with (Z.to_nat (n - 1) + 1)%nat by lia.
  rewrite seq_app, map_app. cbn [seq map]. f_equal. f_equal. lia.
Qed.

Lemma py_range_nth (n i : Z) :
  0 <= i < n -> nth (Z.to_nat i) (py_range n) 0 = i.
Proof.
  intros Hi. unfold py_range.
  rewrite (nth_indep _ 0 (Z.of_nat 0)) by (rewrite length_map, length_seq; lia).
  rewrite map_nth, seq_nth by lia. lia.
Qed.

Lemma set_last_snoc {A : Type} (l : list A) (x v : A) :
  set_last (l ++ [x]) v = (l ++ [v])%list.
Proof.
  unfold set_last. rewrite removelast_last.
  destruct l; reflexivity.
Qed.

Lemma map_result_pure {A B : Type} (f : A -> result B) (g : A -> B) (l : list A) :
  (forall x, In x l -> f x = Ok (g x)) -> map_result f l = Ok (map g l).
Proof.
  induction l as [|x l IH]; intros H; [reflexivity|].
  cbn [map_result map]. rewrite (H x (or_introl eq_refl)). cbn [bind].
  rewrite IH by (intros y Hy; apply H; now right). reflexivity.
Qed.

Lemma map_result_length {A B : Type} (f : A -> result B) (l : list A) (out : list B) :
  map_result f l = Ok out -> List.length out = List.length l.
Proof.
  revert out. induction l as [|x l IH]; intros out; cbn [map_result].
  - intros [= <-]. reflexivity.
  - destruct (f x) as [y|]; [|discriminate]. cbn [bind].
    destruct (map_result f l) as [ys|]; [|discriminate]. cbn [bind].
    intros [= <-]. cbn [List.length]. f_equal. now apply IH.
Qed.

Lemma py_index_ok {A : Type} (l : list A) (i : Z) (d : A) :
  0 <= i < Z.of_nat (List.length l) ->
  py_index l i = Ok (nth (Z.to_nat i) l d).
Proof.
  intros Hi. unfold py_index.
  replace (i <? 0) with false by (symmetry; apply Z.ltb_ge; lia).
  replace (i <? 0) with false by (symmetry; apply Z.ltb_ge; lia).
  replace (Z.of_nat (List.length l) <=? i) with false
    by (symmetry; apply Z.leb_gt; lia).
  cbn [orb].
  destruct (nth_error l (Z.to_nat i)) as [x|] eqn:Hn.
  - now rewrite (nth_error_nth _ _ d Hn).
  - apply nth_error_None in Hn. lia.
Qed.

Lemma py_max_spec (data : list Z) :
  data <> [] ->
  exists m, py_max data = Ok m /\ In m data /\ Forall (fun v => v <= m) data.
Proof.
  destruct data as [|x rest]; [congruence|]. intros _. cbn [py_max].
  exists (fold_left Z.max rest x). split; [reflexivity|].
  assert (H : forall l a, (In (fold_left Z.max l a) (a :: l)) /\
                          a <= fold_left Z.max l a /\
                          Forall (fun v => v <= fold_left Z.max l a) l).
  { induction l as [|y l IH]; intros a; cbn [fold_left].
    - split; [now left|split; [lia|constructor]].
    - destruct (IH (Z.max a y)) as (Hin & Hle & Hall).
      split; [|split; [lia|constructor; [lia|exact Hall]]].
      destruct Hin as [Heq|Hin]; [|right; now right].
      destruct (Z.max_spec a y) as [[_ E]|[_ E]]; rewrite E in *.
      + right. now left.
      + now left. }
  destruct (H rest x) as (Hin & Hle & Hall).
  split; [exact Hin|constructor; assumption].
Qed.

(** The selected indices for a width of at least two: the integer parts of
    the samples, then [stop]. *)
Lemma np_linspace_int_samples (stop num : Z) :
  2 <= num <= stop -> stop <= 2 ^ 53 ->
  np_linspace_int stop num =
  Ok (map (fun i => f64_trunc (linspace_sample stop num i)) (py_range (num - 1))
        ++ [stop])%list.
Proof.
  intros Hnum Hstop. unfold np_linspace_int.
  replace (num <? 0) with false by (symmetry; apply Z.ltb_ge; lia).
  replace (0 <? num - 1) with true by (symmetry; apply Z.ltb_lt; lia).
  replace (1 <? num) with true by (symmetry; apply Z.ltb_lt; lia).
  fold (linspace_step stop num).
  rewrite (linspace_step_valid stop num Hnum Hstop).
  rewrite (py_range_snoc num) by lia.
  rewrite !map_app. cbn [map]. rewrite set_last_snoc, map_app. cbn [map].
  rewrite (np_floor_of_Z stop) by lia. f_equal. f_equal.
  rewrite !map_map. apply map_ext_in. intros i Hi. apply py_range_In in Hi.
  fold (linspace_sample stop num i).
  apply (linspace_sample_index stop num i Hnum Hstop Hi).
Qed.

(** A width of one selects index 0 alone. *)
Lemma np_linspace_int_one (stop : Z) :
  0 <= stop <= 2 ^ 53 -> np_linspace_int stop 1 = Ok [0].
Proof.
  intros Hstop. unfold np_linspace_int.
  change (1 <? 0) with false. change (0 <? 1 - 1) with false.
  change (1 <? 1) with false. cbv iota. change (py_range 1) with [0].
  cbn [map]. rewrite (f64_sub_zero _ (f64_of_Z_valid stop Hstop)).
  rewrite (f64_mul_zero_l _ (f64_of_Z_valid stop Hstop)). reflexivity.
Qed.

Lemma map_result_Forall2 {A B : Type} (f : A -> result B) (P : A -> B -> Prop)
    (l : list A) :
  (forall x, In x l -> exists y, f x = Ok y /\ P x y) ->
  exists out, map_result f l = Ok out /\ Forall2 P l out.
Proof.
  induction l as [|x l IH]; intros H.
  - exists []. split; [reflexivity|constructor].
  - destruct (H x (or_introl eq_refl)) as (y & Hy & HP).
    destruct IH as (ys & Hys & Hall); [intros z Hz; apply H; now right|].
    exists (y :: ys). cbn [map_result]. rewrite Hy. cbn [bind].
    rewrite Hys. cbn [bind]. split; [reflexivity|now constructor].
Qed.

(** The selection for a non-empty series and a width of at least one. *)
Lemma select_data_ok (series : list Z) (max_width : Z) :
  series <> [] -> 1 <= max_width ->
  Z.of_nat (List.length series) <= 2 ^ 53 ->
  exists data,
    select_data series max_width = Ok data /\
    Z.of_nat (List.length data) = Z.min (Z.of_nat (List.length series)) max_width /\
    data <> [] /\
    (forall v, In v data -> In v series) /\
    (Z.of_nat (List.length series) <= max_width -> data = series).
Proof.
  intros Hne Hw Hlen. unfold select_data.
  assert (Hpos : 0 < Z.of_nat (List.length series)).
  { destruct series; [congruence|cbn [List.length]; lia]. }
  destruct (Z.ltb_spec max_width (Z.of_nat (List.length series))) as [Hlt|Hge].
  - assert (Hidx : forall k, 0 <= k <= Z.of_nat (List.length series) - 1 ->
                     py_index series k = Ok (nth (Z.to_nat k) series 0) /\
                     In (nth (Z.to_nat k) series 0) series).
    { intros k Hk. split; [apply py_index_ok; lia|apply nth_In; lia]. }
    destruct (Z.eq_dec max_width 1) as [->|Hw1].
    + rewrite np_linspace_int_one by lia. cbn [bind map_result].
      rewrite (proj1 (Hidx 0 ltac:(lia))). cbn [bind].
      exists [nth (Z.to_nat 0) series 0].
      split; [reflexivity|split; [cbn [List.length]; lia|split; [discriminate|]]].
      split; [|lia]. intros v [<-|[]]. apply (Hidx 0). lia.
    + rewrite np_linspace_int_samples by lia. cbn [bind].
      set (indices := (map _ (py_range (max_width - 1)) ++ _)%list).
      assert (Hall : forall k, In k indices ->
                       0 <= k <= Z.of_nat (List.length series) - 1).
      { intros k Hk. unfold indices in Hk. apply in_app_or in Hk as [Hk|[<-|[]]];
          [|lia].
        apply in_map_iff in Hk as (i & <- & Hi). apply py_range_In in Hi.
        apply linspace_sample_index; lia. }
      rewrite (map_result_pure _ (fun k => nth (Z.to_nat k) series 0))
        by (intros k Hk; apply Hidx, Hall, Hk).
      eexists. split; [reflexivity|].
      assert (Hlen' : List.length indices = Z.to_nat max_width).
      { unfold indices. rewrite length_app, length_map, py_range_length.
        cbn [List.length]. lia. }
      split; [rewrite length_map, Hlen'; lia|split; [|split; [|lia]]].
      * intros Hnil. apply (f_equal (@List.length Z)) in Hnil.
        rewrite length_map, Hlen' in Hnil. cbn in Hnil. lia.
      * intros v Hv. apply in_map_iff in Hv as (k & <- & Hk).
        apply Hidx, Hall, Hk.
  - exists series. split; [reflexivity|split; [lia|split; [exact Hne|auto]]].
Qed.

(** ** The downsampler: rescaling *)

Lemma rescale_spec (data : list Z) (max_height : Z) :
  data <> [] -> Forall (fun v => 0 <= v) data -> 0 <= max_height <= 2 ^ 53 ->
  exists m out,
    py_max data = Ok m /\ rescale data max_height = Ok out /\
    Forall2
      (fun v o =>
         (exists q p : pyfloat,
            int_true_div v (or_one m) = Ok q /\
            float_mul_int q max_height = Ok p /\ o = f64_trunc p) /\
         0 <= o <= max_height /\
         (0 < m -> v = m -> o = max_height) /\
         (m = 0 -> o = 0) /\
         (or_one m * max_height < 2 ^ 51 ->
          exact_scale (or_one m) max_height v - 1 <= o
          <= exact_scale (or_one m) max_height v))
      data out.
Proof.
  intros Hne Hnonneg Hh.
  destruct (py_max_spec data Hne) as (m & Hmax & Hin & Hle).
  rewrite Forall_forall in Hnonneg, Hle.
  assert (Hm0 : 0 <= m) by (apply Hnonneg, Hin).
  assert (HM : 0 < or_one m /\ m <= or_one m /\ (0 < m -> or_one m = m)).
  { unfold or_one. destruct (Z.eqb_spec m 0); lia. }
  exists m. unfold rescale. rewrite Hmax. cbn [bind].
  match goal with
  | |- exists out, _ /\ _ /\ Forall2 ?P _ _ =>
      destruct (map_result_Forall2 (scale_count (or_one m) max_height) P data)
        as (out & Hout & Hall);
      [|exists out; split; [reflexivity|split; assumption]]
  end.
  intros v Hv.
  assert (Hv0 : 0 <= v <= or_one m).
  { split; [now apply Hnonneg|]. specialize (Hle v Hv). cbn in Hle. lia. }
  destruct (scale_count_ok (or_one m) max_height v Hv0 (proj1 HM) Hh)
    as (q & p & Hq & Hp & Hrun & Hrange & Hfull & Hzero).
  exists (f64_trunc p). split; [exact Hrun|].
  split; [exists q, p; auto|]. split; [exact Hrange|]. split; [|split].
  - intros Hmpos ->. apply Hfull. symmetry. now apply HM.
  - intros ->. apply Hzero. specialize (Hle v Hv). cbn in Hle. lia.
  - intros Hsmall.
    apply (scale_count_near_exact (or_one m) max_height v); auto; lia.
Qed.

(** ** The claims on the downsampler *)

(** C4, as the code has it: for a series longer than a width of at least
    two, [linspace] selects exactly [max_width] indices, the first 0, the
    last [len - 1], all within the series; every other index is the integer
    part (rounded down, not to the nearest) of the sample [i * step]
    computed in binary64, which is the exact [floor (i * (len - 1) /
    (max_width - 1))] or one less; [data] takes one value per index, so it
    has [max_width] values.  For the width one the single index is 0. *)
Theorem select_data_linspace (series : list Z) (max_width : Z) :
  max_width < Z.of_nat (List.length series) ->
  1 <= max_width ->
  Z.of_nat (List.length series) * max_width < 2 ^ 51 ->
  exists indices,
    np_linspace_int (Z.of_nat (List.length series) - 1) max_width = Ok indices /\
    select_data series max_width
      = Ok (map (fun k => nth (Z.to_nat k) series 0) indices) /\
    List.length indices = Z.to_nat max_width /\
    nth 0 indices 0 = 0 /\
    Forall (fun k => 0 <= k <= Z.of_nat (List.length series) - 1) indices /\
    (max_width = 1 -> indices = [0]) /\
    (2 <= max_width ->
     last indices 0 = Z.of_nat (List.length series) - 1 /\
     forall i, 0 <= i < max_width - 1 ->
       nth (Z.to_nat i) indices 0
         = f64_trunc (linspace_sample (Z.of_nat (List.length series) - 1) max_width i) /\
       exact_index (Z.of_nat (List.length series) - 1) max_width i - 1
         <= nth (Z.to_nat i) indices 0
         <= exact_index (Z.of_nat (List.length series) - 1) max_width i).
Proof.
  intros Hlt Hw Hsmall.
  set (len := Z.of_nat (List.length series)) in *.
  assert (Hlen : len <= 2 ^ 53) by nia.
  assert (Hidx : forall k, 0 <= k <= len - 1 ->
                   py_index series k = Ok (nth (Z.to_nat k) series 0)).
  { intros k Hk. apply py_index_ok. fold len. lia. }
  unfold select_data. fold len.
  replace (max_width <? len) with true by (symmetry; apply Z.ltb_lt; lia).
  destruct (Z.eq_dec max_width 1) as [->|Hw1].
  - exists [0]. rewrite np_linspace_int_one by lia. cbn [bind map_result map].
    rewrite (Hidx 0) by lia. cbn [bind].
    repeat split; try reflexivity; try lia.
    repeat constructor; lia.
  - set (f := fun i => f64_trunc (linspace_sample (len - 1) max_width i)).
    assert (Hf : forall i, 0 <= i < max_width - 1 ->
                   0 <= f i <= len - 1 /\
                   exact_index (len - 1) max_width i - 1 <= f i
                   <= exact_index (len - 1) max_width i).
    { intros i Hi. split.
      - apply linspace_sample_index; lia.
      - apply linspace_sample_near_exact; try lia; nia. }
    assert (Hf0 : f 0 = 0).
    { destruct (Hf 0 ltac:(lia)) as [H1 H2]. unfold exact_index in H2.
      cbn in H2. lia. }
    exists (map f (py_range (max_width - 1)) ++ [len - 1])%list.
    assert (Hall : forall k, In k (map f (py_range (max_width - 1)) ++ [len - 1])%list ->
                     0 <= k <= len - 1).
    { intros k Hk. apply in_app_or in Hk as [Hk|[<-|[]]]; [|lia].
      apply in_map_iff in Hk as (i & <- & Hi). apply py_range_In in Hi.
      now apply Hf. }
    assert (Hnth : forall i, 0 <= i < max_width - 1 ->
                     nth (Z.to_nat i)
                       (map f (py_range (max_width - 1)) ++ [len - 1])%list 0 = f i).
    { intros i Hi.
      rewrite app_nth1 by (rewrite length_map, py_range_length; lia).
      rewrite <- Hf0 at 1. rewrite map_nth, py_range_nth by lia. reflexivity. }
    rewrite np_linspace_int_samples by lia. fold f. cbn [bind].
    rewrite (map_result_pure _ (fun k => nth (Z.to_nat k) series 0))
      by (intros k Hk; apply Hidx, Hall, Hk).
    split; [reflexivity|split; [reflexivity|split; [|split; [|split; [|split]]]]].
    + rewrite length_app, length_map, py_range_length. cbn [List.length]. lia.
    + pose proof (Hnth 0 ltac:(lia)) as Hn0. cbn [Z.to_nat] in Hn0.
      rewrite Hn0. exact Hf0.
    + apply Forall_forall. exact Hall.
    + intros ->. lia.
    + intros _. split; [apply last_last|].
      intros i Hi. rewrite (Hnth i Hi). split; [reflexivity|now apply Hf].
Qed.

Lemma select_data_linspace_witness :
  4 < Z.of_nat (List.length [10; 20; 30; 40; 50]) /\
  1 <= 4 /\
  Z.of_nat (List.length [10; 20; 30; 40; 50]) * 4 < 2 ^ 51 /\
  exists indices,
    np_linspace_int (Z.of_nat (List.length [10; 20; 30; 40; 50]) - 1) 4 = Ok indices /\
    List.length indices = Z.to_nat 4.
Proof.
  assert (H1 : 4 < Z.of_nat (List.length [10; 20; 30; 40; 50])) by (cbn; lia).
  assert (H2 : 1 <= 4) by lia.
  assert (H3 : Z.of_nat (List.length [10; 20; 30; 40; 50]) * 4 < 2 ^ 51)
    by (cbn; lia).
  split; [exact H1|split; [exact H2|split; [exact H3|]]].
  destruct (select_data_linspace [10; 20; 30; 40; 50] 4 H1 H2 H3)
    as (indices & Hrun & _ & Hlen & _).
  exists indices. split; assumption.
Defined.

(** C4, as stated, fails.  The indices are rounded down, not to the nearest
    integer: for five values and width four the third index is 2, from
    2.67, where rounding to the nearest gives 3.  With width one the last
    index is not selected.  And the rounding down applies to the double:
    for 123 values and width 15 the eighth index is 60, the double of
    [7 * (122 / 14)] being just below 61. *)
Lemma linspace_rounds_down :
  np_linspace_int 4 4 = Ok [0; 1; 2; 4] /\
  spec_nearest_indices 4 4 = [0; 1; 3; 4] /\
  select_data [10; 20; 30; 40; 50] 4 = Ok [10; 20; 30; 50] /\
  select_data [10; 20; 30; 40; 50] 1 = Ok [10] /\
  np_linspace_int 122 15
    = Ok [0; 8; 17; 26; 34; 43; 52; 60; 69; 78; 87; 95; 104; 113; 122] /\
  exact_index 122 15 7 = 61.
Proof.
  repeat split; vm_compute; reflexivity.
Qed.

(** C5, as the code has it: for a non-empty series of non-negative counts,
    a width of at least one and a height from 0 to [2^53], the downsampler
    returns a sequence of [min(len(series), max_width)] values; when the
    series is not longer than the width, the selection is the series. *)
Theorem downsample_to_width_length (series : list Z) (max_height max_width : Z) :
  series <> [] ->
  Forall (fun v => 0 <= v) series ->
  1 <= max_width ->
  0 <= max_height <= 2 ^ 53 ->
  Z.of_nat (List.length series) <= 2 ^ 53 ->
  exists out,
    downsample_to_width series max_height max_width = Ok out /\
    Z.of_nat (List.length out) = Z.min (Z.of_nat (List.length series)) max_width /\
    (Z.of_nat (List.length series) <= max_width ->
     select_data series max_width = Ok series).
Proof.
  intros Hne Hnonneg Hw Hh Hlen.
  destruct (select_data_ok series max_width Hne Hw Hlen)
    as (data & Hsel & Hdlen & Hdne & Hsub & Hsame).
  assert (Hdnonneg : Forall (fun v => 0 <= v) data).
  { rewrite Forall_forall in *. intros v Hv. apply Hnonneg, Hsub, Hv. }
  destruct (rescale_spec data max_height Hdne Hdnonneg Hh)
    as (m & out & _ & Hres & Hall).
  exists out. unfold downsample_to_width. rewrite Hsel. cbn [bind].
  split; [exact Hres|split].
  - rewrite <- (Forall2_length Hall). exact Hdlen.
  - intros Hle. now rewrite <- (Hsame Hle).
Qed.

Lemma downsample_to_width_length_witness :
  [1; 2; 3; 4; 5] <> [] /\
  Forall (fun v => 0 <= v) [1; 2; 3; 4; 5] /\
  1 <= 4 /\ 0 <= 10 <= 2 ^ 53 /\
  Z.of_nat (List.length [1; 2; 3; 4; 5]) <= 2 ^ 53 /\
  exists out,
    downsample_to_width [1; 2; 3; 4; 5] 10 4 = Ok out /\
    Z.of_nat (List.length out) = Z.min (Z.of_nat (List.length [1; 2; 3; 4; 5])) 4.
Proof.
  assert (H1 : [1; 2; 3; 4; 5] <> []) by discriminate.
  assert (H2 : Forall (fun v => 0 <= v) [1; 2; 3; 4; 5])
    by (repeat constructor; lia).
  assert (H3 : 1 <= 4) by lia.
  assert (H4 : 0 <= 10 <= 2 ^ 53) by lia.
  assert (H5 : Z.of_nat (List.length [1; 2; 3; 4; 5]) <= 2 ^ 53) by (cbn; lia).
  split; [exact H1|split; [exact H2|split; [exact H3|split; [exact H4|
    split; [exact H5|]]]]].
  destruct (downsample_to_width_length [1; 2; 3; 4; 5] 10 4 H1 H2 H3 H4 H5)
    as (out & Hrun & Hlen & _).
  exists out. split; assumption.
Defined.

(** C5, as stated, fails: the empty series raises; a width of 0 leaves no
    value to take the maximum of; a negative width is refused by
    [linspace]; a height that is no double, and a quotient that is none,
    raise too. *)
Lemma downsample_to_width_raises :
  downsample_to_width [] 10 80 = Raise (ValueError "max") /\
  downsample_to_width [1; 2; 3] 10 0 = Raise (ValueError "max") /\
  downsample_to_width [1; 2; 3] 10 (-1) = Raise (ValueError "linspace") /\
  downsample_to_width [1] (2 ^ 1024) 80 = Raise OverflowError /\
  downsample_to_width [- 2 ^ 1024; -1] 10 80 = Raise OverflowError.
Proof.
  repeat split; vm_compute; reflexivity.
Qed.

(** C6, as the code has it: for a non-empty selection of non-negative
    counts with maximum [m] (1 in its place when it is 0) and a height from
    0 to [2^53], every output value is the integer part of the double
    [(value / m) * max_height], lies between 0 and [max_height], is
    [max_height] where the value is a positive maximum, and 0 everywhere
    when the maximum is 0; it is the exact [floor (value * max_height / m)]
    or one less as long as [m * max_height] is below [2^51]. *)
Theorem rescale_values (data : list Z) (max_height : Z) :
  data <> [] ->
  Forall (fun v => 0 <= v) data ->
  0 <= max_height <= 2 ^ 53 ->
  exists m out,
    py_max data = Ok m /\ rescale data max_height = Ok out /\
    List.length out = List.length data /\
    Forall2
      (fun v o =>
         (exists q p : pyfloat,
            int_true_div v (or_one m) = Ok q /\
            float_mul_int q max_height = Ok p /\ o = f64_trunc p) /\
         0 <= o <= max_height /\
         (0 < m -> v = m -> o = max_height) /\
         (m = 0 -> o = 0) /\
         (or_one m * max_height < 2 ^ 51 ->
          exact_scale (or_one m) max_height v - 1 <= o
          <= exact_scale (or_one m) max_height v))
      data out.
Proof.
  intros Hne Hnonneg Hh.
  destruct (rescale_spec data max_height Hne Hnonneg Hh)
    as (m & out & Hmax & Hres & Hall).
  exists m, out. split; [exact Hmax|split; [exact Hres|split; [|exact Hall]]].
  symmetry. exact (Forall2_length Hall).
Qed.

Lemma rescale_values_witness :
  [15; 22] <> [] /\
  Forall (fun v => 0 <= v) [15; 22] /\
  0 <= 22 <= 2 ^ 53 /\
  exists m out,
    py_max [15; 22] = Ok m /\ rescale [15; 22] 22 = Ok out /\
    List.length out = List.length [15; 22].
Proof.
  assert (H1 : [15; 22] <> []) by discriminate.
  assert (H2 : Forall (fun v => 0 <= v) [15; 22]) by (repeat constructor; lia).
  assert (H3 : 0 <= 22 <= 2 ^ 53) by lia.
  split; [exact H1|split; [exact H2|split; [exact H3|]]].
  destruct (rescale_values [15; 22] 22 H1 H2 H3) as (m & out & Hm & Hr & Hl & _).
  exists m, out. repeat split; assumption.
Defined.

(** C6, as stated, fails.  When every count is 0 the maximum is at every
    position and the outputs are 0, not [max_height].  The output is the
    integer part of a double, which can be below the exact quotient: 15 of
    22 at height 22 gives 14.  A negative count is rounded towards zero,
    not down, and can leave the range, as can a negative height. *)
Lemma rescale_not_exact_floor :
  rescale [0; 0] 10 = Ok [0; 0] /\
  rescale [15; 22] 22 = Ok [14; 22] /\
  exact_scale 22 22 15 = 15 /\
  rescale [2; -1] 1 = Ok [1; 0] /\
  exact_scale 2 1 (-1) = -1 /\
  rescale [-1; -2] 10 = Ok [10; 20] /\
  rescale [1] (-5) = Ok [-5].
Proof.
  repeat split; vm_compute; reflexivity.
Qed.

(** ** Assignment to a dictionary *)

Lemma dict_get_set_same {V : Type} (d : dict V) (k : string) (v : V) :
  dict_get (dict_set d k v) k = Some v.
Proof.
  induction d as [|[k' v'] d IH]; cbn [dict_set dict_get].
  - now rewrite String.eqb_refl.
  - destruct (String.eqb k' k) eqn:E; cbn [dict_get]; rewrite E; auto.
Qed.

Lemma dict_get_set_other {V : Type} (d : dict V) (k k0 : string) (v : V) :
  k0 <> k -> dict_get (dict_set d k v) k0 = dict_get d k0.
Proof.
  intros Hne. induction d as [|[k' v'] d IH]; cbn [dict_set dict_get].
  - destruct (String.eqb_spec k k0); [congruence|reflexivity].
  - destruct (String.eqb_spec k' k) as [->|Hk]; cbn [dict_get].
    + destruct (String.eqb_spec k k0); [congruence|reflexivity].
    + now rewrite IH.
Qed.

(** The keys after an assignment: unchanged when the key is present, one
    more at the end when it is new. *)
Lemma dict_keys_set {V : Type} (d : dict V) (k : string) (v : V) :
  dict_keys (dict_set d k v) =
  if in_dec string_dec k (dict_keys d) then dict_keys d
  else (dict_keys d ++ [k])%list.
Proof.
  unfold dict_keys.
  induction d as [|[k' v'] d IH]; cbn [dict_set map fst].
  - reflexivity.
  - destruct (String.eqb_spec k' k) as [->|Hk]; cbn [map fst].
    + destruct (in_dec string_dec k (k :: map fst d)) as [_|Hn];
        [reflexivity|]. exfalso. apply Hn. now left.
    + rewrite IH.
      destruct (in_dec string_dec k (map fst d)) as [Hin|Hnin];
        destruct (in_dec string_dec k (k' :: map fst d)) as [Hin'|Hnin'];
        try reflexivity.
      * exfalso. apply Hnin'. now right.
      * destruct Hin' as [->|Hin']; [congruence|contradiction].
Qed.

Lemma dict_set_wf {V : Type} (d : dict V) (k : string) (v : V) :
  dict_wf d -> dict_wf (dict_set d k v).
Proof.
  unfold dict_wf. rewrite dict_keys_set.
  destruct (in_dec string_dec k (dict_keys d)) as [Hin|Hnin]; [auto|].
  intros Hnd. apply NoDup_app; [assumption|repeat constructor; intros []| ].
  intros x Hx [<-|[]]. contradiction.
Qed.

Lemma dict_get_keys {V : Type} (d : dict V) (k : string) :
  dict_get d k = None <-> ~ In k (dict_keys d).
Proof.
  unfold dict_keys. induction d as [|[k' v'] d IH]; cbn [dict_get map fst].
  - split; [intros _ []|reflexivity].
  - destruct (String.eqb_spec k' k) as [->|Hk].
    + split; [discriminate|]. intros Hn. exfalso. apply Hn. now left.
    + rewrite IH. split.
      * intros Hn [->|Hin]; [congruence|contradiction].
      * intros Hn Hin. apply Hn. now right.
Qed.

(** ** The loop of [parse_log_lines] *)

Lemma parse_line_inv (st st' : parsed) (line : string) :
  parsed_inv st -> parse_line st line = Ok st' -> parsed_inv st'.
Proof.
  destruct st as [[starts ends] durations]. unfold parse_line.
  intros (Hs & He & Hd & Hk).
  destruct (re_search executing_re line) as [g|].
  - destruct (strptime (group 0 g)) as [ts|e]; cbn [bind]; [|discriminate].
    intros [= <-]. repeat split; auto using dict_set_wf.
  - destruct (re_search passed_re line) as [g|].
    + destruct (strptime (group 0 g)) as [ts|e]; cbn [bind]; [|discriminate].
      destruct (py_float (group 2 g)) as [dur|e]; cbn [bind]; [|discriminate].
      intros [= <-]. repeat split; auto using dict_set_wf.
      rewrite !dict_keys_set, Hk.
      destruct (in_dec string_dec (group 1 g) (dict_keys durations));
        reflexivity.
    + intros [= <-]. repeat split; auto.
Qed.

Lemma parse_loop_inv (log_lines : list string) (st st' : parsed) :
  parsed_inv st -> parse_loop log_lines st = Ok st' -> parsed_inv st'.
Proof.
  revert st. induction log_lines as [|line rest IH]; intros st Hinv; cbn [parse_loop].
  - now intros [= <-].
  - destruct (parse_line st line) as [st1|e] eqn:E; cbn [bind]; [|discriminate].
    apply IH. eapply parse_line_inv; eauto.
Qed.

Lemma parsed_inv_empty : parsed_inv ([], [], []).
Proof. repeat split; constructor. Qed.

(** X1: the three dictionaries of a parsed log hold every key once, and the
    tests with an end are the tests with a duration, in the same order. *)
Theorem parse_log_lines_keys (log_lines : list string)
    (starts ends : dict datetime) (durations : dict pyfloat) :
  parse_log_lines log_lines = Ok (starts, ends, durations) ->
  dict_wf starts /\ dict_wf ends /\ dict_wf durations /\
  dict_keys ends = dict_keys durations.
Proof.
  intros H. exact (parse_loop_inv log_lines ([], [], []) _ parsed_inv_empty H).
Qed.

(** ** Texts *)

Lemma append_assoc (a b c : string) : (a ++ b) ++ c = a ++ (b ++ c).
Proof. induction a as [|x a IH]; cbn; [reflexivity|now rewrite IH]. Qed.

Lemma append_nil_r (a : string) : a ++ "" = a.
Proof. induction a as [|x a IH]; cbn; [reflexivity|now rewrite IH]. Qed.

Lemma length_append (a b : string) :
  String.length (a ++ b) = (String.length a + String.length b)%nat.
Proof. induction a as [|x a IH]; cbn; [reflexivity|now rewrite IH]. Qed.

Lemma substring_all (a b : string) : substring 0 (String.length a) (a ++ b) = a.
Proof. induction a as [|x a IH]; cbn; [now destruct b|now rewrite IH]. Qed.

Lemma between_app (a b : string) : between (a ++ b) b = a.
Proof.
  unfold between. rewrite length_append.
  replace (String.length a + String.length b - String.length b)%nat
    with (String.length a) by lia.
  apply substring_all.
Qed.

Lemma prefix_app (w s : string) : String.prefix w (w ++ s) = true.
Proof.
  induction w as [|x w IH]; cbn; [now destruct s|].
  destruct (ascii_dec x x); [assumption|congruence].
Qed.

Lemma prefix_inv (w s : string) :
  String.prefix w s = true -> exists s', s = w ++ s'.
Proof.
  revert s. induction w as [|x w IH]; intros s H.
  - exists s. reflexivity.
  - destruct s as [|y s]; cbn in H; [discriminate|].
    destruct (ascii_dec x y) as [->|]; [|discriminate].
    destruct (IH s H) as [s' ->]. now exists s'.
Qed.

Lemma contains_app_r (w a b : string) :
  contains w b = true -> contains w (a ++ b) = true.
Proof.
  intros H. induction a as [|x a IH]; cbn [append]; [assumption|].
  cbn [contains]. rewrite IH. apply orb_true_r.
Qed.

Lemma contains_prefix (w a b : string) :
  String.prefix w a = true -> String.prefix w (a ++ b) = true.
Proof.
  intros H. destruct (prefix_inv w a H) as [s' ->].
  rewrite append_assoc. apply prefix_app.
Qed.

Lemma contains_app_l (w a b : string) :
  contains w a = true -> contains w (a ++ b) = true.
Proof.
  induction a as [|x a IH]; cbn [append contains].
  - rewrite orb_false_r. intros H. destruct w; [|discriminate].
    destruct b; reflexivity.
  - intros H. apply orb_true_iff in H. destruct H as [H|H].
    + apply (contains_prefix w (String x a) b) in H. cbn [append] in H.
      rewrite H. reflexivity.
    + rewrite (IH H). apply orb_true_r.
Qed.

Lemma contains_intro (w a b : string) : contains w (a ++ w ++ b) = true.
Proof.
  apply contains_app_r. destruct (w ++ b) eqn:E; cbn [contains];
    rewrite <- E, prefix_app; reflexivity.
Qed.

(** ** The matcher *)

(** What a repetition passes to the rest of the pattern is a later part of
    the text. *)
Lemma greedy_some (f : ascii -> bool) (k : string -> option (list string))
    (s : string) (r : list string) :
  greedy f k s = Some r -> exists a b, s = a ++ b /\ k b = Some r.
Proof.
  revert r. induction s as [|c s IH]; intros r; cbn [greedy].
  - intros H. now exists "", "".
  - destruct (f c).
    + destruct (greedy f k s) as [r'|] eqn:E.
      * intros [= <-]. destruct (IH r' eq_refl) as (a & b & -> & Hk).
        now exists (String c a), b.
      * intros H. now exists "", (String c s).
    + intros H. now exists "", (String c s).
Qed.

Lemma lazy_some (f : ascii -> bool) (k : string -> option (list string))
    (s : string) (r : list string) :
  lazy f k s = Some r -> exists a b, s = a ++ b /\ k b = Some r.
Proof.
  revert r. induction s as [|c s IH]; intros r; cbn [lazy].
  - destruct (k "") eqn:E; [|discriminate]. intros [= <-]. now exists "", "".
  - destruct (k (String c s)) eqn:E.
    + intros [= <-]. now exists "", (String c s).
    + destruct (f c); [|discriminate]. intros H.
      destruct (IH r H) as (a & b & -> & Hk). now exists (String c a), b.
Qed.

Lemma all_chars_app (f : ascii -> bool) (a b : string) :
  all_chars f (a ++ b) = all_chars f a && all_chars f b.
Proof.
  induction a as [|c a IH]; cbn [append all_chars]; [reflexivity|].
  now rewrite IH, andb_assoc.
Qed.

(** A greedy repetition takes the whole run when the rest of the pattern
    matches after it. *)
Lemma greedy_run (f : ascii -> bool) (k : string -> option (list string))
    (a b : string) (r : list string) :
  all_chars f a = true -> head_is f b = false -> k b = Some r ->
  greedy f k (a ++ b) = Some r.
Proof.
  intros Ha Hb Hk. induction a as [|c a IH]; cbn [append].
  - destruct b as [|c b]; cbn [greedy]; [assumption|].
    cbn [head_is] in Hb. now rewrite Hb.
  - cbn [all_chars] in Ha. apply andb_true_iff in Ha. destruct Ha as [Hc Ha].
    cbn [greedy]. now rewrite Hc, (IH Ha).
Qed.

(** A lazy repetition stops at the first place where the rest of the
    pattern matches. *)
Lemma lazy_skip (f : ascii -> bool) (k : string -> option (list string))
    (a b : string) (r : list string) :
  all_chars f a = true ->
  (forall a1 a2, a = a1 ++ a2 -> a2 <> "" -> k (a2 ++ b) = None) ->
  k b = Some r ->
  lazy f k (a ++ b) = Some r.
Proof.
  intros Ha Hno Hk. induction a as [|c a IH]; cbn [append].
  - destruct b; cbn [lazy]; now rewrite Hk.
  - cbn [all_chars] in Ha. apply andb_true_iff in Ha. destruct Ha as [Hc Ha].
    pose proof (Hno "" (String c a) eq_refl ltac:(discriminate)) as H0.
    cbn [append] in H0. cbn [lazy]. rewrite H0, Hc. apply IH; [assumption|].
    intros a1 a2 -> Hne. apply (Hno (String c a1) a2); [reflexivity|assumption].
Qed.

Lemma match_here_lit (w : string) (p : list atom) (s : string) :
  match_here (lit w ++ p) (w ++ s) = match_here p s.
Proof.
  induction w as [|c w IH]; [reflexivity|].
  unfold lit in *. cbn [list_ascii_of_string map app match_here append].
  now rewrite Ascii.eqb_refl.
Qed.

Lemma match_here_lit_inv (w : string) (p : list atom) (s : string) :
  match_here (lit w ++ p) s <> None -> String.prefix w s = true.
Proof.
  revert s. induction w as [|c w IH]; intros s.
  - intros _. now destruct s.
  - unfold lit in *. cbn [list_ascii_of_string map app match_here].
    destruct s as [|c' s]; [congruence|].
    destruct (Ascii.eqb_spec c c') as [->|]; [|congruence].
    intros H. cbn [String.prefix].
    destruct (ascii_dec c' c'); [now apply IH|congruence].
Qed.

(** A match of a pattern holding the word [w] needs a text holding [w]. *)
Lemma match_here_contains (w : string) (p q : list atom) (s : string) :
  match_here (p ++ lit w ++ q) s <> None -> contains w s = true.
Proof.
  revert s. induction p as [|a p IH]; intros s; cbn [app].
  - intros H. apply match_here_lit_inv in H.
    destruct s; cbn [contains]; now rewrite H.
  - assert (Hstep : forall c s', match_here (p ++ lit w ++ q) s' <> None ->
                      contains w (String c s') = true).
    { intros c s' H. cbn [contains]. rewrite (IH s' H). apply orb_true_r. }
    assert (Hrep : forall s' r, (exists a b, s' = a ++ b /\
                      match_here (p ++ lit w ++ q) b = Some r) ->
                      contains w s' = true).
    { intros s' r (x & y & -> & Hk). apply contains_app_r, IH. congruence. }
    cbn [match_here]. destruct a.
    + destruct s as [|c' s]; [congruence|]. destruct (Ascii.eqb c c'); [|congruence].
      apply Hstep.
    + destruct s as [|c' s]; [congruence|]. destruct (f c'); [|congruence].
      apply Hstep.
    + destruct s as [|c' s]; [congruence|]. destruct (f c'); [|congruence].
      destruct (greedy f _ s) as [r|] eqn:E; [|congruence]. intros _.
      cbn [contains]. rewrite (Hrep s r (greedy_some _ _ _ _ E)).
      apply orb_true_r.
    + destruct (lazy f _ s) as [r|] eqn:E; [|congruence]. intros _.
      apply (Hrep s r (lazy_some _ _ _ _ E)).
    + destruct s as [|c' s]; [congruence|]. destruct (f c'); [|congruence].
      destruct (lazy f _ s) as [r|] eqn:E; [|congruence]. intros _.
      cbn [contains]. rewrite (Hrep s r (lazy_some _ _ _ _ E)).
      apply orb_true_r.
    + destruct (match_here (p ++ lit w ++ q) s) eqn:E; [|congruence].
      intros _. apply IH. congruence.
Qed.

Lemma re_search_contains (w : string) (p q : list atom) (s : string) :
  contains w s = false -> re_search (p ++ lit w ++ q) s = None.
Proof.
  induction s as [|c s IH]; intros H; cbn [re_search].
  - destruct (match_here (p ++ lit w ++ q) "") eqn:E; [|reflexivity].
    rewrite (match_here_contains w p q) in H; congruence.
  - destruct (match_here (p ++ lit w ++ q) (String c s)) eqn:E.
    + rewrite (match_here_contains w p q) in H; congruence.
    + apply IH. cbn [contains] in H. apply orb_false_iff in H. tauto.
Qed.

Lemma re_search_here (p : list atom) (s : string) (r : list string) :
  match_here p s = Some r -> re_search p s = Some r.
Proof. intros H. destruct s; cbn [re_search]; now rewrite H. Qed.

(** ** Digits *)

Lemma is_digit_digit_ascii (n : Z) : is_digit (digit_ascii n) = true.
Proof.
  unfold is_digit, digit_ascii.
  pose proof (Z.mod_pos_bound n 10 ltac:(lia)) as Hn.
  rewrite N_ascii_embedding by lia.
  apply andb_true_iff. split; apply N.leb_le; lia.
Qed.

Lemma all_chars_pad_digits (width : nat) (n : Z) :
  all_chars is_digit (pad_digits width n) = true.
Proof.
  revert n. induction width as [|w IH]; intros n; cbn [pad_digits];
    [reflexivity|].
  rewrite all_chars_app, IH. cbn [all_chars]. now rewrite is_digit_digit_ascii.
Qed.

Lemma length_pad_digits (width : nat) (n : Z) :
  String.length (pad_digits width n) = width.
Proof.
  revert n. induction width as [|w IH]; intros n; cbn [pad_digits];
    [reflexivity|]. rewrite length_append, IH. cbn. lia.
Qed.

Lemma match_digit (p : list atom) (n : Z) (s : string) :
  match_here (Cls is_digit :: p) (String (digit_ascii n) s) = match_here p s.
Proof. cbn [match_here]. now rewrite is_digit_digit_ascii. Qed.

Lemma match_chr (p : list atom) (c : ascii) (s : string) :
  match_here (Chr c :: p) (String c s) = match_here p s.
Proof. cbn [match_here]. now rewrite Ascii.eqb_refl. Qed.

Lemma match_mark (p : list atom) (s : string) :
  match_here (Mark :: p) s =
  match match_here p s with Some r => Some (s :: r) | None => None end.
Proof. reflexivity. Qed.

(** The timestamp of a line that begins with one. *)
Lemma timestamp_match (p : list atom) (year month day hour minute second : Z)
    (k : nat) (fraction : Z) (rest : string) (r : list string) :
  (1 <= k)%nat -> head_is is_digit rest = false ->
  match_here p rest = Some r ->
  match_here (timestamp_re ++ p)
    (timestamp_text year month day hour minute second k fraction ++ rest) =
  Some ((timestamp_text year month day hour minute second k fraction ++ rest)
          :: rest :: r).
Proof.
  intros Hk Hrest Hp.
  unfold timestamp_re, digits. cbn [repeat app]. rewrite match_mark.
  match goal with
  | |- match ?m with _ => _ end = _ =>
      enough (H : m = Some (rest :: r)) by now rewrite H
  end.
  unfold timestamp_text. cbn [pad_digits append].
  rewrite ?append_assoc. cbn [append].
  repeat first [rewrite match_digit | rewrite match_chr].
  destruct k as [|k]; [lia|]. 
  assert (Hd : exists c s', pad_digits (S k) fraction = String c s' /\
                 is_digit c = true /\ all_chars is_digit s' = true).
  { pose proof (all_chars_pad_digits (S k) fraction) as Hall.
    pose proof (length_pad_digits (S k) fraction) as Hlen.
    destruct (pad_digits (S k) fraction) as [|c s']; [discriminate|].
    cbn [all_chars] in Hall. apply andb_true_iff in Hall.
    exists c, s'. tauto. }
  destruct Hd as (c & s' & -> & Hc & Hs').
  cbn [append match_here]. rewrite Hc.
  apply greedy_run; auto. cbn [match_here]. now rewrite Hp.
Qed.

(** ** The two searches on the lines of a log *)

Lemma contains_suffix_false (w a1 a2 : string) :
  contains w (a1 ++ a2) = false -> contains w a2 = false.
Proof.
  intros H. destruct (contains w a2) eqn:E; [|reflexivity].
  now rewrite (contains_app_r w a1 a2 E) in H.
Qed.

Ltac peel a H :=
  destruct a as [|? a];
  [ try reflexivity; try discriminate
  | cbn [append String.prefix];
    match goal with
    | |- context [ascii_dec ?x ?y] =>
        destruct (ascii_dec x y) as [<-|]; [|reflexivity]
    end ].

(** The word [EXECUTING ] does not begin before its first occurrence. *)
Lemma executing_not_before (a x : string) :
  a <> "" -> contains "EXECUTING " a = false ->
  String.prefix "EXECUTING " (a ++ "EXECUTING " ++ x) = false.
Proof.
  intros Hne Hc.
  destruct a as [|? a]; [congruence|]. cbn [append String.prefix].
  match goal with
  | |- context [ascii_dec ?x ?y] => destruct (ascii_dec x y) as [<-|]; [|reflexivity]
  end.
  do 9 peel a Hc.
  destruct a; cbn in Hc; discriminate.
Qed.

Lemma passed_not_before (a x : string) :
  a <> "" -> contains "PASSED " a = false ->
  String.prefix "PASSED " (a ++ "PASSED " ++ x) = false.
Proof.
  intros Hne Hc.
  destruct a as [|? a]; [congruence|]. cbn [append String.prefix].
  match goal with
  | |- context [ascii_dec ?x ?y] => destruct (ascii_dec x y) as [<-|]; [|reflexivity]
  end.
  do 6 peel a Hc.
  destruct a; cbn in Hc; discriminate.
Qed.

Lemma head_is_app (f : ascii -> bool) (a b : string) :
  head_is f a = false -> head_is f b = false -> head_is f (a ++ b) = false.
Proof. destruct a; cbn; auto. Qed.

(** The search for an [EXECUTING] line on a line that begins with a
    timestamp: the test is the text after the first [EXECUTING ], up to
    the end of the line. *)
Lemma executing_search (year month day hour minute second : Z) (k : nat)
    (fraction : Z) (mid name tail : string) :
  let ts := timestamp_text year month day hour minute second k fraction in
  (1 <= k)%nat ->
  head_is is_digit mid = false -> all_chars dot mid = true ->
  contains "EXECUTING " mid = false ->
  name <> "" -> all_chars dot name = true ->
  head_is dot tail = false ->
  exists g,
    re_search executing_re (ts ++ mid ++ "EXECUTING " ++ name ++ tail) = Some g /\
    group 0 g = ts /\ group 1 g = name.
Proof.
  intros ts Hk Hmd Hmid Hno Hname Hdots Htail.
  exists [ts ++ mid ++ "EXECUTING " ++ name ++ tail;
          mid ++ "EXECUTING " ++ name ++ tail; name ++ tail; tail].
  split.
  - apply re_search_here. unfold executing_re. subst ts.
    apply timestamp_match; [assumption| |].
    + apply head_is_app; [assumption|reflexivity].
    + cbn [app match_here].
      apply lazy_skip; [assumption| |].
      * intros a1 a2 -> Hne.
        destruct (match_here _ (a2 ++ _)) eqn:E; [|reflexivity].
        assert (H : String.prefix "EXECUTING " (a2 ++ "EXECUTING " ++ name ++ tail)
                    = true).
        { apply (match_here_lit_inv "EXECUTING " [Mark; Plus dot; Mark]).
          congruence. }
        rewrite executing_not_before in H; [discriminate|assumption|].
        now apply contains_suffix_false in Hno.
      * rewrite match_here_lit. rewrite match_mark.
        destruct name as [|c name]; [congruence|].
        cbn [all_chars] in Hdots. apply andb_true_iff in Hdots.
        destruct Hdots as [Hc Hdots].
        cbn [append match_here]. rewrite Hc.
        rewrite (greedy_run dot _ name tail [tail]); auto.
  - split.
    + unfold group. cbn [Nat.mul Nat.add nth]. apply between_app.
    + unfold group. cbn [Nat.mul Nat.add nth]. apply between_app.
Qed.

(** After a test name without [ in ], the words [ in <duration>] do not
    begin inside the name. *)
Lemma in_not_before (q : list atom) (a x : string) :
  a <> "" -> contains " in " a = false ->
  match_here (lit " in " ++ Mark :: Plus digit_or_point :: q) (a ++ " in " ++ x)
  = None.
Proof.
  intros Hne Hc. unfold lit. cbn [list_ascii_of_string map app].
  destruct a as [|c1 a]; [congruence|]. cbn [append match_here].
  destruct (Ascii.eqb_spec " " c1) as [<-|]; [|reflexivity].
  destruct a as [|c2 a]; [reflexivity|]. cbn [append].
  destruct (Ascii.eqb_spec "i" c2) as [<-|]; [|reflexivity].
  destruct a as [|c3 a]; [reflexivity|]. cbn [append].
  destruct (Ascii.eqb_spec "n" c3) as [<-|]; [|reflexivity].
  destruct a as [|c4 a]; [reflexivity|]. cbn [append].
  destruct (Ascii.eqb_spec " " c4) as [<-|]; [|reflexivity].
  destruct a; cbn in Hc; discriminate.
Qed.

(** The search for a [PASSED] line on a line that begins with a timestamp:
    the test is the text after the first [PASSED ], up to the first
    [ in <duration> seconds]. *)
Lemma passed_search (year month day hour minute second : Z) (k : nat)
    (fraction : Z) (mid name dur tail : string) :
  let ts := timestamp_text year month day hour minute second k fraction in
  (1 <= k)%nat ->
  head_is is_digit mid = false -> all_chars dot mid = true ->
  contains "PASSED " mid = false ->
  name <> "" -> all_chars dot name = true -> contains " in " name = false ->
  dur <> "" -> all_chars digit_or_point dur = true ->
  exists g,
    re_search passed_re
      (ts ++ mid ++ "PASSED " ++ name ++ " in " ++ dur ++ " seconds" ++ tail)
    = Some g /\
    group 0 g = ts /\ group 1 g = name /\ group 2 g = dur.
Proof.
  intros ts Hk Hmd Hmid Hno Hname Hdots Hin Hdur Hdp.
  exists [ts ++ mid ++ "PASSED " ++ name ++ " in " ++ dur ++ " seconds" ++ tail;
          mid ++ "PASSED " ++ name ++ " in " ++ dur ++ " seconds" ++ tail;
          name ++ " in " ++ dur ++ " seconds" ++ tail;
          " in " ++ dur ++ " seconds" ++ tail;
          dur ++ " seconds" ++ tail;
          " seconds" ++ tail].
  split.
  - apply re_search_here. unfold passed_re. subst ts.
    apply timestamp_match; [assumption| |].
    + apply head_is_app; [assumption|reflexivity].
    + cbn [app match_here].
      apply lazy_skip; [assumption| |].
      * intros a1 a2 -> Hne.
        destruct (match_here _ (a2 ++ _)) eqn:E; [|reflexivity].
        assert (H : String.prefix "PASSED "
                      (a2 ++ "PASSED " ++ name ++ " in " ++ dur ++ " seconds" ++ tail)
                    = true).
        { eapply match_here_lit_inv. rewrite E. discriminate. }
        rewrite passed_not_before in H; [discriminate|assumption|].
        now apply contains_suffix_false in Hno.
      * rewrite match_here_lit. cbn [app]. rewrite match_mark.
        destruct name as [|c name]; [congruence|].
        cbn [all_chars] in Hdots. apply andb_true_iff in Hdots.
        destruct Hdots as [Hc Hdots].
        cbn [append]. cbn [match_here]. rewrite Hc.
        assert (Hk' : match_here
                        (Mark :: lit " in " ++ [Mark; Plus digit_or_point; Mark]
                           ++ lit " seconds")
                        (" in " ++ dur ++ " seconds" ++ tail)
                      = Some [" in " ++ dur ++ " seconds" ++ tail;
                              dur ++ " seconds" ++ tail; " seconds" ++ tail]).
        { rewrite match_mark, match_here_lit. cbn [app]. rewrite match_mark.
          destruct dur as [|d dur]; [congruence|].
          cbn [all_chars] in Hdp. apply andb_true_iff in Hdp.
          destruct Hdp as [Hd Hdp].
          cbn [append]. cbn [match_here]. rewrite Hd.
          rewrite (greedy_run digit_or_point _ dur (" seconds" ++ tail)
                     [" seconds" ++ tail]); auto. }
        erewrite (lazy_skip dot _ name (" in " ++ dur ++ " seconds" ++ tail));
          [reflexivity|exact Hdots| |exact Hk'].
        intros a1 a2 -> Hne.
        rewrite (in_not_before _ a2 (dur ++ " seconds" ++ tail)); auto.
        apply (contains_suffix_false " in " (String c a1) a2). exact Hin.
  - unfold group. cbn [Nat.mul Nat.add nth]. repeat split.
    + apply between_app.
    + apply (between_app name).
    + apply (between_app dur).
Qed.

(** ** Timestamps *)

Lemma digit_ascii_value (n : Z) :
  Z.of_N (N_of_ascii (digit_ascii n)) - 48 = n mod 10.
Proof.
  unfold digit_ascii. pose proof (Z.mod_pos_bound n 10 ltac:(lia)).
  rewrite N_ascii_embedding by lia. lia.
Qed.

Lemma list_ascii_app (a b : string) :
  list_ascii_of_string (a ++ b)
  = (list_ascii_of_string a ++ list_ascii_of_string b)%list.
Proof. induction a as [|c a IH]; cbn; [reflexivity|now rewrite IH]. Qed.

Lemma int_of_digits_snoc (a : string) (c : ascii) :
  int_of_digits (a ++ String c "")
  = 10 * int_of_digits a + (Z.of_N (N_of_ascii c) - 48).
Proof.
  unfold int_of_digits. rewrite list_ascii_app, fold_left_app. reflexivity.
Qed.

(** A number read back from its digits. *)
Lemma int_of_pad_digits (width : nat) (n : Z) :
  0 <= n -> int_of_digits (pad_digits width n) = n mod 10 ^ Z.of_nat width.
Proof.
  revert n. induction width as [|w IH]; intros n Hn.
  - cbn. now rewrite Z.mod_1_r.
  - cbn [pad_digits]. rewrite int_of_digits_snoc, digit_ascii_value.
    rewrite IH by (apply Z.div_pos; lia).
    replace (Z.of_nat (S w)) with (1 + Z.of_nat w) by lia.
    rewrite Z.pow_add_r, Z.pow_1_r by lia.
    rewrite Z.rem_mul_r by lia. lia.
Qed.

Lemma substring_0_all (a : string) : substring 0 (String.length a) a = a.
Proof. induction a as [|c a IH]; cbn; [reflexivity|now rewrite IH]. Qed.

(** [strptime] on the text of a timestamp: its fields when they are a date
    and a time of day with six digits at most after the point, an error
    otherwise. *)
Lemma strptime_text (year month day hour minute second : Z) (k : nat)
    (fraction : Z) :
  0 <= year < 10000 -> 0 <= month < 100 -> 0 <= day < 100 ->
  0 <= hour < 100 -> 0 <= minute < 100 -> 0 <= second < 100 ->
  0 <= fraction < 10 ^ Z.of_nat k ->
  strptime (timestamp_text year month day hour minute second k fraction) =
  if valid_fields year month day hour minute second && Nat.leb k 6
  then Ok (datetime_of year month day hour minute second
             (fraction * 10 ^ (6 - Z.of_nat k)))
  else Raise (ValueError "strptime").
Proof.
  intros Hy Hmo Hd Hh Hmi Hs Hf.
  assert (P4 : forall n, 0 <= n < 10000 ->
                 int_of_digits (pad_digits 4 n) = n).
  { intros n Hn. rewrite int_of_pad_digits by lia. apply Z.mod_small. lia. }
  assert (P2 : forall n, 0 <= n < 100 ->
                 int_of_digits (pad_digits 2 n) = n).
  { intros n Hn. rewrite int_of_pad_digits by lia. apply Z.mod_small. lia. }
  unfold strptime, timestamp_text.
  cbn [pad_digits append] in *. cbn [substring String.length].
  match goal with
  | |- context [substring 0 ?n (pad_digits k fraction)] =>
      replace n with (String.length (pad_digits k fraction)) by (cbn; lia)
  end.
  rewrite substring_0_all.
  rewrite (P4 year Hy), (P2 month Hmo), (P2 day Hd), (P2 hour Hh),
    (P2 minute Hmi), (P2 second Hs).
  rewrite length_pad_digits, int_of_pad_digits by lia.
  rewrite (Z.mod_small fraction) by lia.
  unfold valid_fields. reflexivity.
Qed.

(** ** One line of the log *)

Lemma executing_re_split (w : string) (p q : list atom) (s : string) :
  executing_re = (p ++ lit w ++ q)%list -> contains w s = false ->
  re_search executing_re s = None.
Proof. intros -> H. now apply re_search_contains. Qed.

Lemma passed_re_split (w : string) (p q : list atom) (s : string) :
  passed_re = (p ++ lit w ++ q)%list -> contains w s = false ->
  re_search passed_re s = None.
Proof. intros -> H. now apply re_search_contains. Qed.

Lemma no_event_searches (line : string) :
  no_event line = true ->
  re_search executing_re line = None /\ re_search passed_re line = None.
Proof.
  unfold no_event. intros H. apply orb_true_iff in H. destruct H as [H|H].
  - apply negb_true_iff in H. split.
    + apply (executing_re_split "." (firstn 20 executing_re) (skipn 21 executing_re));
        [reflexivity|assumption].
    + apply (passed_re_split "." (firstn 20 passed_re) (skipn 21 passed_re));
        [reflexivity|assumption].
  - apply andb_true_iff in H. destruct H as [He Hp].
    apply negb_true_iff in He, Hp. split.
    + apply (executing_re_split "EXECUTING " (firstn 24 executing_re)
               (skipn 34 executing_re)); [reflexivity|assumption].
    + apply andb_false_iff in Hp. destruct Hp as [Hp|Hp];
        [apply andb_false_iff in Hp; destruct Hp as [Hp|Hp]|].
      * apply (passed_re_split "PASSED " (firstn 24 passed_re)
                 (skipn 31 passed_re)); [reflexivity|assumption].
      * apply (passed_re_split " in " (firstn 34 passed_re)
                 (skipn 38 passed_re)); [reflexivity|assumption].
      * apply (passed_re_split " seconds" (firstn 41 passed_re)
                 (skipn 49 passed_re)); [reflexivity|assumption].
Qed.

(** The loop body is the reading of the line followed by the assignments. *)
Lemma parse_line_read (starts ends : dict datetime) (durations : dict pyfloat)
    (line : string) :
  parse_line (starts, ends, durations) line =
  ev <- read_line line ;;
  Ok (match ev with
      | Some (Started test ts) => (dict_set starts test ts, ends, durations)
      | Some (Passed test ts dur) =>
          (starts, dict_set ends test ts, dict_set durations test dur)
      | None => (starts, ends, durations)
      end).
Proof.
  unfold parse_line, read_line.
  destruct (re_search executing_re line) as [g|].
  - now destruct (strptime (group 0 g)).
  - destruct (re_search passed_re line) as [g|]; [|reflexivity].
    destruct (strptime (group 0 g)); [|reflexivity]. cbn [bind].
    now destruct (py_float (group 2 g)).
Qed.

Lemma parse_loop_app (l1 l2 : list string) (st : parsed) :
  parse_loop (l1 ++ l2) st = st1 <- parse_loop l1 st ;; parse_loop l2 st1.
Proof.
  revert st. induction l1 as [|line l1 IH]; intros st; cbn [app parse_loop bind];
    [reflexivity|].
  destruct (parse_line st line); cbn [bind]; [apply IH|reflexivity].
Qed.

Lemma parse_line_keeps (st st' : parsed) (line test : string) :
  parse_line st line = Ok st' ->
  (is_started test (read_line line) = false ->
   dict_get (starts_of st') test = dict_get (starts_of st) test) /\
  (is_passed test (read_line line) = false ->
   dict_get (ends_of st') test = dict_get (ends_of st) test /\
   dict_get (durations_of st') test = dict_get (durations_of st) test).
Proof.
  destruct st as [[starts ends] durations]. rewrite parse_line_read.
  destruct (read_line line) as [[[test' ts|test' ts dur]|]|e]; cbn [bind];
    try discriminate; intros [= <-]; cbn [starts_of ends_of durations_of fst snd];
    cbn [is_started is_passed]; split; auto; intros Hne;
    apply String.eqb_neq in Hne; rewrite ?dict_get_set_other by congruence; auto.
Qed.

Lemma parse_loop_keeps (lines : list string) (st st' : parsed) (test : string) :
  parse_loop lines st = Ok st' ->
  (forallb (fun l => negb (is_started test (read_line l))) lines = true ->
   dict_get (starts_of st') test = dict_get (starts_of st) test) /\
  (forallb (fun l => negb (is_passed test (read_line l))) lines = true ->
   dict_get (ends_of st') test = dict_get (ends_of st) test /\
   dict_get (durations_of st') test = dict_get (durations_of st) test).
Proof.
  revert st. induction lines as [|line rest IH]; intros st; cbn [parse_loop forallb].
  - intros [= <-]. auto.
  - destruct (parse_line st line) as [st1|e] eqn:E; cbn [bind]; [|discriminate].
    intros H. destruct (IH st1 H) as [IHs IHp].
    destruct (parse_line_keeps st st1 line test E) as [Ks Kp].
    split; intros Hall; apply andb_true_iff in Hall; destruct Hall as [H1 H2];
      apply negb_true_iff in H1.
    + rewrite (IHs H2). auto.
    + destruct (IHp H2) as [-> ->]. auto.
Qed.

Lemma parse_line_sets (st st' : parsed) (line : string) :
  parse_line st line = Ok st' ->
  (forall test ts, read_line line = Ok (Some (Started test ts)) ->
     dict_get (starts_of st') test = Some ts) /\
  (forall test ts dur, read_line line = Ok (Some (Passed test ts dur)) ->
     dict_get (ends_of st') test = Some ts /\
     dict_get (durations_of st') test = Some dur).
Proof.
  destruct st as [[starts ends] durations]. rewrite parse_line_read.
  destruct (read_line line) as [[[test' ts'|test' ts' dur']|]|e]; cbn [bind];
    try discriminate; intros [= <-]; cbn [starts_of ends_of durations_of fst snd];
    split; intros; try discriminate.
  - match goal with H : Ok _ = Ok _ |- _ => injection H as <- <- end.
    apply dict_get_set_same.
  - match goal with H : Ok _ = Ok _ |- _ => injection H as <- <- <- end.
    split; apply dict_get_set_same.
Qed.

(** Entries come from lines only. *)
Lemma parse_loop_from_lines (lines : list string) (st st' : parsed) (test : string) :
  parse_loop lines st = Ok st' ->
  (dict_get (starts_of st') test <> dict_get (starts_of st) test ->
   existsb (fun l => is_started test (read_line l)) lines = true) /\
  (dict_get (ends_of st') test <> dict_get (ends_of st) test \/
   dict_get (durations_of st') test <> dict_get (durations_of st) test ->
   existsb (fun l => is_passed test (read_line l)) lines = true).
Proof.
  intros H.
  destruct (parse_loop_keeps lines st st' test H) as [Ks Kp].
  split.
  - intros Hne.
    destruct (existsb (fun l => is_started test (read_line l)) lines) eqn:E;
      [reflexivity|]. exfalso. apply Hne, Ks.
    apply forallb_forall. intros l Hl. apply negb_true_iff.
    destruct (is_started test (read_line l)) eqn:E'; [|reflexivity].
    assert (existsb (fun l => is_started test (read_line l)) lines = true)
      by (apply existsb_exists; eauto). congruence.
  - intros Hne.
    destruct (existsb (fun l => is_passed test (read_line l)) lines) eqn:E;
      [reflexivity|]. exfalso.
    assert (Hall : forallb (fun l => negb (is_passed test (read_line l))) lines = true).
    { apply forallb_forall. intros l Hl. apply negb_true_iff.
      destruct (is_passed test (read_line l)) eqn:E'; [|reflexivity].
      assert (existsb (fun l => is_passed test (read_line l)) lines = true)
        by (apply existsb_exists; eauto). congruence. }
    destruct (Kp Hall) as [K1 K2]. destruct Hne; congruence.
Qed.

(** X2: the entry of a test is that of its last line: of its last [EXECUTING]
    line in [starts], of its last [PASSED] line in [ends] and [durations];
    and a test has an entry only when a line of the log gives it. *)
Theorem parse_log_lines_last_line (l1 l2 : list string) (line : string)
    (starts ends : dict datetime) (durations : dict pyfloat) :
  parse_log_lines (l1 ++ line :: l2) = Ok (starts, ends, durations) ->
  (forall test ts,
     read_line line = Ok (Some (Started test ts)) ->
     forallb (fun l => negb (is_started test (read_line l))) l2 = true ->
     dict_get starts test = Some ts) /\
  (forall test ts dur,
     read_line line = Ok (Some (Passed test ts dur)) ->
     forallb (fun l => negb (is_passed test (read_line l))) l2 = true ->
     dict_get ends test = Some ts /\ dict_get durations test = Some dur) /\
  (forall test,
     dict_get starts test <> None ->
     existsb (fun l => is_started test (read_line l)) (l1 ++ line :: l2) = true) /\
  (forall test,
     dict_get ends test <> None \/ dict_get durations test <> None ->
     existsb (fun l => is_passed test (read_line l)) (l1 ++ line :: l2) = true).
Proof.
  unfold parse_log_lines. rewrite parse_loop_app. cbn [parse_loop].
  destruct (parse_loop l1 ([], [], [])) as [st1|e] eqn:E1; cbn [bind];
    [|discriminate].
  destruct (parse_line st1 line) as [st2|e] eqn:E2; cbn [bind]; [|discriminate].
  intros E3.
  destruct (parse_line_sets st1 st2 line E2) as [Ss Sp].
  split; [|split; [|split]].
  - intros test ts Hr Hall.
    destruct (parse_loop_keeps l2 st2 _ test E3) as [Ks _].
    rewrite <- (Ss test ts Hr). exact (Ks Hall).
  - intros test ts dur Hr Hall.
    destruct (parse_loop_keeps l2 st2 _ test E3) as [_ Kp].
    destruct (Kp Hall) as [K1 K2]. destruct (Sp test ts dur Hr) as [S1 S2].
    cbn [ends_of durations_of fst snd] in K1, K2. split; congruence.
  - intros test Hne.
    assert (Hall : parse_loop (l1 ++ line :: l2) ([], [], [])
                   = Ok (starts, ends, durations)).
    { rewrite parse_loop_app, E1. cbn [bind parse_loop]. now rewrite E2. }
    apply (parse_loop_from_lines _ _ _ test Hall). exact Hne.
  - intros test Hne.
    assert (Hall : parse_loop (l1 ++ line :: l2) ([], [], [])
                   = Ok (starts, ends, durations)).
    { rewrite parse_loop_app, E1. cbn [bind parse_loop]. now rewrite E2. }
    apply (parse_loop_from_lines _ _ _ test Hall). exact Hne.
Qed.

(** X3: a line that begins with a timestamp and then says [EXECUTING]: the test
    is the text after the first [EXECUTING ] up to the end of the line, and
    gets the instant of the timestamp as its start; the line raises
    [ValueError] when the timestamp is no date with a time of day, or has
    more than six digits after the point. *)
Theorem parse_executing_line (starts ends : dict datetime) (durations : dict pyfloat)
    (year month day hour minute second : Z) (k : nat) (fraction : Z)
    (mid name tail : string) :
  0 <= year < 10000 -> 0 <= month < 100 -> 0 <= day < 100 ->
  0 <= hour < 100 -> 0 <= minute < 100 -> 0 <= second < 100 ->
  (1 <= k)%nat -> 0 <= fraction < 10 ^ Z.of_nat k ->
  head_is is_digit mid = false -> all_chars dot mid = true ->
  contains "EXECUTING " mid = false ->
  name <> "" -> all_chars dot name = true ->
  head_is dot tail = false ->
  parse_line (starts, ends, durations)
    (timestamp_text year month day hour minute second k fraction
       ++ mid ++ "EXECUTING " ++ name ++ tail) =
  if valid_fields year month day hour minute second && Nat.leb k 6
  then Ok (dict_set starts name
             (datetime_of year month day hour minute second
                (fraction * 10 ^ (6 - Z.of_nat k))),
           ends, durations)
  else Raise (ValueError "strptime").
Proof.
  intros Hy Hmo Hd Hh Hmi Hs Hk Hf Hmd Hmid Hno Hname Hdots Htail.
  destruct (executing_search year month day hour minute second k fraction
              mid name tail Hk Hmd Hmid Hno Hname Hdots Htail)
    as (g & Hg & G0 & G1).
  unfold parse_line. rewrite Hg, G0, G1.
  rewrite strptime_text by assumption.
  now destruct (valid_fields year month day hour minute second && Nat.leb k 6).
Qed.

(** X4: a line that begins with a timestamp, does not say [EXECUTING] and says
    [PASSED <test> in <duration> seconds]: the test is the text after the
    first [PASSED ] up to the first [ in ], and gets the instant of the
    timestamp as its end and the number as its duration; the line raises
    [ValueError] when the timestamp is refused or the duration is no
    number. *)
Theorem parse_passed_line (starts ends : dict datetime) (durations : dict pyfloat)
    (year month day hour minute second : Z) (k : nat) (fraction : Z)
    (mid name dur tail : string) :
  let line :=
    timestamp_text year month day hour minute second k fraction
      ++ mid ++ "PASSED " ++ name ++ " in " ++ dur ++ " seconds" ++ tail in
  0 <= year < 10000 -> 0 <= month < 100 -> 0 <= day < 100 ->
  0 <= hour < 100 -> 0 <= minute < 100 -> 0 <= second < 100 ->
  (1 <= k)%nat -> 0 <= fraction < 10 ^ Z.of_nat k ->
  contains "EXECUTING " line = false ->
  head_is is_digit mid = false -> all_chars dot mid = true ->
  contains "PASSED " mid = false ->
  name <> "" -> all_chars dot name = true -> contains " in " name = false ->
  dur <> "" -> all_chars digit_or_point dur = true ->
  parse_line (starts, ends, durations) line =
  if valid_fields year month day hour minute second && Nat.leb k 6
  then
    d <- py_float dur ;;
    Ok (starts,
        dict_set ends name
          (datetime_of year month day hour minute second
             (fraction * 10 ^ (6 - Z.of_nat k))),
        dict_set durations name d)
  else Raise (ValueError "strptime").
Proof.
  intros line Hy Hmo Hd Hh Hmi Hs Hk Hf Hex Hmd Hmid Hno Hname Hdots Hin Hdur Hdp.
  destruct (passed_search year month day hour minute second k fraction
              mid name dur tail Hk Hmd Hmid Hno Hname Hdots Hin Hdur Hdp)
    as (g & Hg & G0 & G1 & G2).
  unfold parse_line. fold line in Hg.
  rewrite (executing_re_split "EXECUTING " (firstn 24 executing_re)
             (skipn 34 executing_re) line eq_refl Hex).
  rewrite Hg, G0, G1, G2.
  rewrite strptime_text by assumption.
  now destruct (valid_fields year month day hour minute second && Nat.leb k 6).
Qed.

(** X5: a line without a point, or without [EXECUTING ] and without one of
    [PASSED ], [ in ] and [ seconds], changes nothing: the log without it
    parses to the same dictionaries. *)
Theorem parse_log_lines_ignores (l1 l2 : list string) (line : string) :
  no_event line = true ->
  parse_log_lines (l1 ++ line :: l2) = parse_log_lines (l1 ++ l2).
Proof.
  intros H. destruct (no_event_searches line H) as [He Hp].
  unfold parse_log_lines. rewrite !parse_loop_app.
  destruct (parse_loop l1 ([], [], [])) as [[[s e] d]|]; cbn [bind parse_loop];
    [|reflexivity].
  unfold parse_line. now rewrite He, Hp.
Qed.

(** ** Durations *)

Lemma round_result_nonneg (m e : Z) :
  0 <= m -> nonneg_number (round_result false m e) = true.
Proof.
  intros Hm. unfold round_result. destruct m as [|p|p]; [reflexivity| |lia].
  destruct (Z.pos p =? 2 ^ 53); [destruct (e + 1 <=? 971)|destruct (e <=? 971)];
    reflexivity.
Qed.

Lemma nearest_double_nonneg (n d : Z) :
  0 <= n -> 0 < d -> nonneg_number (nearest_double n d) = true.
Proof.
  intros Hn Hd. unfold nearest_double.
  destruct (Z.eqb_spec n 0) as [->|Hne]; [reflexivity|].
  destruct (SFdiv_core_located n 0 d 0 ltac:(lia) Hd) as (q & e & l & -> & Hq & Hloc & Hal).
  destruct (binary_round_aux_spec false q e l _ Hq Hloc Hal) as (m & e' & -> & Hm & _).
  apply round_result_nonneg. lia.
Qed.

Lemma int_of_digits_nonneg (l : list ascii) :
  Forall (fun c => is_digit c = true) l ->
  0 <= int_of_digits (string_of_list_ascii l).
Proof.
  unfold int_of_digits. rewrite list_ascii_of_string_of_list_ascii.
  assert (H : forall acc, 0 <= acc ->
            Forall (fun c => is_digit c = true) l ->
            0 <= fold_left (fun acc c => 10 * acc + (Z.of_N (N_of_ascii c) - 48)) l acc).
  { induction l as [|c l IH]; intros acc Hacc Hall; cbn [fold_left]; [assumption|].
    inversion Hall as [|? ? Hc Hl]; subst. apply IH; [|assumption].
    unfold is_digit in Hc. apply andb_true_iff in Hc. destruct Hc as [Hc _].
    apply N.leb_le in Hc. lia. }
  apply H. lia.
Qed.

(** [float] of a text of digits and points is a number: never a NaN, never
    below zero. *)
Lemma py_float_nonneg (s : string) (x : pyfloat) :
  py_float s = Ok x -> nonneg_number x = true.
Proof.
  unfold py_float.
  destruct (_ && _); [|discriminate]. intros [= <-].
  apply nearest_double_nonneg.
  - apply int_of_digits_nonneg. unfold without_points.
    apply Forall_forall. intros c Hc. apply filter_In in Hc. tauto.
  - apply Z.pow_pos_nonneg; lia.
Qed.

Lemma dict_set_Forall {V : Type} (P : V -> Prop) (d : dict V) (k : string) (v : V) :
  Forall (fun item => P (snd item)) d -> P v ->
  Forall (fun item => P (snd item)) (dict_set d k v).
Proof.
  intros Hd Hv. induction d as [|[k' v'] d IH]; cbn [dict_set].
  - now repeat constructor.
  - inversion Hd as [|? ? H1 H2]; subst.
    destruct (String.eqb k' k); constructor; auto.
Qed.

Lemma parse_loop_durations (lines : list string) (st st' : parsed) :
  Forall (fun item => nonneg_number (snd item) = true) (durations_of st) ->
  parse_loop lines st = Ok st' ->
  Forall (fun item => nonneg_number (snd item) = true) (durations_of st').
Proof.
  revert st. induction lines as [|line rest IH]; intros st Hst; cbn [parse_loop].
  - now intros [= <-].
  - destruct (parse_line st line) as [st1|e] eqn:E; cbn [bind]; [|discriminate].
    apply IH. destruct st as [[starts ends] durations].
    unfold parse_line in E.
    destruct (re_search executing_re line) as [g|].
    + destruct (strptime (group 0 g)); cbn [bind] in E; [|discriminate].
      injection E as <-. exact Hst.
    + destruct (re_search passed_re line) as [g|].
      * destruct (strptime (group 0 g)); cbn [bind] in E; [|discriminate].
        destruct (py_float (group 2 g)) as [dur|] eqn:F; cbn [bind] in E;
          [|discriminate].
        injection E as <-. cbn [durations_of snd] in *.
        apply (dict_set_Forall (fun v => nonneg_number v = true)); [assumption|].
        eapply py_float_nonneg; eauto.
      * injection E as <-. exact Hst.
Qed.

(** X6: every duration of a parsed log is a number and is not below zero; so
    the ranking of [main] never meets a NaN. *)
Theorem parse_log_lines_durations (log_lines : list string)
    (starts ends : dict datetime) (durations : dict pyfloat) :
  parse_log_lines log_lines = Ok (starts, ends, durations) ->
  Forall (fun item => is_number (snd item) /\ float_ge (snd item) f64_zero)
    durations.
Proof.
  intros H.
  apply (parse_loop_durations log_lines ([], [], [])) in H; [|constructor].
  cbn [durations_of snd] in H. revert H. apply Forall_impl.
  intros [k x] Hx. cbn [snd] in *. unfold is_number, float_ge.
  destruct x as [[|]|[|]| |[|] m e]; try discriminate; split;
    try discriminate; reflexivity.
Qed.

(** ** What a match says of the text *)

Lemma cls_inv (f : ascii -> bool) (p : list atom) (s : string) (r : list string) :
  match_here (Cls f :: p) s = Some r ->
  exists c s', s = String c s' /\ f c = true /\ match_here p s' = Some r.
Proof.
  cbn [match_here]. destruct s as [|c s]; [discriminate|].
  destruct (f c) eqn:E; [|discriminate]. intros H. now exists c, s.
Qed.

Lemma chr_inv (c : ascii) (p : list atom) (s : string) (r : list string) :
  match_here (Chr c :: p) s = Some r ->
  exists s', s = String c s' /\ match_here p s' = Some r.
Proof.
  cbn [match_here]. destruct s as [|c' s]; [discriminate|].
  destruct (Ascii.eqb_spec c c') as [<-|]; [|discriminate]. intros H. now exists s.
Qed.

Lemma greedy_inv (f : ascii -> bool) (k : string -> option (list string))
    (s : string) (r : list string) :
  greedy f k s = Some r ->
  exists a b, s = a ++ b /\ all_chars f a = true /\ k b = Some r.
Proof.
  revert r. induction s as [|c s IH]; intros r; cbn [greedy].
  - intros H. now exists "", "".
  - destruct (f c) eqn:Hc.
    + destruct (greedy f k s) as [r'|] eqn:E.
      * intros [= <-]. destruct (IH r' eq_refl) as (a & b & -> & Ha & Hk).
        exists (String c a), b. cbn [all_chars]. now rewrite Hc, Ha.
      * intros H. now exists "", (String c s).
    + intros H. now exists "", (String c s).
Qed.

Lemma plus_inv (f : ascii -> bool) (p : list atom) (s : string) (r : list string) :
  match_here (Plus f :: p) s = Some r ->
  exists a b, s = a ++ b /\ a <> "" /\ all_chars f a = true /\
              match_here p b = Some r.
Proof.
  cbn [match_here]. destruct s as [|c s]; [discriminate|].
  destruct (f c) eqn:Hc; [|discriminate]. intros H.
  destruct (greedy_inv _ _ _ _ H) as (a & b & -> & Ha & Hk).
  exists (String c a), b. cbn [all_chars]. rewrite Hc, Ha.
  repeat split; auto. discriminate.
Qed.

Lemma mark_inv (p : list atom) (s : string) (r : list string) :
  match_here (Mark :: p) s = Some r ->
  exists r', r = s :: r' /\ match_here p s = Some r'.
Proof.
  rewrite match_mark. destruct (match_here p s) as [r'|]; [|discriminate].
  intros [= <-]. now exists r'.
Qed.

Lemma re_search_inv (p : list atom) (s : string) (r : list string) :
  re_search p s = Some r ->
  exists pre s', s = pre ++ s' /\ match_here p s' = Some r.
Proof.
  induction s as [|c s IH]; cbn [re_search].
  - destruct (match_here p "") eqn:E; [|discriminate]. intros [= <-].
    now exists "", "".
  - destruct (match_here p (String c s)) eqn:E.
    + intros [= <-]. now exists "", (String c s).
    + intros H. destruct (IH H) as (pre & s' & -> & Hm).
      now exists (String c pre), s'.
Qed.

(** ** Texts of digits *)

Lemma string_snoc (s : string) :
  s <> "" -> exists a c, s = a ++ String c "".
Proof.
  induction s as [|x s IH]; [congruence|]. intros _.
  destruct s as [|y s].
  - now exists "", x.
  - destruct IH as (a & c & E); [discriminate|]. rewrite E.
    now exists (String x a), c.
Qed.

Lemma digit_ascii_of (c : ascii) (n : Z) :
  is_digit c = true -> 0 <= n ->
  digit_ascii (10 * n + (Z.of_N (N_of_ascii c) - 48)) = c.
Proof.
  unfold is_digit. intros H Hn. apply andb_true_iff in H. destruct H as [H1 H2].
  apply N.leb_le in H1, H2. unfold digit_ascii.
  replace ((10 * n + (Z.of_N (N_of_ascii c) - 48)) mod 10)
    with (Z.of_N (N_of_ascii c) - 48).
  - replace (Z.to_N (48 + (Z.of_N (N_of_ascii c) - 48))) with (N_of_ascii c) by lia.
    apply ascii_N_embedding.
  - rewrite Z.add_comm, Z.mul_comm, Z.mod_add by lia.
    symmetry. apply Z.mod_small. lia.
Qed.

(** A text of digits is the number it denotes, written with as many
    digits. *)
Lemma digits_pad (n : nat) (s : string) :
  String.length s = n -> all_chars is_digit s = true ->
  s = pad_digits n (int_of_digits s) /\
  0 <= int_of_digits s < 10 ^ Z.of_nat n.
Proof.
  revert s. induction n as [|n IH]; intros s Hlen Hall.
  - destruct s; [|discriminate]. cbn. split; [reflexivity|lia].
  - destruct (string_snoc s) as (a & c & ->); [now destruct s|].
    rewrite length_append in Hlen. cbn [String.length] in Hlen.
    rewrite all_chars_app in Hall. apply andb_true_iff in Hall.
    destruct Hall as [Ha Hc]. cbn [all_chars] in Hc. rewrite andb_true_r in Hc.
    destruct (IH a ltac:(lia) Ha) as [Ea Hr].
    rewrite int_of_digits_snoc. cbn [pad_digits].
    assert (Hv : 0 <= Z.of_N (N_of_ascii c) - 48 <= 9).
    { unfold is_digit in Hc. apply andb_true_iff in Hc. destruct Hc as [H1 H2].
      apply N.leb_le in H1, H2. lia. }
    split.
    + rewrite digit_ascii_of by (assumption || lia).
      replace ((10 * int_of_digits a + (Z.of_N (N_of_ascii c) - 48)) / 10)
        with (int_of_digits a).
      * now rewrite <- Ea.
      * rewrite Z.add_comm, Z.mul_comm, Z.div_add by lia.
        rewrite Z.div_small by lia. reflexivity.
    + replace (Z.of_nat (S n)) with (1 + Z.of_nat n) by lia.
      rewrite Z.pow_add_r, Z.pow_1_r by lia. lia.
Qed.

(** The text a search captures as [timestamp] is a timestamp: digits in
    their places, one at least after the point. *)
Lemma timestamp_inv (p : list atom) (s : string) (r : list string) :
  match_here (timestamp_re ++ p) s = Some r ->
  exists year month day hour minute second k fraction rest r',
    s = timestamp_text year month day hour minute second k fraction ++ rest /\
    r = s :: rest :: r' /\ match_here p rest = Some r' /\
    0 <= year < 10000 /\ 0 <= month < 100 /\ 0 <= day < 100 /\
    0 <= hour < 100 /\ 0 <= minute < 100 /\ 0 <= second < 100 /\
    (1 <= k)%nat /\ 0 <= fraction < 10 ^ Z.of_nat k.
Proof.
  unfold timestamp_re, digits. cbn [repeat app]. intros H.
  apply mark_inv in H. destruct H as (r0 & -> & H).
  apply cls_inv in H. destruct H as (y1 & s1 & -> & Hy1 & H).
  apply cls_inv in H. destruct H as (y2 & s2 & -> & Hy2 & H).
  apply cls_inv in H. destruct H as (y3 & s3 & -> & Hy3 & H).
  apply cls_inv in H. destruct H as (y4 & s4 & -> & Hy4 & H).
  apply chr_inv in H. destruct H as (s5 & -> & H).
  apply cls_inv in H. destruct H as (m1 & s6 & -> & Hm1 & H).
  apply cls_inv in H. destruct H as (m2 & s7 & -> & Hm2 & H).
  apply chr_inv in H. destruct H as (s8 & -> & H).
  apply cls_inv in H. destruct H as (d1 & s9 & -> & Hd1 & H).
  apply cls_inv in H. destruct H as (d2 & s10 & -> & Hd2 & H).
  apply chr_inv in H. destruct H as (s11 & -> & H).
  apply cls_inv in H. destruct H as (h1 & s12 & -> & Hh1 & H).
  apply cls_inv in H. destruct H as (h2 & s13 & -> & Hh2 & H).
  apply chr_inv in H. destruct H as (s14 & -> & H).
  apply cls_inv in H. destruct H as (i1 & s15 & -> & Hi1 & H).
  apply cls_inv in H. destruct H as (i2 & s16 & -> & Hi2 & H).
  apply chr_inv in H. destruct H as (s17 & -> & H).
  apply cls_inv in H. destruct H as (e1 & s18 & -> & He1 & H).
  apply cls_inv in H. destruct H as (e2 & s19 & -> & He2 & H).
  apply chr_inv in H. destruct H as (s20 & -> & H).
  apply plus_inv in H. destruct H as (a & b & -> & Hne & Ha & H).
  apply mark_inv in H. destruct H as (r' & -> & H).
  destruct (digits_pad 4 (String y1 (String y2 (String y3 (String y4 ""))))
              eq_refl) as [Ey Ry]; [cbn [all_chars]; now rewrite Hy1, Hy2, Hy3, Hy4|].
  destruct (digits_pad 2 (String m1 (String m2 "")) eq_refl) as [Em Rm];
    [cbn [all_chars]; now rewrite Hm1, Hm2|].
  destruct (digits_pad 2 (String d1 (String d2 "")) eq_refl) as [Ed Rd];
    [cbn [all_chars]; now rewrite Hd1, Hd2|].
  destruct (digits_pad 2 (String h1 (String h2 "")) eq_refl) as [Eh Rh];
    [cbn [all_chars]; now rewrite Hh1, Hh2|].
  destruct (digits_pad 2 (String i1 (String i2 "")) eq_refl) as [Ei Ri];
    [cbn [all_chars]; now rewrite Hi1, Hi2|].
  destruct (digits_pad 2 (String e1 (String e2 "")) eq_refl) as [Ee Re];
    [cbn [all_chars]; now rewrite He1, He2|].
  destruct (digits_pad (String.length a) a eq_refl Ha) as [Ea Ra].
  exists (int_of_digits (String y1 (String y2 (String y3 (String y4 ""))))),
    (int_of_digits (String m1 (String m2 ""))),
    (int_of_digits (String d1 (String d2 ""))),
    (int_of_digits (String h1 (String h2 ""))),
    (int_of_digits (String i1 (String i2 ""))),
    (int_of_digits (String e1 (String e2 ""))),
    (String.length a), (int_of_digits a), b, r'.
  assert (Hk : (1 <= String.length a)%nat) by (destruct a; [congruence|cbn; lia]).
  split; [|repeat split; auto; lia].
  unfold timestamp_text. rewrite <- Ey, <- Em, <- Ed, <- Eh, <- Ei, <- Ee, <- Ea.
  cbn [append]. reflexivity.
Qed.

(** ** The range of the instants *)

Lemma leap_count_bounds (y : Z) :
  0 <= y <= 9999 -> 0 <= y / 4 - y / 100 + y / 400 <= 2424.
Proof.
  intros H.
  assert (H1 : y / 100 = y / 4 / 25) by (rewrite Z.div_div by lia; reflexivity).
  assert (H2 : y / 400 = y / 100 / 4) by (rewrite Z.div_div by lia; reflexivity).
  rewrite H2, H1. Z.div_mod_to_equations. lia.
Qed.

Lemma days_before_year_bounds (year : Z) :
  1 <= year <= 10000 -> 0 <= days_before_year year <= 3652059.
Proof.
  intros H. unfold days_before_year. cbv zeta.
  pose proof (leap_count_bounds (year - 1) ltac:(lia)). lia.
Qed.

Lemma div_pred (y d : Z) :
  0 < d -> y / d = (y - 1) / d + (if y mod d =? 0 then 1 else 0).
Proof.
  intros Hd. pose proof (Z.div_mod y d ltac:(lia)) as E.
  pose proof (Z.mod_pos_bound y d Hd) as Hr.
  destruct (Z.eqb_spec (y mod d) 0) as [H0|H0].
  - assert ((y - 1) / d = y / d - 1); [|lia].
    symmetry. apply (Z.div_unique _ _ _ (d - 1)); lia.
  - assert ((y - 1) / d = y / d); [|lia].
    symmetry. apply (Z.div_unique _ _ _ (y mod d - 1)); lia.
Qed.

Lemma days_before_year_succ (year : Z) :
  days_before_year (year + 1) =
  days_before_year year + 365 + (if is_leap year then 1 else 0).
Proof.
  unfold days_before_year, is_leap. cbv zeta.
  replace (year + 1 - 1) with year by lia.
  rewrite (div_pred year 4), (div_pred year 100), (div_pred year 400) by lia.
  assert (H1 : year mod 400 = 0 -> year mod 100 = 0).
  { intros H. apply Z.mod_divide in H; [|lia]. destruct H as [q ->].
    replace (q * 400) with (q * 4 * 100) by lia. apply Z.mod_mul. lia. }
  assert (H2 : year mod 100 = 0 -> year mod 4 = 0).
  { intros H. apply Z.mod_divide in H; [|lia]. destruct H as [q ->].
    replace (q * 100) with (q * 25 * 4) by lia. apply Z.mod_mul. lia. }
  destruct (Z.eqb_spec (year mod 4) 0) as [H4|H4];
    destruct (Z.eqb_spec (year mod 100) 0) as [H100|H100];
    destruct (Z.eqb_spec (year mod 400) 0) as [H400|H400];
    cbn [negb andb orb]; try lia; tauto.
Qed.

Lemma day_of_year_bounds (year month day : Z) :
  1 <= month <= 12 -> 1 <= day <= days_in_month year month ->
  1 <= days_before_month year month + day
  <= 365 + (if is_leap year then 1 else 0).
Proof.
  intros Hm. unfold days_in_month, days_before_month.
  assert (Hc : month = 1 \/ month = 2 \/ month = 3 \/ month = 4 \/ month = 5
               \/ month = 6 \/ month = 7 \/ month = 8 \/ month = 9
               \/ month = 10 \/ month = 11 \/ month = 12) by lia.
  destruct (is_leap year);
    repeat (destruct Hc as [->|Hc]; [|]); subst;
    cbv [nth Z.to_nat Pos.to_nat Pos.iter_op Nat.add Z.eqb Z.ltb Pos.eqb
         Z.compare Pos.compare Pos.compare_cont andb]; lia.
Qed.

Lemma datetime_of_range (year month day hour minute second microsecond : Z) :
  valid_fields year month day hour minute second = true ->
  year < 10000 -> 0 <= hour -> 0 <= minute -> 0 <= second ->
  0 <= microsecond < 1000000 ->
  in_datetime_range (datetime_of year month day hour minute second microsecond).
Proof.
  unfold valid_fields. intros Hv Hy Hh Hmi Hs Hus.
  repeat (apply andb_true_iff in Hv; destruct Hv as [Hv ?]).
  repeat match goal with
         | H : (_ <=? _) = true |- _ => apply Z.leb_le in H
         end.
  pose proof (day_of_year_bounds year month day ltac:(lia) ltac:(lia)) as Hd.
  pose proof (days_before_year_succ year) as Hsucc.
  pose proof (days_before_year_bounds year ltac:(lia)) as Hb.
  pose proof (days_before_year_bounds (year + 1) ltac:(lia)) as Hb1.
  unfold in_datetime_range, datetime_min, datetime_max.
  change (datetime_of 1 1 1 0 0 0 0) with 86400000000.
  change (datetime_of 9999 12 31 23 59 59 999999) with 315537983999999999.
  unfold datetime_of, ymd2ord. lia.
Qed.

Lemma strptime_group (p : list atom) (line : string) (g : list string)
    (t : datetime) :
  re_search (timestamp_re ++ p) line = Some g ->
  strptime (group 0 g) = Ok t -> in_datetime_range t.
Proof.
  intros Hs Ht.
  destruct (re_search_inv _ _ _ Hs) as (pre & s' & _ & Hm).
  destruct (timestamp_inv _ _ _ Hm)
    as (year & month & day & hour & minute & second & k & fraction & rest & r'
        & -> & -> & _ & Hy & Hmo & Hd & Hh & Hmi & Hse & Hk & Hf).
  unfold group in Ht. cbn [Nat.mul Nat.add nth] in Ht.
  rewrite between_app, strptime_text in Ht by assumption.
  destruct (valid_fields year month day hour minute second) eqn:Hv;
    [|discriminate].
  destruct (Nat.leb_spec k 6) as [Hk6|]; [|discriminate].
  cbn [andb] in Ht. injection Ht as <-.
  apply datetime_of_range; try assumption; try lia.
  split; [apply Z.mul_nonneg_nonneg; [lia|apply Z.pow_nonneg; lia]|].
  replace 1000000 with (10 ^ Z.of_nat k * 10 ^ (6 - Z.of_nat k)).
  - apply Z.mul_lt_mono_pos_r; [apply Z.pow_pos_nonneg; lia|lia].
  - rewrite <- Z.pow_add_r by lia. now replace (Z.of_nat k + (6 - Z.of_nat k)) with 6 by lia.
Qed.

Lemma parse_loop_range (lines : list string) (st st' : parsed) :
  times_in_range (starts_of st) -> times_in_range (ends_of st) ->
  parse_loop lines st = Ok st' ->
  times_in_range (starts_of st') /\ times_in_range (ends_of st').
Proof.
  revert st. induction lines as [|line rest IH]; intros st Hs He; cbn [parse_loop].
  - now intros [= <-].
  - destruct (parse_line st line) as [st1|e] eqn:E; cbn [bind]; [|discriminate].
    destruct st as [[starts ends] durations].
    unfold parse_line in E. cbn [starts_of ends_of fst snd] in *.
    destruct (re_search executing_re line) as [g|] eqn:Sg.
    + destruct (strptime (group 0 g)) as [t|] eqn:T; cbn [bind] in E;
        [|discriminate].
      injection E as <-. apply IH; cbn [starts_of ends_of fst snd]; auto.
      apply (dict_set_Forall in_datetime_range); auto.
      eapply strptime_group; eauto.
    + destruct (re_search passed_re line) as [g|] eqn:Pg.
      * destruct (strptime (group 0 g)) as [t|] eqn:T; cbn [bind] in E;
          [|discriminate].
        destruct (py_float (group 2 g)) as [dur|]; cbn [bind] in E;
          [|discriminate].
        injection E as <-. apply IH; cbn [starts_of ends_of fst snd]; auto.
        apply (dict_set_Forall in_datetime_range); auto.
        eapply strptime_group; eauto.
      * injection E as <-. apply IH; auto.
Qed.

(** X7: every start and every end of a parsed log is an instant of the
    calendar, from the first day of the year 1 to the last of 9999. *)
Theorem parse_log_lines_range (log_lines : list string)
    (starts ends : dict datetime) (durations : dict pyfloat) :
  parse_log_lines log_lines = Ok (starts, ends, durations) ->
  Forall (fun item => in_datetime_range (snd item)) starts /\
  Forall (fun item => in_datetime_range (snd item)) ends.
Proof.
  intros H.
  apply (parse_loop_range log_lines ([], [], [])) in H; [exact H| |]; constructor.
Qed.

(** ** Stripping *)

(** [rstrip] removes a tail of white space and nothing else. *)
Lemma py_rstrip_split (t : text) :
  exists w, t = (py_rstrip t ++ w)%list /\ forallb py_isspace w = true.
Proof.
  induction t as [|c t IH]; [now exists []|].
  destruct IH as (w & E & Hw). unfold py_rstrip in *. cbn [fold_right].
  set (k := fold_right _ [] t) in *.
  destruct k as [|c' k'] eqn:Ek.
  - destruct (py_isspace c) eqn:Hc.
    + exists (c :: t). split; [reflexivity|]. cbn [forallb]. rewrite Hc.
      rewrite E. exact Hw.
    + exists w. split; [|exact Hw]. cbn [app]. now rewrite E at 1.
  - exists w. split; [|exact Hw]. cbn [app]. now rewrite E at 1.
Qed.

Lemma py_rstrip_length (t : text) :
  (List.length (py_rstrip t) <= List.length t)%nat.
Proof.
  destruct (py_rstrip_split t) as (w & E & _).
  rewrite E at 2. rewrite length_app. lia.
Qed.

(** A character that is no white space stands in the stripped text where it
    stands in the text. *)
Lemma py_rstrip_nth (t : text) (j : nat) (c : N) :
  py_isspace c = false ->
  (nth_error (py_rstrip t) j = Some c <-> nth_error t j = Some c).
Proof.
  intros Hc. destruct (py_rstrip_split t) as (w & E & Hw).
  rewrite E at 2. split.
  - intros H. rewrite nth_error_app1; [assumption|].
    apply nth_error_Some. congruence.
  - intros H.
    destruct (Nat.lt_ge_cases j (List.length (py_rstrip t))) as [Hlt|Hge].
    + now rewrite nth_error_app1 in H.
    + rewrite nth_error_app2 in H by assumption.
      apply nth_error_In in H. rewrite forallb_forall in Hw.
      rewrite (Hw c H) in Hc. discriminate.
Qed.

Lemma py_rstrip_spaces (t : text) :
  forallb py_isspace t = true -> py_rstrip t = [].
Proof.
  induction t as [|c t IH]; [reflexivity|]. cbn [forallb]. intros H.
  apply andb_true_iff in H. destruct H as [Hc Ht].
  unfold py_rstrip in *. cbn [fold_right]. rewrite (IH Ht), Hc. reflexivity.
Qed.

(** ** The chart *)

Lemma levels_length (max_height : Z) :
  List.length (levels max_height) = Z.to_nat max_height.
Proof. unfold levels. now rewrite length_map, py_range_length. Qed.

Lemma levels_nth (max_height : Z) (i : nat) :
  (i < Z.to_nat max_height)%nat ->
  nth_error (levels max_height) i = Some (max_height - Z.of_nat i).
Proof.
  intros Hi. unfold levels, py_range. rewrite !map_map.
  rewrite nth_error_map, nth_error_seq.
  destruct (Nat.ltb_spec i (Z.to_nat max_height)) as [_|]; [|lia].
  reflexivity.
Qed.

Lemma chart_line_single (b : N) (scaled : list Z) (level : Z) :
  chart_line [b] scaled level =
  py_rstrip (map (fun height => if level <=? height then b else space) scaled).
Proof.
  unfold chart_line. f_equal.
  induction scaled as [|v scaled IH]; cbn [map List.concat]; [reflexivity|].
  rewrite IH. now destruct (level <=? v).
Qed.

(** The cells of one line, for a block of one character that is no white
    space: the block stands in column [j] exactly when the height of the
    column reaches the level. *)
Lemma chart_line_cell (b : N) (scaled : list Z) (level : Z) (j : nat) :
  py_isspace b = false ->
  (nth_error (chart_line [b] scaled level) j = Some b <->
   exists v, nth_error scaled j = Some v /\ level <= v).
Proof.
  intros Hb. rewrite chart_line_single, (py_rstrip_nth _ j b Hb).
  rewrite nth_error_map.
  destruct (nth_error scaled j) as [v|]; cbn [option_map].
  - destruct (Z.leb_spec level v) as [Hle|Hgt].
    + split; [intros _; now exists v|reflexivity].
    + split.
      * intros [= E]. rewrite <- E in Hb. discriminate.
      * intros (v' & [= <-] & Hle). lia.
  - split; [discriminate|]. intros (v & [=] & _).
Qed.

Lemma chart_line_length (block : text) (scaled : list Z) (level : Z) :
  (List.length (chart_line block scaled level)
   <= List.length scaled * Nat.max 1 (List.length block))%nat.
Proof.
  unfold chart_line. etransitivity; [apply py_rstrip_length|].
  induction scaled as [|v scaled IH]; cbn [map List.concat List.length];
    [lia|].
  rewrite length_app.
  assert (H : (List.length (if Z.leb level v then block else [space])
               <= Nat.max 1 (List.length block))%nat).
  { destruct (Z.leb level v); cbn [List.length]; lia. }
  rewrite Nat.mul_succ_l, Nat.add_comm. now apply Nat.add_le_mono.
Qed.

Lemma Forall2_nth_error_l {A B : Type} (P : A -> B -> Prop) (l : list A)
    (l' : list B) (j : nat) (a : A) :
  Forall2 P l l' -> nth_error l j = Some a ->
  exists b, nth_error l' j = Some b /\ P a b.
Proof.
  intros H. revert j. induction H as [|x y l l' Hxy H IH]; intros j.
  - now destruct j.
  - destruct j as [|j]; cbn [nth_error].
    + intros [= <-]. now exists y.
    + apply IH.
Qed.

Lemma draw_nonempty (series : list Z) (max_height max_width : Z) (block : text) :
  series <> [] ->
  draw_ascii_chart_horizontal series max_height max_width block =
  scaled <- downsample_to_width series max_height max_width ;;
  Ok (map (chart_line block scaled) (levels max_height)).
Proof. destruct series; [congruence|reflexivity]. Qed.

(** The cells of the lines of a chart. *)
Lemma chart_cells (b : N) (scaled : list Z) (max_height : Z) (i j : nat) :
  py_isspace b = false -> (i < Z.to_nat max_height)%nat ->
  (nth_error (nth i (map (chart_line [b] scaled) (levels max_height)) []) j
     = Some b <->
   exists v, nth_error scaled j = Some v /\ max_height - Z.of_nat i <= v).
Proof.
  intros Hb Hi.
  rewrite (nth_error_nth _ i [] (x := chart_line [b] scaled
                                       (max_height - Z.of_nat i))).
  - now apply chart_line_cell.
  - rewrite nth_error_map, levels_nth by assumption. reflexivity.
Qed.

(** X8: the chart of a series that the downsampler accepts, drawn with a block
    of one character that is no white space: [max_height] lines, the
    highest level first; on the line of a level a column holds the block
    exactly when its scaled height reaches the level, so a column that is
    filled on a line is filled on every line below it. *)
Theorem draw_ascii_chart_cells (series : list Z) (max_height max_width : Z)
    (b : N) (scaled : list Z) :
  series <> [] -> py_isspace b = false ->
  downsample_to_width series max_height max_width = Ok scaled ->
  exists lines,
    draw_ascii_chart_horizontal series max_height max_width [b] = Ok lines /\
    List.length lines = Z.to_nat max_height /\
    (forall i j, (i < Z.to_nat max_height)%nat ->
       (nth_error (nth i lines []) j = Some b <->
        exists v, nth_error scaled j = Some v /\ max_height - Z.of_nat i <= v)) /\
    (forall i i' j, (i <= i' < Z.to_nat max_height)%nat ->
       nth_error (nth i lines []) j = Some b ->
       nth_error (nth i' lines []) j = Some b).
Proof.
  intros Hne Hb Hd.
  exists (map (chart_line [b] scaled) (levels max_height)).
  rewrite draw_nonempty, Hd by assumption. cbn [bind].
  split; [reflexivity|]. split; [now rewrite length_map, levels_length|].
  split; [intros i j Hi; now apply chart_cells|].
  intros i i' j Hi H. apply chart_cells; [assumption|lia|].
  apply chart_cells in H; [|assumption|lia]. destruct H as (v & Hv & Hle).
  exists v. split; [assumption|lia].
Qed.

(** The downsampler on the counts of a chart. *)
Lemma downsample_ok (series : list Z) (max_height max_width : Z) :
  series <> [] -> Forall (fun v => 0 <= v) series ->
  1 <= max_width -> 0 <= max_height <= 2 ^ 53 ->
  Z.of_nat (List.length series) <= 2 ^ 53 ->
  exists data m scaled,
    select_data series max_width = Ok data /\ py_max data = Ok m /\
    downsample_to_width series max_height max_width = Ok scaled /\
    Z.of_nat (List.length scaled)
      = Z.min (Z.of_nat (List.length series)) max_width /\
    Forall2 (fun v o => (0 < m -> v = m -> o = max_height) /\ (m = 0 -> o = 0))
      data scaled.
Proof.
  intros Hne Hnn Hw Hh Hlen.
  destruct (select_data_ok series max_width Hne Hw Hlen)
    as (data & Hsel & Hdlen & Hdne & Hin & _).
  assert (Hdnn : Forall (fun v => 0 <= v) data).
  { rewrite Forall_forall in *. auto. }
  destruct (rescale_spec data max_height Hdne Hdnn Hh) as (m & out & Hmax & Hres & Hall).
  exists data, m, out. split; [assumption|]. split; [assumption|].
  split; [unfold downsample_to_width; rewrite Hsel; exact Hres|].
  split; [rewrite <- Hdlen; f_equal; symmetry; apply (Forall2_length Hall)|].
  clear - Hall. induction Hall as [|x y l l' (_ & _ & H1 & H2 & _) H IH];
    constructor; auto.
Qed.

(** X9: the chart of a series of counts: for a series that is not empty, counts
    that are not negative, a width of one at least and a height from 0 to
    2^53 the chart is drawn, with [max_height] lines of which none is longer
    than the columns of the series or the width. *)
Theorem draw_ascii_chart_lines (series : list Z) (max_height max_width : Z)
    (block : text) :
  series <> [] -> Forall (fun v => 0 <= v) series ->
  1 <= max_width -> 0 <= max_height <= 2 ^ 53 ->
  Z.of_nat (List.length series) <= 2 ^ 53 ->
  exists lines,
    draw_ascii_chart_horizontal series max_height max_width block = Ok lines /\
    Z.of_nat (List.length lines) = max_height /\
    Forall (fun line =>
              Z.of_nat (List.length line)
              <= Z.min (Z.of_nat (List.length series)) max_width
                 * Z.max 1 (Z.of_nat (List.length block)))
      lines.
Proof.
  intros Hne Hnn Hw Hh Hlen.
  destruct (downsample_ok series max_height max_width Hne Hnn Hw Hh Hlen)
    as (data & m & out & _ & _ & Hdown & Hout & _).
  exists (map (chart_line block out) (levels max_height)).
  rewrite draw_nonempty, Hdown by assumption. cbn [bind].
  split; [reflexivity|]. split; [rewrite length_map, levels_length; lia|].
  apply Forall_forall. intros line Hline. apply in_map_iff in Hline.
  destruct Hline as (level & <- & _).
  pose proof (chart_line_length block out level) as Hl. rewrite <- Hout. lia.
Qed.

(** X10: the top of the chart, for a block of one character that is no white
    space: when the greatest of the selected counts is positive, the first
    line holds the block in every column of that count; when it is zero,
    every line is empty. *)
Theorem draw_ascii_chart_peak (series data : list Z) (max_height max_width m : Z)
    (b : N) :
  series <> [] -> Forall (fun v => 0 <= v) series ->
  1 <= max_width -> 1 <= max_height <= 2 ^ 53 ->
  Z.of_nat (List.length series) <= 2 ^ 53 ->
  py_isspace b = false ->
  select_data series max_width = Ok data -> py_max data = Ok m ->
  exists lines,
    draw_ascii_chart_horizontal series max_height max_width [b] = Ok lines /\
    (0 < m -> forall j, nth_error data j = Some m ->
       nth_error (nth 0 lines []) j = Some b) /\
    (m = 0 -> Forall (fun line => line = []) lines).
Proof.
  intros Hne Hnn Hw Hh Hlen Hb Hsel Hmax.
  destruct (downsample_ok series max_height max_width Hne Hnn Hw ltac:(lia) Hlen)
    as (data' & m' & out & Hsel' & Hmax' & Hdown & _ & Hall).
  rewrite Hsel in Hsel'. injection Hsel' as <-.
  rewrite Hmax in Hmax'. injection Hmax' as <-.
  exists (map (chart_line [b] out) (levels max_height)).
  rewrite draw_nonempty, Hdown by assumption. cbn [bind].
  split; [reflexivity|]. split.
  - intros Hm j Hj. apply chart_cells; [assumption|lia|].
    destruct (Forall2_nth_error_l _ _ _ _ _ Hall Hj) as (o & Ho & Hfull & _).
    exists o. split; [assumption|]. rewrite (Hfull Hm eq_refl). lia.
  - intros Hm0.
    apply Forall_forall. intros line Hline. apply in_map_iff in Hline.
    destruct Hline as (level & <- & Hlevel).
    unfold levels in Hlevel. apply in_map_iff in Hlevel.
    destruct Hlevel as (i & <- & Hi). apply py_range_In in Hi.
    rewrite chart_line_single. apply py_rstrip_spaces.
    apply forallb_forall. intros c Hc. apply in_map_iff in Hc.
    destruct Hc as (v & <- & Hv).
    assert (Hv0 : v = 0).
    { destruct (In_nth_error _ _ Hv) as [j Hj].
      assert (Hrev : Forall2 (fun o d => m = 0 -> o = 0) out data).
      { clear - Hall. induction Hall as [|x y l l' [_ Hz] H IH];
          constructor; auto. }
      destruct (Forall2_nth_error_l _ _ _ _ _ Hrev Hj) as (d & _ & Hz). auto. }
    subst v. destruct (Z.leb_spec (max_height - i) 0); [lia|reflexivity].
Qed.

(** ** The table *)

Lemma ljust_length (width : nat) (t : text) :
  List.length (ljust width t) = Nat.max width (List.length t).
Proof. unfold ljust. rewrite length_app, repeat_length. lia. Qed.

Lemma rjust_length (width : nat) (t : text) :
  List.length (rjust width t) = Nat.max width (List.length t).
Proof. unfold rjust. rewrite length_app, repeat_length. lia. Qed.

Lemma decimal_digits_from_length (fuel : nat) (n : Z) (acc : text) (k : nat) :
  0 <= n < 10 ^ Z.of_nat k -> (1 <= k)%nat ->
  (List.length (decimal_digits_from fuel n acc) <= List.length acc + k)%nat.
Proof.
  revert n acc k. induction fuel as [|fuel IH]; intros n acc k Hn Hk;
    cbn [decimal_digits_from]; [lia|].
  destruct (Z.ltb_spec n 10) as [Hlt|Hge]; [cbn [List.length]; lia|].
  destruct k as [|[|k]]; [lia|cbn in Hn; lia|].
  etransitivity; [apply (IH _ _ (S k)); [|lia]|cbn [List.length]; lia].
  replace (Z.of_nat (S (S k))) with (1 + Z.of_nat (S k)) in Hn by lia.
  rewrite Z.pow_add_r, Z.pow_1_r in Hn by lia.
  split; [apply Z.div_pos; lia|apply Z.div_lt_upper_bound; lia].
Qed.

Lemma decimal_digits_length (n : Z) (k : nat) :
  0 <= n < 10 ^ Z.of_nat k -> (1 <= k)%nat ->
  (List.length (decimal_digits n) <= k)%nat.
Proof.
  intros Hn Hk. unfold decimal_digits.
  apply (decimal_digits_from_length _ n [] k Hn Hk).
Qed.

Lemma text_of_length (s : string) : List.length (text_of s) = String.length s.
Proof.
  unfold text_of. rewrite length_map.
  induction s as [|c s IH]; cbn; [reflexivity|now rewrite IH].
Qed.

Lemma hundredths_nonneg (x : pyfloat) : 0 <= hundredths x.
Proof.
  destruct x as [s|s| |s m e]; cbn [hundredths]; try lia.
  destruct e as [|p|p].
  - lia.
  - assert (0 < 2 ^ Z.pos p) by (apply Z.pow_pos_nonneg; lia). nia.
  - unfold round_half_even.
    assert (0 < 2 ^ Z.pos p) by (apply Z.pow_pos_nonneg; lia).
    assert (0 <= Z.pos m * 100 / 2 ^ Z.pos p) by (apply Z.div_pos; lia).
    repeat match goal with |- context [if ?c then _ else _] => destruct c end;
      lia.
Qed.

(** A duration that is a number from zero to 999999999.99 prints in twelve
    characters at most. *)
Lemma format_2f_length (x : pyfloat) :
  nonneg_number x = true -> x <> S754_infinity false ->
  0 <= hundredths x < 10 ^ 11 ->
  (List.length (format_2f x) <= 12)%nat.
Proof.
  destruct x as [[|]|[|]| |[|] m e]; try discriminate; intros _ Hinf Hh.
  - cbn. lia.
  - congruence.
  - unfold format_2f. cbn [sign_text app]. rewrite length_app. cbn [List.length].
    pose proof (decimal_digits_length (hundredths (S754_finite false m e) / 100) 9)
      as Hd.
    assert (0 <= hundredths (S754_finite false m e) / 100 < 10 ^ Z.of_nat 9).
    { split; [apply Z.div_pos; lia|apply Z.div_lt_upper_bound; [lia|]].
      change (10 ^ Z.of_nat 9) with 1000000000.
      change (10 ^ 11) with 100000000000 in Hh. lia. }
    specialize (Hd H ltac:(lia)). lia.
Qed.

Lemma printed_rows_firstn (longest : list (string * pyfloat)) (count : Z) :
  0 <= count -> printed_rows longest count = firstn (Z.to_nat count) longest.
Proof.
  intros Hc. unfold printed_rows, py_slice_to.
  destruct (Z.ltb_spec count 0); [lia|reflexivity].
Qed.

Lemma print_longest_tests_length (longest : list (string * pyfloat)) (count : Z) :
  0 <= count ->
  List.length (print_longest_tests longest count)
  = (5 + Nat.min (Z.to_nat count) (List.length longest))%nat.
Proof.
  intros Hc. unfold print_longest_tests. rewrite printed_rows_firstn by assumption.
  rewrite length_app. cbn [List.length].
  rewrite length_app, length_map, length_firstn. cbn [List.length].
  generalize (Nat.min (Z.to_nat count) (List.length longest)). intros n.
  rewrite Nat.add_1_r. reflexivity.
Qed.

Lemma firstn_app_exact {A : Type} (a b : list A) :
  firstn (List.length a) (a ++ b) = a.
Proof. induction a as [|x a IH]; cbn; [reflexivity|now rewrite IH]. Qed.

(** X11: the table: four texts of heading, one row for each of the first [count]
    items in their order, one closing rule.  A row begins with the whole
    name and is as wide as the heading, 48 characters, when the name has 35
    characters at most and the duration prints in 12 at most; what is
    longer is not cut and widens the row. *)
Theorem print_longest_tests_layout (longest : list (string * pyfloat)) (count : Z) :
  0 <= count ->
  let rows := firstn (Z.to_nat count) longest in
  print_longest_tests longest count =
    ([10%N :: text_of "Top Longest Running Tests:"; table_rule; table_head;
      table_rule] ++ map table_row rows ++ [table_rule])%list /\
  List.length (print_longest_tests longest count)
    = (5 + Nat.min (Z.to_nat count) (List.length longest))%nat /\
  List.length table_head = 48%nat /\ List.length table_rule = 50%nat /\
  Forall (fun item =>
            firstn (String.length (fst item)) (table_row item)
              = text_of (fst item) /\
            List.length (table_row item)
              = (Nat.max 35 (String.length (fst item)) + 1
                 + Nat.max 12 (List.length (format_2f (snd item))))%nat /\
            ((String.length (fst item) <= 35)%nat ->
             nonneg_number (snd item) = true ->
             snd item <> S754_infinity false ->
             hundredths (snd item) < 10 ^ 11 ->
             List.length (table_row item) = 48%nat))
    rows.
Proof.
  intros Hc rows.
  split; [unfold print_longest_tests; now rewrite printed_rows_firstn|].
  split; [now apply print_longest_tests_length|].
  split; [reflexivity|split; [reflexivity|]].
  apply Forall_forall. intros [name d] _. cbn [fst snd].
  { assert (Hlen : List.length (table_row (name, d))
                   = (Nat.max 35 (String.length name) + 1
                      + Nat.max 12 (List.length (format_2f d)))%nat).
    { unfold table_row. cbn [fst snd].
      rewrite !length_app, ljust_length, rjust_length, text_of_length.
      cbn [List.length]. lia. }
    split; [|split; [exact Hlen|]].
    + unfold table_row, ljust. cbn [fst snd]. rewrite <- text_of_length.
      rewrite <- !app_assoc. apply firstn_app_exact.
    + intros Hn Hnn Hinf Hh. rewrite Hlen.
      pose proof (hundredths_nonneg d).
      pose proof (format_2f_length d Hnn Hinf ltac:(lia)). lia. }
Qed.

(** ** A duration read and printed *)

Lemma round_half_even_near (a d : Z) :
  0 < d -> - d <= 2 * (round_half_even a d * d - a) <= d.
Proof.
  intros Hd. unfold round_half_even.
  pose proof (Z.div_mod a d ltac:(lia)) as E.
  pose proof (Z.mod_pos_bound a d Hd) as Hr.
  destruct (Z.ltb_spec (2 * (a mod d)) d);
    [|destruct (Z.ltb_spec d (2 * (a mod d))); [|destruct (Z.even (a / d))]];
    nia.
Qed.

Section PrintedDuration.
Local Open Scope R_scope.

Lemma hundredths_near (m : positive) (e : Z) :
  - (1 / 2) <= IZR (hundredths (S754_finite false m e))
                - 100 * SF2R (S754_finite false m e) <= 1 / 2.
Proof.
  cbn [hundredths SF2R cond_Zopp]. destruct e as [|p|p].
  - rewrite bpow_0. rewrite mult_IZR, mult_IZR. cbn [Z.pow].
    replace (IZR (Z.pos m) * 1 * 100 - 100 * (IZR (Z.pos m) * 1)) with 0 by ring.
    lra.
  - rewrite (bpow_IZR (Z.pos p)) by lia. rewrite !mult_IZR.
    replace (IZR (Z.pos m) * IZR (2 ^ Z.pos p) * 100
             - 100 * (IZR (Z.pos m) * IZR (2 ^ Z.pos p))) with 0 by ring.
    lra.
  - assert (Hd : (0 < 2 ^ Z.pos p)%Z) by (apply Z.pow_pos_nonneg; lia).
    pose proof (round_half_even_near (Z.pos m * 100) (2 ^ Z.pos p) Hd) as Hn.
    set (h := round_half_even (Z.pos m * 100) (2 ^ Z.pos p)) in *.
    assert (Hb : bpow (Z.neg p) = / IZR (2 ^ Z.pos p)).
    { change (Z.neg p) with (- Z.pos p)%Z.
      apply Rmult_eq_reg_r with (IZR (2 ^ Z.pos p)).
      - rewrite <- (bpow_IZR (Z.pos p)) by lia. rewrite bpow_opp_l.
        rewrite Rinv_l; [reflexivity|]. pose proof (bpow_pos (Z.pos p)). lra.
      - apply IZR_lt in Hd. lra. }
    rewrite Hb. set (D := IZR (2 ^ Z.pos p)).
    assert (HD : 0 < D) by (apply IZR_lt in Hd; exact Hd).
    destruct Hn as [Hn1 Hn2]. apply IZR_le in Hn1, Hn2.
    rewrite opp_IZR in Hn1. rewrite !mult_IZR, minus_IZR, !mult_IZR in Hn1, Hn2.
    fold D in Hn1, Hn2.
    assert (E : IZR h - 100 * (IZR (Z.pos m) * / D)
                = (IZR h * D - IZR (Z.pos m) * 100) / D) by (field; lra).
    rewrite E. split.
    + apply Rmult_le_reg_r with D; [assumption|].
      unfold Rdiv. rewrite Rmult_assoc, Rinv_l by lra. lra.
    + apply Rmult_le_reg_r with D; [assumption|].
      unfold Rdiv. rewrite Rmult_assoc, Rinv_l by lra. lra.
Qed.

Lemma nearest_double_nearest (N D : Z) (y : R) :
  (0 < N)%Z -> (0 < D)%Z -> in_format y -> IZR N / IZR D <= y ->
  nonneg_valid (nearest_double N D) /\
  nearest_to (SF2R (nearest_double N D)) (IZR N / IZR D).
Proof.
  intros HN HD Hy Hle. unfold nearest_double.
  destruct (Z.eqb_spec N 0) as [->|_]; [lia|].
  destruct (SFdiv_core_located N 0 D 0 HN HD) as (q & e & l & -> & Hq & Hloc & Hal).
  rewrite bpow_0, !Rmult_1_r in Hloc.
  apply (binary_round_aux_nearest q e l _ y); assumption.
Qed.

(** The hundredths of the double nearest to [n / 100] are [n], for [n]
    below [2^52]. *)
Lemma hundredths_nearest_double (N D n : Z) :
  (0 < N)%Z -> (0 < D)%Z -> (N * 100 = n * D)%Z -> (n < 2 ^ 52)%Z ->
  exists m e,
    nearest_double N D = S754_finite false m e /\
    hundredths (S754_finite false m e) = n.
Proof.
  intros HN HD HE Hn.
  assert (Hn0 : (0 < n)%Z) by nia.
  assert (Hv : IZR N / IZR D = IZR n / 100).
  { apply IZR_lt in HD. apply (f_equal IZR) in HE. rewrite !mult_IZR in HE.
    field_simplify_eq; lra. }
  assert (Hy : in_format (IZR (2 ^ 52))) by (apply int_in_format; lia).
  assert (Hn1 : 1 <= IZR n) by (apply IZR_le; lia).
  assert (Hn2 : IZR n <= IZR (2 ^ 52) - 1).
  { rewrite <- minus_IZR. apply IZR_le. lia. }
  change (2 ^ 52)%Z with 4503599627370496%Z in *.
  destruct (nearest_double_nearest N D _ HN HD Hy) as [Hvalid Hnear];
    [rewrite Hv; lra|].
  rewrite Hv in Hnear.
  pose proof bpow_m53 as Hu. pose proof bpow_m1022_small as Hsmall.
  set (u := bpow (-53)) in *.
  assert (Hu' : u = / 9007199254740992).
  { apply Rmult_eq_reg_r with 9007199254740992; [|lra].
    rewrite Hu. rewrite Rinv_l; lra. }
  destruct (nearest_relative _ _ Hnear) as [Hlo Hhi]; [lra|].
  fold u in Hlo, Hhi.
  destruct (nearest_double N D) as [[|]|[|]| |[|] m e]; try contradiction.
  - cbn [SF2R] in Hlo. exfalso. rewrite Hu' in Hlo. lra.
  - exists m, e. split; [reflexivity|].
    pose proof (hundredths_near m e) as Hh.
    set (x := SF2R (S754_finite false m e)) in *.
    set (h := hundredths (S754_finite false m e)) in *.
    rewrite Hu' in Hlo, Hhi.
    assert (H1 : IZR h < IZR n + 1) by lra.
    assert (H2 : IZR n - 1 < IZR h) by lra.
    rewrite <- plus_IZR in H1. rewrite <- minus_IZR in H2.
    apply lt_IZR in H1, H2. lia.
Qed.

End PrintedDuration.

(** X12: a duration that the log gives in hundredths, [n / 100] below [2^52]
    hundredths, is printed as it stands: the whole part, a point and the
    two digits. *)
Theorem format_2f_round_trip (N D n : Z) :
  0 <= N -> 0 < D -> N * 100 = n * D -> n < 2 ^ 52 ->
  format_2f (nearest_double N D) =
  (decimal_digits (n / 100)
     ++ [46%N; Z.to_N (48 + n / 10 mod 10); Z.to_N (48 + n mod 10)])%list.
Proof.
  intros HN HD HE Hn.
  destruct (Z.eq_dec N 0) as [->|Hne].
  - assert (n = 0) by nia. subst n. reflexivity.
  - destruct (hundredths_nearest_double N D n ltac:(lia) HD HE Hn)
      as (m & e & -> & Hh).
    unfold format_2f. rewrite Hh. reflexivity.
Qed.

(** ** [main] *)

(** Where the tests with an end are the tests with a duration, the end of a
    test is its recorded end, or its start when it has none: the duration
    is never used. *)
Lemma end_time_of_parsed (td : pyfloat -> timedelta) (ends : dict datetime)
    (durations : dict pyfloat) (test : string) (s : datetime) :
  dict_keys ends = dict_keys durations ->
  end_time_of td ends durations test s =
  match dict_get ends test with Some e => e | None => s end.
Proof.
  intros Hk. unfold end_time_of, fallback_delta.
  destruct (dict_get ends test) eqn:E; [reflexivity|].
  apply dict_get_keys in E. rewrite Hk in E. apply dict_get_keys in E.
  rewrite E. lia.
Qed.

Section MainFacts.
Variables td td' : pyfloat -> timedelta.
Variables (starts ends : dict datetime) (durations : dict pyfloat).
Hypothesis Hkeys : dict_keys ends = dict_keys durations.

Lemma end_time_of_any (test : string) (s : datetime) :
  end_time_of td ends durations test s = end_time_of td' ends durations test s.
Proof. now rewrite !end_time_of_parsed. Qed.

Lemma timeline_appended_any (l : dict datetime) :
  timeline_appended td l ends durations = timeline_appended td' l ends durations.
Proof.
  induction l as [|[test s] l IH]; cbn [timeline_appended]; [reflexivity|].
  now rewrite IH, end_time_of_any.
Qed.

Lemma build_timeline_any :
  build_timeline td starts ends durations = build_timeline td' starts ends durations.
Proof. unfold build_timeline. now rewrite timeline_appended_any. Qed.

Lemma count_active_any (t : datetime) :
  count_active td starts ends durations t = count_active td' starts ends durations t.
Proof.
  rewrite !count_active_filter. do 2 f_equal. apply filter_ext.
  intros [test s]. unfold is_active. now rewrite end_time_of_any.
Qed.

Lemma parallel_counts_any :
  parallel_counts td starts ends durations
  = parallel_counts td' starts ends durations.
Proof.
  rewrite !parallel_counts_grid, build_timeline_any.
  destruct (build_timeline td' starts ends durations); [reflexivity|].
  apply map_ext. intros t. now rewrite count_active_any.
Qed.

End MainFacts.

Section MainOutput.
Variable td : pyfloat -> timedelta.

Lemma build_timeline_time_sorted (starts ends : dict datetime)
    (durations : dict pyfloat) :
  StronglySorted time_le (build_timeline td starts ends durations).
Proof.
  assert (Hs : StronglySorted (not_after record_lt)
                 (build_timeline td starts ends durations)).
  { unfold build_timeline.
    apply (py_sort_strongly record_lt (fun _ => True)).
    - intros a b _ _. apply record_lt_asym.
    - intros a b c _ _ _. apply record_lt_negtrans.
    - apply Forall_forall. auto. }
  induction Hs as [|a l Hl IH Hall]; constructor; [exact IH|].
  eapply Forall_impl; [|exact Hall]. intros b. apply not_after_time_le.
Qed.

Lemma build_timeline_nil (starts ends : dict datetime) (durations : dict pyfloat) :
  build_timeline td starts ends durations = [] <-> starts = [].
Proof.
  pose proof (py_sort_length record_lt (timeline_appended td starts ends durations))
    as Hlen.
  rewrite timeline_appended_length in Hlen. fold (build_timeline td starts ends durations) in Hlen.
  split; intros H.
  - rewrite H in Hlen. destruct starts; [reflexivity|cbn in Hlen; lia].
  - subst. reflexivity.
Qed.

Lemma build_timeline_range (starts ends : dict datetime) (durations : dict pyfloat)
    (r : record) :
  dict_keys ends = dict_keys durations ->
  times_in_range starts -> times_in_range ends ->
  In r (build_timeline td starts ends durations) ->
  in_datetime_range (rec_time r).
Proof.
  intros Hk Hs He Hr. unfold build_timeline in Hr.
  apply py_sort_In, timeline_appended_In in Hr.
  destruct Hr as (test & s & Hin & Hr).
  unfold times_in_range in *. rewrite Forall_forall in Hs, He.
  pose proof (Hs _ Hin) as Hs'. cbn [snd] in Hs'.
  destruct Hr as [->| ->]; cbn [rec_time fst]; [assumption|].
  rewrite end_time_of_parsed by assumption.
  destruct (dict_get ends test) as [e|] eqn:E; [|assumption].
  apply dict_get_In in E. apply (He _ E).
Qed.

Lemma last_In {A : Type} (l : list A) (d : A) : l <> [] -> In (last l d) l.
Proof.
  induction l as [|x l IH]; [congruence|]. intros _.
  destruct l as [|y l]; [now left|]. right. apply IH. discriminate.
Qed.

Lemma grid_length (first last : datetime) :
  first <= last ->
  1 <= Z.of_nat (List.length (grid first last)) <= (last - first) / 1000000 + 1.
Proof.
  intros H. unfold grid, one_second. rewrite length_map, length_seq.
  assert (0 <= (last - first) / 1000000) by (apply Z.div_pos; lia). lia.
Qed.

Lemma timeline_first_le_last (starts ends : dict datetime)
    (durations : dict pyfloat) (first : record) (rest : list record) :
  build_timeline td starts ends durations = first :: rest ->
  rec_time first <= rec_time (last (first :: rest) first).
Proof.
  intros E.
  pose proof (build_timeline_time_sorted starts ends durations) as Hsorted.
  rewrite E in Hsorted. inversion Hsorted as [|? ? _ Hall]; subst.
  destruct rest as [|y rest]; [cbn; lia|].
  rewrite Forall_forall in Hall. apply Hall.
  change (last (first :: y :: rest) first) with (last (y :: rest) first).
  apply last_In. discriminate.
Qed.

(** X13: the sampling loop of [main] ends; it takes one sample at the instant of
    the first record of the timeline and one every second after it up to
    the instant of the last record, and every count is between zero and the
    number of tests with a start. *)
Theorem parallel_counts_samples (starts ends : dict datetime)
    (durations : dict pyfloat) :
  starts <> [] ->
  exists first rest,
    build_timeline td starts ends durations = first :: rest /\
    let stop := rec_time (last (first :: rest) first) in
    let samples := parallel_counts td starts ends durations in
    rec_time first <= stop /\
    map fst samples = grid (rec_time first) stop /\
    Z.of_nat (List.length samples) = (stop - rec_time first) / 1000000 + 1 /\
    Forall (fun sample => 0 <= snd sample <= Z.of_nat (List.length starts))
      samples.
Proof.
  intros Hne.
  destruct (build_timeline td starts ends durations) as [|first rest] eqn:E.
  { apply build_timeline_nil in E. contradiction. }
  exists first, rest. split; [reflexivity|]. cbv zeta.
  pose proof (timeline_first_le_last starts ends durations first rest E) as Hle.
  rewrite parallel_counts_grid, E.
  split; [exact Hle|split; [|split]].
  - rewrite map_map. cbn [fst]. apply map_id.
  - rewrite length_map. unfold grid, one_second. rewrite length_map, length_seq.
    assert (0 <= (rec_time (last (first :: rest) first) - rec_time first)
                 / 1000000) by (apply Z.div_pos; lia).
    lia.
  - apply Forall_forall. intros sample Hin. apply in_map_iff in Hin.
    destruct Hin as (t & <- & _). cbn [snd]. rewrite count_active_filter.
    pose proof (filter_length_le (is_active td ends durations t) starts). lia.
Qed.

(** The samples of a parsed log with a start: one at least, none negative,
    no more than the seconds of the calendar. *)
Lemma parallel_tests_ok (starts ends : dict datetime) (durations : dict pyfloat) :
  dict_keys ends = dict_keys durations ->
  times_in_range starts -> times_in_range ends -> starts <> [] ->
  let series := parallel_tests (parallel_counts td starts ends durations) in
  series <> [] /\ Forall (fun v => 0 <= v) series /\
  Z.of_nat (List.length series) <= 2 ^ 53.
Proof.
  intros Hk Hs He Hne series. subst series.
  rewrite parallel_counts_grid.
  destruct (build_timeline td starts ends durations) as [|first rest] eqn:E.
  { apply build_timeline_nil in E. contradiction. }
  assert (Hf : in_datetime_range (rec_time first)).
  { apply (build_timeline_range starts ends durations); auto.
    rewrite E. now left. }
  assert (Hl : in_datetime_range (rec_time (last (first :: rest) first))).
  { apply (build_timeline_range starts ends durations); auto.
    rewrite E. apply last_In. discriminate. }
  pose proof (timeline_first_le_last starts ends durations first rest E) as Hle.
  pose proof (grid_length _ _ Hle) as Hg.
  unfold parallel_tests. rewrite map_map. cbn [snd].
  split; [|split].
  - intros Hnil. apply (f_equal (@List.length Z)) in Hnil.
    rewrite length_map in Hnil. cbn [List.length] in Hnil. lia.
  - apply Forall_forall. intros v Hv. apply in_map_iff in Hv.
    destruct Hv as (t & <- & _). rewrite count_active_filter. lia.
  - rewrite length_map.
    unfold in_datetime_range, datetime_min, datetime_max in Hf, Hl.
    change (datetime_of 1 1 1 0 0 0 0) with 86400000000 in Hf, Hl.
    change (datetime_of 9999 12 31 23 59 59 999999) with 315537983999999999
      in Hf, Hl.
    assert ((rec_time (last (first :: rest) first) - rec_time first) / 1000000
            <= 315537897600).
    { apply Z.div_le_upper_bound; lia. }
    change (2 ^ 53) with 9007199254740992. lia.
Qed.

End MainOutput.

Ltac range_lia :=
  unfold in_datetime_range, datetime_min, datetime_max, one_second in *;
  unfold datetime, timedelta in *;
  change (datetime_of 1 1 1 0 0 0 0) with 86400000000 in *;
  change (datetime_of 9999 12 31 23 59 59 999999) with 315537983999999999 in *;
  lia.

Lemma grid_In (first stop t : datetime) :
  In t (grid first stop) -> first <= t.
Proof.
  unfold grid, one_second. intros H. apply in_map_iff in H.
  destruct H as (k & <- & _). lia.
Qed.

Lemma map_result_ok {A B : Type} (f : A -> result B) (l : list A) :
  Forall (fun x => exists y, f x = Ok y) l -> exists out, map_result f l = Ok out.
Proof.
  induction 1 as [|x l [y Hy] _ [out IH]]; cbn [map_result].
  - now exists [].
  - rewrite Hy, IH. cbn [bind]. now exists (y :: out).
Qed.

Lemma map_result_raises {A B : Type} (f : A -> result B) (l : list A) (e : exn) :
  Forall (fun x => forall e', f x = Raise e' -> e' = e) l ->
  Exists (fun x => exists e', f x = Raise e') l ->
  map_result f l = Raise e.
Proof.
  intros Hall Hex. induction Hex as [x l [e' He']|x l Hex IH];
    inversion Hall as [|? ? Hx Hl]; subst; cbn [map_result].
  - rewrite He'. cbn [bind]. f_equal. now apply Hx.
  - destruct (f x) as [y|e'] eqn:E; cbn [bind].
    + now rewrite (IH Hl).
    + f_equal. now apply Hx.
Qed.

Lemma map_result_raise_only {A B : Type} (f : A -> result B) (l : list A)
    (e e' : exn) :
  Forall (fun x => forall e', f x = Raise e' -> e' = e) l ->
  map_result f l = Raise e' -> e' = e.
Proof.
  induction 1 as [|x l Hx _ IH]; cbn [map_result]; [discriminate|].
  destruct (f x) as [y|e''] eqn:E; cbn [bind].
  - destruct (map_result f l) as [ys|e'']; cbn [bind]; [discriminate|].
    intros [= <-]. now apply IH.
  - intros [= <-]. now apply Hx.
Qed.

Lemma datetime_add_raise (t delta : datetime) (e : exn) :
  datetime_add t delta = Raise e -> e = OverflowError.
Proof.
  unfold datetime_add. destruct (_ && _); [discriminate|]. now intros [= <-].
Qed.

Lemma datetime_add_spec (t delta : datetime) :
  datetime_add t delta =
  if (datetime_min <=? t + delta) && (t + delta <=? datetime_max)
  then Ok (t + delta) else Raise OverflowError.
Proof. reflexivity. Qed.

(** What the fallbacks of a parsed log can raise. *)
Lemma check_fallbacks_raise (starts : dict datetime) (durations : dict pyfloat)
    (e : exn) :
  Forall (fun item => nonneg_number (snd item) = true) durations ->
  check_fallbacks starts durations = Raise e -> e = OverflowError.
Proof.
  intros Hd. induction starts as [|[test s] rest IH]; cbn [check_fallbacks];
    [discriminate|].
  destruct (dict_get durations test) as [d|] eqn:E.
  - apply dict_get_In in E. rewrite Forall_forall in Hd.
    pose proof (Hd _ E) as Hn. cbn [snd] in Hn.
    destruct (timedelta_of_float d) as [delta|e'] eqn:T; cbn [bind].
    + destruct (datetime_add s delta) as [r|e'] eqn:A; cbn [bind]; [exact IH|].
      intros [= <-]. eapply datetime_add_raise; eauto.
    + intros [= <-]. unfold timedelta_of_float in T.
      destruct d as [[|]|[|]| |[|] m ex]; try discriminate;
        try (destruct (_ && _) in T; [discriminate|now injection T as <-]).
      now injection T as <-.
  - cbn [bind].
    destruct (datetime_add s 0) as [r|e'] eqn:A; cbn [bind]; [exact IH|].
    intros [= <-]. eapply datetime_add_raise; eauto.
Qed.

Lemma check_fallbacks_item (starts : dict datetime) (durations : dict pyfloat)
    (test : string) (s : datetime) (d : pyfloat) :
  In (test, s) starts -> dict_get durations test = Some d ->
  (exists e, timedelta_of_float d = Raise e) \/
  datetime_max < s + timedelta_value d ->
  exists e, check_fallbacks starts durations = Raise e.
Proof.
  intros Hin Hd Hbad.
  induction starts as [|[test' s'] rest IH]; [contradiction|].
  cbn [check_fallbacks]. destruct Hin as [[= -> ->]|Hin].
  - rewrite Hd. unfold timedelta_value in Hbad.
    destruct (timedelta_of_float d) as [delta|e'] eqn:T; cbn [bind];
      [|now exists e'].
    destruct Hbad as [[e He]|Hbad]; [discriminate|].
    rewrite datetime_add_spec. destruct (_ && _) eqn:B.
    + apply andb_true_iff in B. destruct B as [_ B]. apply Z.leb_le in B.
      range_lia.
    + cbn [bind]. now exists OverflowError.
  - destruct (match dict_get durations test' with
              | Some d0 => timedelta_of_float d0
              | None => Ok 0
              end) as [delta|e']; cbn [bind]; [|now exists e'].
    destruct (datetime_add s' delta) as [r|e']; cbn [bind]; [|now exists e'].
    now apply IH.
Qed.

Lemma longest_tests_length (durations : dict pyfloat) :
  List.length (longest_tests durations) = Nat.min 10 (List.length durations).
Proof.
  unfold longest_tests, py_slice_to, ranked_durations. cbn [Z.ltb Z.compare].
  rewrite length_firstn, py_sort_length. reflexivity.
Qed.

(** [main] on a parsed log with a start, up to the sums of the loop. *)
Lemma main_parsed (log_lines : list string) (starts ends : dict datetime)
    (durations : dict pyfloat) :
  parse_log_lines log_lines = Ok (starts, ends, durations) -> starts <> [] ->
  let samples := parallel_counts timedelta_value starts ends durations in
  samples <> [] /\
  Forall (fun sample => datetime_min <= fst sample) samples /\
  exists chart,
    List.length chart = 10%nat /\
    Forall (fun line => (List.length line <= 80)%nat) chart /\
    main log_lines =
      (_ <- check_fallbacks starts durations ;;
       _ <- map_result (fun sample => datetime_add (fst sample) one_second)
              samples ;;
       Ok (chart
             ++ [10%N :: text_of "Top Longest Running Tests:"; table_rule;
                 table_head; table_rule]
             ++ map table_row (longest_tests durations) ++ [table_rule])%list).
Proof.
  intros E Hstarts samples.
  destruct (parse_loop_inv log_lines ([], [], []) _ parsed_inv_empty E)
    as (_ & _ & _ & Hk).
  destruct (parse_loop_range log_lines ([], [], []) _
              ltac:(constructor) ltac:(constructor) E) as [Hs He].
  cbn [starts_of ends_of fst snd] in Hs, He.
  destruct (parallel_tests_ok timedelta_value starts ends durations Hk Hs He
              Hstarts) as (Hne & Hnn & Hlen).
  fold samples in Hne, Hnn, Hlen.
  assert (Hsne : samples <> []).
  { intros Hnil. apply Hne. unfold parallel_tests. now rewrite Hnil. }
  assert (Hmin : Forall (fun sample => datetime_min <= fst sample) samples).
  { subst samples. rewrite parallel_counts_grid.
    destruct (build_timeline timedelta_value starts ends durations)
      as [|first rest] eqn:B; [constructor|].
    apply Forall_forall. intros sample Hin. apply in_map_iff in Hin.
    destruct Hin as (t & <- & Ht). cbn [fst]. apply grid_In in Ht.
    assert (Hf : in_datetime_range (rec_time first)).
    { apply (build_timeline_range timedelta_value starts ends durations); auto.
      rewrite B. now left. }
    range_lia. }
  split; [exact Hsne|split; [exact Hmin|]].
  destruct (downsample_ok (parallel_tests samples) 10 80 Hne Hnn
              ltac:(lia) ltac:(lia) Hlen)
    as (data & m & out & _ & _ & Hdown & Hout & _).
  exists (map (chart_line default_block out) (levels 10)).
  split; [reflexivity|]. split.
  - apply Forall_forall. intros line Hline. apply in_map_iff in Hline.
    destruct Hline as (level & <- & _).
    pose proof (chart_line_length default_block out level) as Hl.
    cbn [default_block List.length Nat.max] in Hl. lia.
  - unfold main. rewrite E. cbn [bind].
    destruct (check_fallbacks starts durations) as [[]|e]; cbn [bind];
      [|reflexivity].
    destruct (build_timeline timedelta_value starts ends durations) as [|r rs] eqn:B.
    { apply build_timeline_nil in B. contradiction. }
    fold samples.
    destruct (map_result _ samples) as [ts|e]; cbn [bind]; [|reflexivity].
    rewrite draw_nonempty, Hdown by assumption. cbn [bind].
    unfold print_longest_tests. rewrite printed_rows_firstn by lia.
    rewrite firstn_all2
      by (rewrite longest_tests_length; change (Z.to_nat 10) with 10%nat; lia).
    reflexivity.
Qed.

(** X14: what [main] prints for a log that parses: nothing when no line says
    [EXECUTING]; otherwise, when no fallback overflows and every sampled
    instant is a second at least before the end of the calendar, the ten
    lines of the chart, none longer than 80 characters, then the table with
    a row for each of the ten longest tests at most.  It never prints
    [No data.]. *)
Theorem main_prints (log_lines : list string) (starts ends : dict datetime)
    (durations : dict pyfloat) :
  parse_log_lines log_lines = Ok (starts, ends, durations) ->
  (starts = [] -> main log_lines = Ok []) /\
  (starts <> [] ->
   check_fallbacks starts durations = Ok tt ->
   Forall (fun sample => fst sample + one_second <= datetime_max)
     (parallel_counts timedelta_value starts ends durations) ->
   exists chart,
     main log_lines =
       Ok (chart
             ++ [10%N :: text_of "Top Longest Running Tests:"; table_rule;
                 table_head; table_rule]
             ++ map table_row (longest_tests durations) ++ [table_rule])%list /\
     List.length chart = 10%nat /\
     Forall (fun line => (List.length line <= 80)%nat) chart /\
     List.length (longest_tests durations)
       = Nat.min 10 (List.length durations)).
Proof.
  intros E. split.
  - intros ->. unfold main. rewrite E. reflexivity.
  - intros Hstarts Hcheck Hend.
    destruct (main_parsed log_lines starts ends durations E Hstarts)
      as (_ & Hmin & chart & Hlen & Hwide & Hmain).
    exists chart. split; [|split; [exact Hlen|split; [exact Hwide|]]];
      [|apply longest_tests_length].
    rewrite Hmain, Hcheck. cbn [bind].
    destruct (map_result_ok
                (fun sample => datetime_add (fst sample) one_second)
                (parallel_counts timedelta_value starts ends durations))
      as [ts Hts]; [|now rewrite Hts].
    rewrite Forall_forall in *. intros sample Hin.
    exists (fst sample + one_second). rewrite datetime_add_spec.
    pose proof (Hmin _ Hin). pose proof (Hend _ Hin).
    destruct (Z.leb_spec datetime_min (fst sample + one_second));
      [|range_lia].
    destruct (Z.leb_spec (fst sample + one_second) datetime_max);
      [reflexivity|range_lia].
Qed.

(** X15: what [main] raises after the parsing: [OverflowError], when the sum of
    a start and the [timedelta] of the duration of its test overflows,
    though the test has an end and the sum is not used, and when a sampled
    instant lies in the last second of the calendar. *)
Theorem main_overflow (log_lines : list string) (starts ends : dict datetime)
    (durations : dict pyfloat) :
  parse_log_lines log_lines = Ok (starts, ends, durations) ->
  (forall e, main log_lines = Raise e -> e = OverflowError) /\
  (forall test s d,
     In (test, s) starts -> dict_get durations test = Some d ->
     (exists e, timedelta_of_float d = Raise e) \/
     datetime_max < s + timedelta_value d ->
     main log_lines = Raise OverflowError) /\
  (starts <> [] ->
   Exists (fun sample => datetime_max < fst sample + one_second)
     (parallel_counts timedelta_value starts ends durations) ->
   main log_lines = Raise OverflowError).
Proof.
  intros E.
  assert (Hd : Forall (fun item => nonneg_number (snd item) = true) durations).
  { exact (parse_loop_durations log_lines ([], [], []) _ ltac:(constructor) E). }
  assert (Hadd : Forall (fun sample => forall e',
                   datetime_add (fst sample) one_second = Raise e' ->
                   e' = OverflowError)
                   (parallel_counts timedelta_value starts ends durations)).
  { apply Forall_forall. intros sample _ e'. apply datetime_add_raise. }
  assert (Hraise : forall e, main log_lines = Raise e -> e = OverflowError).
  { intros e. destruct starts as [|item starts'].
    - unfold main. rewrite E. cbn. discriminate.
    - destruct (main_parsed log_lines _ ends durations E ltac:(discriminate))
        as (_ & _ & chart & _ & _ & ->).
      destruct (check_fallbacks (item :: starts') durations) as [[]|e'] eqn:C;
        cbn [bind].
      + destruct (map_result _ _) as [ts|e'] eqn:M; cbn [bind]; [discriminate|].
        intros [= <-].
        exact (map_result_raise_only _ _ OverflowError e' Hadd M).
      + intros [= <-]. eapply check_fallbacks_raise; eauto. }
  split; [exact Hraise|split].
  - intros test s d Hin Hdur Hbad.
    destruct (check_fallbacks_item starts durations test s d Hin Hdur Hbad)
      as [e He].
    assert (Hm : main log_lines = Raise e).
    { unfold main. rewrite E. cbn [bind]. now rewrite He. }
    rewrite Hm. f_equal. now apply Hraise.
  - intros Hstarts Hex.
    destruct (main_parsed log_lines starts ends durations E Hstarts)
      as (_ & _ & chart & _ & _ & Hmain).
    destruct (check_fallbacks starts durations) as [[]|e] eqn:C.
    + rewrite Hmain. cbn [bind].
      rewrite (map_result_raises _ _ OverflowError Hadd); [reflexivity|].
      clear - Hex. induction Hex as [x l Hx|x l Hex IH].
      * apply Exists_cons_hd. exists OverflowError. rewrite datetime_add_spec.
        cbv beta in Hx. destruct (_ && _) eqn:B; [|reflexivity].
        apply andb_true_iff in B. destruct B as [_ B]. apply Z.leb_le in B.
        range_lia.
      * now apply Exists_cons_tl.
    + assert (Hm : main log_lines = Raise e).
      { rewrite Hmain. reflexivity. }
      rewrite Hm. f_equal. now apply Hraise.
Qed.

(** X16: the duration of a test never stands in for its end after the parsing:
    a test of a parsed log has an end exactly when it has a duration, so the
    end of a test is its recorded end, or its start when no line says
    [PASSED] for it; such a test is active at no instant, and the timeline
    and the samples are the same whatever [timedelta] makes of a
    duration. *)
Theorem parse_log_lines_fallback_unused (td td' : pyfloat -> timedelta)
    (log_lines : list string) (starts ends : dict datetime)
    (durations : dict pyfloat) :
  parse_log_lines log_lines = Ok (starts, ends, durations) ->
  (forall test s,
     end_time_of td ends durations test s =
     match dict_get ends test with Some e => e | None => s end) /\
  (forall test s t,
     dict_get ends test = None ->
     is_active td ends durations t (test, s) = false) /\
  build_timeline td starts ends durations
    = build_timeline td' starts ends durations /\
  parallel_counts td starts ends durations
    = parallel_counts td' starts ends durations.
Proof.
  intros E.
  destruct (parse_loop_inv log_lines ([], [], []) _ parsed_inv_empty E)
    as (_ & _ & _ & Hk).
  split; [|split; [|split]].
  - intros test s. now apply end_time_of_parsed.
  - intros test s t Hn. unfold is_active.
    rewrite end_time_of_parsed, Hn by assumption.
    destruct (Z.leb_spec s t), (Z.ltb_spec t s); cbn [andb]; auto; lia.
  - now apply build_timeline_any.
  - now apply parallel_counts_any.
Qed.

(** ** The text of a duration *)

Lemma digit_not_point (c : ascii) : is_digit c = true -> Ascii.eqb c "." = false.
Proof.
  intros H. destruct (Ascii.eqb_spec c ".") as [->|]; [discriminate|reflexivity].
Qed.

Lemma without_points_digits (s : string) :
  all_chars is_digit s = true -> without_points s = list_ascii_of_string s.
Proof.
  unfold without_points. induction s as [|c s IH]; [reflexivity|].
  cbn [all_chars list_ascii_of_string filter]. intros H.
  apply andb_true_iff in H. destruct H as [Hc Hs]. now rewrite Hc, IH.
Qed.

Lemma count_points_digits (s : string) :
  all_chars is_digit s = true -> count_points s = 0%nat.
Proof.
  unfold count_points. induction s as [|c s IH]; [reflexivity|].
  cbn [all_chars list_ascii_of_string filter]. intros H.
  apply andb_true_iff in H. destruct H as [Hc Hs].
  now rewrite (digit_not_point c Hc), IH.
Qed.

Lemma without_points_app (a b : string) :
  without_points (a ++ b) = (without_points a ++ without_points b)%list.
Proof. unfold without_points. now rewrite list_ascii_app, filter_app. Qed.

Lemma count_points_app (a b : string) :
  count_points (a ++ b) = (count_points a + count_points b)%nat.
Proof.
  unfold count_points. now rewrite list_ascii_app, filter_app, length_app.
Qed.

Lemma decimals_digits_point (a b : string) :
  all_chars is_digit a = true ->
  decimals (a ++ "." ++ b) = List.length (without_points b).
Proof.
  induction a as [|c a IH]; [reflexivity|].
  cbn [all_chars append decimals]. intros H.
  apply andb_true_iff in H. destruct H as [Hc Hs].
  rewrite (digit_not_point c Hc). now apply IH.
Qed.

Lemma decimals_digits (a : string) :
  all_chars is_digit a = true -> decimals a = 0%nat.
Proof.
  induction a as [|c a IH]; [reflexivity|].
  cbn [all_chars decimals]. intros H.
  apply andb_true_iff in H. destruct H as [Hc Hs].
  rewrite (digit_not_point c Hc). now apply IH.
Qed.

Lemma list_ascii_length (s : string) :
  List.length (list_ascii_of_string s) = String.length s.
Proof. induction s as [|c s IH]; cbn; [reflexivity|now rewrite IH]. Qed.

Lemma string_of_list_ascii_app (a b : list ascii) :
  string_of_list_ascii (a ++ b) = string_of_list_ascii a ++ string_of_list_ascii b.
Proof. induction a as [|c a IH]; cbn; [reflexivity|now rewrite IH]. Qed.

(** [float] on digits with a point, on digits alone, and on a text with two
    points. *)
Lemma py_float_decimal (a b : string) :
  all_chars is_digit a = true -> all_chars is_digit b = true ->
  py_float (a ++ "." ++ b) =
    (if (String.length a + String.length b =? 0)%nat
     then Raise (ValueError "float")
     else Ok (nearest_double (int_of_digits (a ++ b))
                (10 ^ Z.of_nat (String.length b)))) /\
  py_float a =
    (if (String.length a =? 0)%nat then Raise (ValueError "float")
     else Ok (nearest_double (int_of_digits a) 1)) /\
  (forall c, py_float (a ++ "." ++ b ++ "." ++ c) = Raise (ValueError "float")).
Proof.
  intros Ha Hb. split; [|split].
  - unfold py_float.
    rewrite count_points_app, (count_points_app "." b),
      (count_points_digits a Ha), (count_points_digits b Hb).
    rewrite decimals_digits_point by assumption.
    rewrite without_points_app, (without_points_app "." b).
    rewrite (without_points_digits a Ha), (without_points_digits b Hb).
    change (without_points ".") with (@nil ascii). cbn [app].
    rewrite length_app, !list_ascii_length.
    change (count_points ".") with 1%nat. cbn [Nat.add Nat.leb andb].
    rewrite string_of_list_ascii_app, !string_of_list_ascii_of_string.
    now destruct (String.length a + String.length b =? 0)%nat.
  - unfold py_float.
    rewrite (count_points_digits a Ha), (decimals_digits a Ha),
      (without_points_digits a Ha).
    rewrite list_ascii_length, string_of_list_ascii_of_string.
    cbn [Nat.leb andb Z.of_nat Z.pow].
    now destruct (String.length a =? 0)%nat.
  - intros c. unfold py_float.
    rewrite count_points_app, (count_points_app "." _), (count_points_app b),
      (count_points_app "." c), (count_points_digits a Ha),
      (count_points_digits b Hb).
    change (count_points ".") with 1%nat. cbn [Nat.add Nat.leb andb].
    reflexivity.
Qed.

(** ** The duration of a [PASSED] line *)

Lemma all_chars_Forall (f : ascii -> bool) (s : string) :
  all_chars f s = true -> Forall (fun c => f c = true) (list_ascii_of_string s).
Proof.
  induction s as [|c s IH]; cbn [all_chars list_ascii_of_string];
    [constructor|].
  intros H. apply andb_true_iff in H. destruct H as [Hc Hs].
  constructor; [exact Hc|now apply IH].
Qed.

Lemma int_of_digits_text_nonneg (s : string) :
  all_chars is_digit s = true -> 0 <= int_of_digits s.
Proof.
  intros H. rewrite <- (string_of_list_ascii_of_string s).
  apply int_of_digits_nonneg. now apply all_chars_Forall.
Qed.

(** The double of a decimal below [10^308] is a double nearest to it. *)
Lemma nearest_double_decimal (N D : Z) :
  0 <= N -> 0 < D -> N < 10 ^ 308 * D ->
  nonneg_valid (nearest_double N D) /\
  nearest_to (SF2R (nearest_double N D)) (IZR N / IZR D).
Proof.
  intros HN HD Hlt. destruct (Z.eq_dec N 0) as [->|Hne].
  - unfold nearest_double. cbn [Z.eqb nonneg_valid SF2R]. split; [exact I|].
    replace (IZR 0 / IZR D)%R with 0%R by (unfold Rdiv; ring).
    apply nearest_zero.
  - set (y := (IZR (2 ^ 53 - 1) * bpow 971)%R).
    assert (Hy : in_format y).
    { exists (2 ^ 53 - 1), 971. split; [reflexivity|]. split; lia. }
    apply (nearest_double_nearest N D y); [lia|assumption|exact Hy|].
    assert (Hmax : 10 ^ 308 <= (2 ^ 53 - 1) * 2 ^ 971)
      by (apply Z.leb_le; vm_compute; reflexivity).
    unfold y. rewrite (bpow_IZR 971) by lia. rewrite <- mult_IZR.
    apply IZR_lt in Hlt, HD. apply IZR_le in Hmax.
    rewrite mult_IZR in Hlt.
    set (m := IZR ((2 ^ 53 - 1) * 2 ^ 971)) in *.
    set (t := IZR (10 ^ 308)) in *.
    apply Rmult_le_reg_r with (IZR D); [exact HD|].
    unfold Rdiv. rewrite Rmult_assoc, Rinv_l by lra.
    rewrite Rmult_1_r. nra.
Qed.

(** X17: the duration of a [PASSED] line with a timestamp that the library
    accepts.  For digits with one point at most, one digit at least and a
    value below [10^308], the test gets the instant of the timestamp as its
    end, and as its duration a double nearest to the decimal: within half
    a unit in the last place of it.  For a text with two points, and for
    the point alone, which the pattern admits too, [float] raises
    [ValueError] and the parsing ends there. *)
Theorem parse_passed_line_duration (starts ends : dict datetime)
    (durations : dict pyfloat)
    (year month day hour minute second : Z) (k : nat) (fraction : Z)
    (mid name dur tail : string) :
  let line :=
    timestamp_text year month day hour minute second k fraction
      ++ mid ++ "PASSED " ++ name ++ " in " ++ dur ++ " seconds" ++ tail in
  let ts :=
    datetime_of year month day hour minute second
      (fraction * 10 ^ (6 - Z.of_nat k)) in
  0 <= year < 10000 -> 0 <= month < 100 -> 0 <= day < 100 ->
  0 <= hour < 100 -> 0 <= minute < 100 -> 0 <= second < 100 ->
  (1 <= k <= 6)%nat -> 0 <= fraction < 10 ^ Z.of_nat k ->
  valid_fields year month day hour minute second = true ->
  contains "EXECUTING " line = false ->
  head_is is_digit mid = false -> all_chars dot mid = true ->
  contains "PASSED " mid = false ->
  name <> "" -> all_chars dot name = true -> contains " in " name = false ->
  dur <> "" -> all_chars digit_or_point dur = true ->
  (forall a b,
     dur = a ++ "." ++ b \/ dur = a /\ b = "" ->
     all_chars is_digit a = true -> all_chars is_digit b = true ->
     a ++ b <> "" ->
     int_of_digits (a ++ b) < 10 ^ (308 + Z.of_nat (String.length b)) ->
     exists d,
       parse_line (starts, ends, durations) line
       = Ok (starts, dict_set ends name ts, dict_set durations name d) /\
       nonneg_valid d /\
       nearest_to (SF2R d)
         (IZR (int_of_digits (a ++ b)) / IZR (10 ^ Z.of_nat (String.length b)))) /\
  (forall a b c,
     dur = a ++ "." ++ b ++ "." ++ c ->
     all_chars is_digit a = true -> all_chars is_digit b = true ->
     parse_line (starts, ends, durations) line = Raise (ValueError "float")) /\
  (dur = "." ->
   parse_line (starts, ends, durations) line = Raise (ValueError "float")).
Proof.
  intros line ts Hy Hmo Hd Hh Hmi Hs [Hk Hk6] Hf Hv Hex Hmd Hmid Hno Hname Hdots
    Hin Hdur Hdp.
  assert (Hp : parse_line (starts, ends, durations) line =
               (d <- py_float dur ;;
                Ok (starts, dict_set ends name ts, dict_set durations name d))).
  { destruct (passed_search year month day hour minute second k fraction
                mid name dur tail Hk Hmd Hmid Hno Hname Hdots Hin Hdur Hdp)
      as (g & Hg & G0 & G1 & G2).
    unfold parse_line. fold line in Hg.
    rewrite (executing_re_split "EXECUTING " (firstn 24 executing_re)
               (skipn 34 executing_re) line eq_refl Hex).
    rewrite Hg, G0, G1, G2.
    rewrite strptime_text by assumption.
    rewrite Hv. apply Nat.leb_le in Hk6. rewrite Hk6. reflexivity. }
  rewrite Hp. split; [|split].
  - intros a b Hshape Ha Hb Hne Hlt.
    assert (Hf' : py_float dur =
                  Ok (nearest_double (int_of_digits (a ++ b))
                        (10 ^ Z.of_nat (String.length b)))).
    { destruct (py_float_decimal a b Ha Hb) as (H1 & H2 & _).
      destruct Hshape as [->|[-> ->]].
      - rewrite H1. rewrite <- length_append.
        destruct (a ++ b) as [|c s]; [contradiction|reflexivity].
      - rewrite H2. rewrite append_nil_r in *.
        destruct a as [|c s]; [contradiction|reflexivity]. }
    rewrite Hf'. cbn [bind]. eexists. split; [reflexivity|].
    apply nearest_double_decimal.
    + apply int_of_digits_text_nonneg. now rewrite all_chars_app, Ha, Hb.
    + apply Z.pow_pos_nonneg; lia.
    + now rewrite <- Z.pow_add_r by lia.
  - intros a b c -> Ha Hb.
    destruct (py_float_decimal a b Ha Hb) as (_ & _ & H3).
    now rewrite H3.
  - intros ->. reflexivity.
Qed.

(** ** The builder and its exceptions *)








(** ** The theorems on a log of five lines *)

Lemma parse_log_lines_keys_witness :
  parse_log_lines sample_log = Ok sample_parsed /\
  dict_keys (ends_of sample_parsed) = dict_keys (durations_of sample_parsed).
Proof.
  assert (H : parse_log_lines sample_log = Ok sample_parsed)
    by (vm_compute; reflexivity).
  split; [exact H|].
  exact (proj2 (proj2 (proj2 (parse_log_lines_keys sample_log _ _ _ H)))).
Defined.

Lemma parse_log_lines_range_witness :
  parse_log_lines sample_log = Ok sample_parsed /\
  Forall (fun item => in_datetime_range (snd item)) (starts_of sample_parsed).
Proof.
  assert (H : parse_log_lines sample_log = Ok sample_parsed)
    by (vm_compute; reflexivity).
  split; [exact H|].
  exact (proj1 (parse_log_lines_range sample_log _ _ _ H)).
Defined.

Lemma parse_log_lines_durations_witness :
  parse_log_lines sample_log = Ok sample_parsed /\
  Forall (fun item => is_number (snd item) /\ float_ge (snd item) f64_zero)
    (durations_of sample_parsed).
Proof.
  assert (H : parse_log_lines sample_log = Ok sample_parsed)
    by (vm_compute; reflexivity).
  split; [exact H|].
  exact (parse_log_lines_durations sample_log _ _ _ H).
Defined.

Lemma parse_executing_line_witness :
  head_is is_digit " [PID:1] " = false /\ all_chars dot " [PID:1] " = true /\
  contains "EXECUTING " " [PID:1] " = false /\
  "Suite.Test One" <> "" /\ all_chars dot "Suite.Test One" = true /\
  head_is dot (String line_feed "") = false /\
  parse_line ([], [], [])
    ("2024-05-01 12:00:00.123456 [PID:1] EXECUTING Suite.Test One"
       ++ String line_feed "")
  = Ok ([("Suite.Test One", datetime_of 2024 5 1 12 0 0 123456)], [], []).
Proof.
  repeat (split; [reflexivity || discriminate|]).
  exact (parse_executing_line [] [] [] 2024 5 1 12 0 0 6 123456
           " [PID:1] " "Suite.Test One" (String line_feed "")
           ltac:(lia) ltac:(lia) ltac:(lia) ltac:(lia) ltac:(lia) ltac:(lia)
           ltac:(lia) ltac:(cbn; lia) eq_refl eq_refl eq_refl
           ltac:(discriminate) eq_refl eq_refl).
Defined.

Lemma parse_passed_line_witness :
  contains "EXECUTING "
    "2024-05-01 12:00:03.5 [PID:1] PASSED Suite.Test One in 3.4 seconds" = false /\
  head_is is_digit " [PID:1] " = false /\ all_chars dot " [PID:1] " = true /\
  contains "PASSED " " [PID:1] " = false /\
  "Suite.Test One" <> "" /\ all_chars dot "Suite.Test One" = true /\
  contains " in " "Suite.Test One" = false /\
  "3.4" <> "" /\ all_chars digit_or_point "3.4" = true /\
  parse_line ([], [], [])
    "2024-05-01 12:00:03.5 [PID:1] PASSED Suite.Test One in 3.4 seconds"
  = Ok ([], [("Suite.Test One", datetime_of 2024 5 1 12 0 3 500000)],
        [("Suite.Test One", decimal 34 1)]).
Proof.
  repeat (split; [reflexivity || discriminate|]).
  exact (parse_passed_line [] [] [] 2024 5 1 12 0 3 1 5
           " [PID:1] " "Suite.Test One" "3.4" ""
           ltac:(lia) ltac:(lia) ltac:(lia) ltac:(lia) ltac:(lia) ltac:(lia)
           ltac:(lia) ltac:(cbn; lia) eq_refl eq_refl eq_refl eq_refl
           ltac:(discriminate) eq_refl eq_refl ltac:(discriminate) eq_refl).
Defined.

Lemma parse_log_lines_ignores_witness :
  no_event "Starting 2 processes" = true /\
  parse_log_lines (["2024-05-01 12:00:00.1 EXECUTING A"]
                     ++ "Starting 2 processes" :: [])%list
  = parse_log_lines (["2024-05-01 12:00:00.1 EXECUTING A"] ++ [])%list.
Proof.
  split; [reflexivity|].
  exact (parse_log_lines_ignores ["2024-05-01 12:00:00.1 EXECUTING A"] []
           "Starting 2 processes" eq_refl).
Defined.

Lemma parse_log_lines_last_line_witness :
  parse_log_lines (["2024-05-01 12:00:00.1 EXECUTING A"]
                     ++ "2024-05-01 12:00:07.1 EXECUTING A"
                     :: ["2024-05-01 12:00:09.1 PASSED A in 2.0 seconds"])%list
  = Ok ([("A", datetime_of 2024 5 1 12 0 7 100000)],
        [("A", datetime_of 2024 5 1 12 0 9 100000)], [("A", decimal 2 0)]) /\
  dict_get [("A", datetime_of 2024 5 1 12 0 7 100000)] "A"
  = Some (datetime_of 2024 5 1 12 0 7 100000).
Proof.
  assert (H : parse_log_lines
                (["2024-05-01 12:00:00.1 EXECUTING A"]
                   ++ "2024-05-01 12:00:07.1 EXECUTING A"
                   :: ["2024-05-01 12:00:09.1 PASSED A in 2.0 seconds"])%list
              = Ok ([("A", datetime_of 2024 5 1 12 0 7 100000)],
                    [("A", datetime_of 2024 5 1 12 0 9 100000)],
                    [("A", decimal 2 0)]))
    by (vm_compute; reflexivity).
  split; [exact H|].
  apply (proj1 (parse_log_lines_last_line _ _ _ _ _ _ H) "A");
    vm_compute; reflexivity.
Defined.

Lemma parse_passed_line_duration_witness :
  valid_fields 2024 5 1 12 0 3 = true /\
  contains "EXECUTING "
    "2024-05-01 12:00:03.5 [PID:1] PASSED Suite.Test One in 3.4 seconds" = false /\
  all_chars digit_or_point "3.4" = true /\
  int_of_digits "34" < 10 ^ 309 /\
  exists d,
    parse_line ([], [], [])
      "2024-05-01 12:00:03.5 [PID:1] PASSED Suite.Test One in 3.4 seconds"
    = Ok ([], [("Suite.Test One", datetime_of 2024 5 1 12 0 3 500000)],
          [("Suite.Test One", d)]) /\
    nonneg_valid d /\ nearest_to (SF2R d) (IZR 34 / IZR 10).
Proof.
  assert (Hlt : int_of_digits "34" < 10 ^ 309) by (vm_compute; reflexivity).
  repeat (split; [reflexivity || exact Hlt|]).
  exact (proj1 (parse_passed_line_duration [] [] [] 2024 5 1 12 0 3 1 5
                  " [PID:1] " "Suite.Test One" "3.4" ""
                  ltac:(lia) ltac:(lia) ltac:(lia) ltac:(lia) ltac:(lia)
                  ltac:(lia) ltac:(lia) ltac:(cbn; lia) eq_refl eq_refl eq_refl
                  eq_refl eq_refl ltac:(discriminate) eq_refl eq_refl
                  ltac:(discriminate) eq_refl)
           "3" "4" (or_introl eq_refl) eq_refl eq_refl ltac:(discriminate) Hlt).
Defined.

(** ** The theorems on a chart and a table *)

Lemma draw_ascii_chart_cells_witness :
  [1; 2] <> [] /\ py_isspace 9619 = false /\
  downsample_to_width [1; 2] 2 80 = Ok [1; 2] /\
  exists lines,
    draw_ascii_chart_horizontal [1; 2] 2 80 [9619%N] = Ok lines /\
    List.length lines = 2%nat.
Proof.
  assert (H1 : [1; 2] <> []) by discriminate.
  assert (H2 : downsample_to_width [1; 2] 2 80 = Ok [1; 2])
    by (vm_compute; reflexivity).
  split; [exact H1|split; [reflexivity|split; [exact H2|]]].
  destruct (draw_ascii_chart_cells [1; 2] 2 80 9619%N [1; 2] H1 eq_refl H2)
    as (lines & Hd & Hl & _).
  exists lines. split; assumption.
Defined.

Lemma draw_ascii_chart_lines_witness :
  [1; 2] <> [] /\ Forall (fun v => 0 <= v) [1; 2] /\ 1 <= 80 /\
  0 <= 10 <= 2 ^ 53 /\ Z.of_nat (List.length [1; 2]) <= 2 ^ 53 /\
  exists lines,
    draw_ascii_chart_horizontal [1; 2] 10 80 default_block = Ok lines /\
    Z.of_nat (List.length lines) = 10.
Proof.
  assert (H1 : [1; 2] <> []) by discriminate.
  assert (H2 : Forall (fun v => 0 <= v) [1; 2]) by (repeat constructor; lia).
  assert (H3 : 1 <= 80) by lia.
  assert (H4 : 0 <= 10 <= 2 ^ 53) by lia.
  assert (H5 : Z.of_nat (List.length [1; 2]) <= 2 ^ 53) by (cbn; lia).
  split; [exact H1|split; [exact H2|split; [exact H3|split; [exact H4|
    split; [exact H5|]]]]].
  destruct (draw_ascii_chart_lines [1; 2] 10 80 default_block H1 H2 H3 H4 H5)
    as (lines & Hd & Hl & _).
  exists lines. split; assumption.
Defined.

Lemma draw_ascii_chart_peak_witness :
  [1; 2] <> [] /\ Forall (fun v => 0 <= v) [1; 2] /\ 1 <= 80 /\
  1 <= 10 <= 2 ^ 53 /\ Z.of_nat (List.length [1; 2]) <= 2 ^ 53 /\
  py_isspace 9619 = false /\
  select_data [1; 2] 80 = Ok [1; 2] /\ py_max [1; 2] = Ok 2 /\
  exists lines,
    draw_ascii_chart_horizontal [1; 2] 10 80 [9619%N] = Ok lines /\
    nth_error (nth 0 lines []) 1 = Some 9619%N.
Proof.
  assert (H1 : [1; 2] <> []) by discriminate.
  assert (H2 : Forall (fun v => 0 <= v) [1; 2]) by (repeat constructor; lia).
  assert (H3 : 1 <= 80) by lia.
  assert (H4 : 1 <= 10 <= 2 ^ 53) by lia.
  assert (H5 : Z.of_nat (List.length [1; 2]) <= 2 ^ 53) by (cbn; lia).
  split; [exact H1|split; [exact H2|split; [exact H3|split; [exact H4|
    split; [exact H5|split; [reflexivity|split; [reflexivity|
    split; [reflexivity|]]]]]]]].
  destruct (draw_ascii_chart_peak [1; 2] [1; 2] 10 80 2 9619%N H1 H2 H3 H4 H5
              eq_refl eq_refl eq_refl) as (lines & Hd & Hp & _).
  exists lines. split; [exact Hd|]. apply Hp; [lia|reflexivity].
Defined.

Lemma print_longest_tests_layout_witness :
  0 <= 10 /\
  List.length (print_longest_tests [("Suite.Test One", decimal 34 1)] 10)
  = (5 + Nat.min (Z.to_nat 10) (List.length [("Suite.Test One", decimal 34 1)]))%nat.
Proof.
  split; [lia|].
  exact (proj1 (proj2 (print_longest_tests_layout
                         [("Suite.Test One", decimal 34 1)] 10 ltac:(lia)))).
Defined.

Lemma format_2f_round_trip_witness :
  0 <= 34 /\ 0 < 10 /\ 34 * 100 = 340 * 10 /\ 340 < 2 ^ 52 /\
  format_2f (nearest_double 34 10) = text_of "3.40".
Proof.
  split; [lia|split; [lia|split; [lia|split; [lia|]]]].
  exact (format_2f_round_trip 34 10 340 ltac:(lia) ltac:(lia) ltac:(lia)
           ltac:(lia)).
Defined.

(** ** The theorems on [main] *)

Lemma parallel_counts_samples_witness :
  starts_of sample_parsed <> [] /\
  exists first rest,
    build_timeline timedelta_value (starts_of sample_parsed)
      (ends_of sample_parsed) (durations_of sample_parsed) = first :: rest /\
    Z.of_nat (List.length
                (parallel_counts timedelta_value (starts_of sample_parsed)
                   (ends_of sample_parsed) (durations_of sample_parsed)))
    = (rec_time (last (first :: rest) first) - rec_time first) / 1000000 + 1.
Proof.
  assert (Hne : starts_of sample_parsed <> []) by (vm_compute; discriminate).
  split; [exact Hne|].
  destruct (parallel_counts_samples timedelta_value (starts_of sample_parsed)
              (ends_of sample_parsed) (durations_of sample_parsed) Hne)
    as (first & rest & Hb & _ & _ & Hl & _).
  exists first, rest. split; assumption.
Defined.

Lemma main_prints_witness :
  parse_log_lines sample_log = Ok sample_parsed /\
  starts_of sample_parsed <> [] /\
  check_fallbacks (starts_of sample_parsed) (durations_of sample_parsed) = Ok tt /\
  Forall (fun sample => fst sample + one_second <= datetime_max)
    (parallel_counts timedelta_value (starts_of sample_parsed)
       (ends_of sample_parsed) (durations_of sample_parsed)) /\
  exists chart,
    main sample_log =
      Ok (chart
            ++ [10%N :: text_of "Top Longest Running Tests:"; table_rule;
                table_head; table_rule]
            ++ map table_row (longest_tests (durations_of sample_parsed))
            ++ [table_rule])%list /\
    List.length chart = 10%nat.
Proof.
  assert (H : parse_log_lines sample_log = Ok sample_parsed)
    by (vm_compute; reflexivity).
  assert (Hne : starts_of sample_parsed <> []) by (vm_compute; discriminate).
  assert (Hc : check_fallbacks (starts_of sample_parsed)
                 (durations_of sample_parsed) = Ok tt)
    by (vm_compute; reflexivity).
  assert (He : Forall (fun sample => fst sample + one_second <= datetime_max)
                 (parallel_counts timedelta_value (starts_of sample_parsed)
                    (ends_of sample_parsed) (durations_of sample_parsed))).
  { assert (Hs : parallel_counts timedelta_value (starts_of sample_parsed)
                   (ends_of sample_parsed) (durations_of sample_parsed)
                 = [(63850248000123456, 1); (63850248001123456, 1);
                    (63850248002123456, 2); (63850248003123456, 1)])
      by (rewrite parallel_counts_grid; vm_compute; reflexivity).
    rewrite Hs.
    repeat (apply Forall_cons; [vm_compute; discriminate|]). apply Forall_nil. }
  split; [exact H|split; [exact Hne|split; [exact Hc|split; [exact He|]]]].
  destruct (proj2 (main_prints sample_log _ _ _ H) Hne Hc He)
    as (chart & Hm & Hl & _).
  exists chart. split; assumption.
Defined.

Lemma main_overflow_witness :
  parse_log_lines overflow_log = Ok overflow_parsed /\
  In ("A", datetime_of 2024 5 1 12 0 0 100000) (starts_of overflow_parsed) /\
  dict_get (durations_of overflow_parsed) "A" = Some (f64_of_Z (10 ^ 15)) /\
  timedelta_of_float (f64_of_Z (10 ^ 15)) = Raise OverflowError /\
  main overflow_log = Raise OverflowError.
Proof.
  assert (H : parse_log_lines overflow_log = Ok overflow_parsed)
    by (vm_compute; reflexivity).
  assert (Hin : In ("A", datetime_of 2024 5 1 12 0 0 100000)
                  (starts_of overflow_parsed)) by (now left).
  assert (Hd : dict_get (durations_of overflow_parsed) "A"
               = Some (f64_of_Z (10 ^ 15))) by reflexivity.
  assert (Ht : timedelta_of_float (f64_of_Z (10 ^ 15)) = Raise OverflowError)
    by (vm_compute; reflexivity).
  split; [exact H|split; [exact Hin|split; [exact Hd|split; [exact Ht|]]]].
  apply (proj1 (proj2 (main_overflow overflow_log _ _ _ H))
           "A" (datetime_of 2024 5 1 12 0 0 100000) (f64_of_Z (10 ^ 15)) Hin Hd).
  left. exists OverflowError. exact Ht.
Defined.

Lemma parse_log_lines_fallback_unused_witness :
  parse_log_lines sample_log = Ok sample_parsed /\
  build_timeline whole_microseconds (starts_of sample_parsed)
    (ends_of sample_parsed) (durations_of sample_parsed)
  = build_timeline timedelta_value (starts_of sample_parsed)
      (ends_of sample_parsed) (durations_of sample_parsed).
Proof.
  assert (H : parse_log_lines sample_log = Ok sample_parsed)
    by (vm_compute; reflexivity).
  split; [exact H|].
  exact (proj1 (proj2 (proj2 (parse_log_lines_fallback_unused whole_microseconds
                                timedelta_value sample_log _ _ _ H)))).
Defined.

(** ** The theorem on the builder *)

